(** * Timestamp_Parser_toDays: the timestamp parser and its properties

    The development follows [src/Date_Time_Parser/Timestamp_Parser_toDays.py]:
    first the part of Python the parser stands on, then the parser, then
    what holds of it.

    - A Python [str] is a Rocq string whose characters are the code
      points 0..255, the Latin-1 part of Unicode; it holds every
      character the source names, the middle dot included.
    - [re], [datetime] and [datetime.strptime] are given as far as the
      source uses them, after CPython 3.11 and with the month names of
      the C locale.
    - [datetime.now()] reads a clock.  The statements are about runs in
      which the clock reads one instant, the reference instant, at every
      call.  [print] adds a line to standard output and does not fail.
    - [int] and [str] convert between integers and decimal text as the
      interpreter does when started without options: a numeral of more
      than 4300 digits is refused with ValueError. *)

From Stdlib Require Import ZArith NArith List Bool Ascii String Lia.
Import ListNotations.
Local Open Scope string_scope.

(** ** Characters and [str] methods *)

Module Str.

Definition code (c : ascii) : N := N_of_ascii c.

Definition in_range (lo hi : N) (c : ascii) : bool :=
  ((lo <=? code c) && (code c <=? hi))%N.

(** [str.isspace] of one character, which is also the regex class [\s]. *)
Definition isspace (c : ascii) : bool :=
  in_range 9 13 c || in_range 28 32 c || (code c =? 133)%N || (code c =? 160)%N.

(** Unicode decimal digits, the regex class [\d]: only 0-9 below 256. *)
Definition isdecimal (c : ascii) : bool := in_range 48 57 c.

Definition isalpha (c : ascii) : bool :=
  in_range 65 90 c || in_range 97 122 c
  || (code c =? 170)%N || (code c =? 181)%N || (code c =? 186)%N
  || in_range 192 214 c || in_range 216 246 c || in_range 248 255 c.

(** [str.isalnum]: letters, decimals, the superscript digits and the
    vulgar fractions. *)
Definition isalnum (c : ascii) : bool :=
  isalpha c || isdecimal c
  || (code c =? 178)%N || (code c =? 179)%N || (code c =? 185)%N
  || in_range 188 190 c.

(** The regex class [\w]. *)
Definition isword (c : ascii) : bool := isalnum c || (code c =? 95)%N.

Definition lower_char (c : ascii) : ascii :=
  if in_range 65 90 c || in_range 192 214 c || in_range 216 222 c
  then ascii_of_N (code c + 32)
  else c.

Fixpoint lower (s : string) : string :=
  match s with
  | EmptyString => EmptyString
  | String c s' => String (lower_char c) (lower s')
  end.

Fixpoint rev_onto (s acc : string) : string :=
  match s with
  | EmptyString => acc
  | String c s' => rev_onto s' (String c acc)
  end.

Definition rev (s : string) : string := rev_onto s "".

Fixpoint lstrip (s : string) : string :=
  match s with
  | String c s' => if isspace c then lstrip s' else s
  | EmptyString => EmptyString
  end.

Definition rstrip (s : string) : string := rev (lstrip (rev s)).

(** [s.strip()] *)
Definition strip (s : string) : string := rstrip (lstrip s).

(** [sub in s] *)
Fixpoint contains (sub s : string) : bool :=
  prefix sub s ||
  match s with
  | EmptyString => false
  | String _ s' => contains sub s'
  end.

Fixpoint take (n : nat) (s : string) : string :=
  match n, s with
  | S n', String c s' => String c (take n' s')
  | _, _ => EmptyString
  end.

Fixpoint all (p : ascii -> bool) (s : string) : bool :=
  match s with
  | EmptyString => true
  | String c s' => p c && all p s'
  end.

(** [c * n] for a text [c] of one character. *)
Fixpoint repeat (c : ascii) (n : nat) : string :=
  match n with
  | O => EmptyString
  | S n' => String c (repeat c n')
  end.

End Str.

(** ** Regular expressions: the part of [re] the source relies on *)

Module Re.

Inductive cls :=
| CDigit                        (* \d *)
| CSpace                        (* \s *)
| CDot                          (* .  (no DOTALL) *)
| CSet (members : string)       (* [abc] *)
| CRange (lo hi : ascii).       (* [a-z] *)

Inductive regex :=
| Eps
| Chr (c : ascii)
| Cls (cl : cls)
| Seq (r1 r2 : regex)
| Alt (r1 r2 : regex)
| Opt (r : regex)                               (* r?  greedy *)
| Rep (cl : cls) (lo : nat) (hi : option nat)   (* cl{lo,hi}  greedy *)
| Grp (name : string) (r : regex)               (* capturing group *)
| WordB                                         (* \b *)
| EndS.                                         (* $  (no MULTILINE) *)

Fixpoint lit (s : string) : regex :=
  match s with
  | EmptyString => Eps
  | String c EmptyString => Chr c
  | String c s' => Seq (Chr c) (lit s')
  end.

Fixpoint seqs (rs : list regex) : regex :=
  match rs with
  | [] => Eps
  | [r] => r
  | r :: rs' => Seq r (seqs rs')
  end.

Fixpoint alts (rs : list regex) : regex :=
  match rs with
  | [] => Eps
  | [r] => r
  | r :: rs' => Alt r (alts rs')
  end.

Definition plus (cl : cls) : regex := Rep cl 1 None.
Definition star (cl : cls) : regex := Rep cl 0 None.

Definition in_cls (cl : cls) (a : ascii) : bool :=
  match cl with
  | CDigit => Str.isdecimal a
  | CSpace => Str.isspace a
  | CDot => negb (Str.code a =? 10)%N
  | CSet members => Str.contains (String a EmptyString) members
  | CRange lo hi => Str.in_range (Str.code lo) (Str.code hi) a
  end.

(** Groups that took part in a match, most recent first. *)
Definition captures := list (string * string).

Fixpoint group (name : string) (caps : captures) : option string :=
  match caps with
  | [] => None
  | (n, v) :: caps' => if String.eqb n name then Some v else group name caps'
  end.

Definition word_at (s : string) : bool :=
  match s with
  | String a _ => Str.isword a
  | EmptyString => false
  end.

(** The text between two positions, both given as reversed prefixes. *)
Definition between (pre pre' : string) : string :=
  Str.rev (Str.take (String.length pre' - String.length pre) pre').

Section Matcher.

(** [ic] is re.IGNORECASE: a literal then matches when the lowercased
    characters agree.  The classes used under that flag hold digits and
    white space only, which have no case. *)
Variable ic : bool.
Context {A : Type}.

Definition chr_eq (c a : ascii) : bool :=
  if ic then Ascii.eqb (Str.lower_char c) (Str.lower_char a) else Ascii.eqb c a.

(** A continuation receives the reversed text before the position, the
    text from the position on, and the groups so far. *)
Definition cont := string -> string -> captures -> option A.

Fixpoint rep (cl : cls) (k : cont) (caps : captures)
         (lo : nat) (hi : option nat) (pre rest : string) {struct rest} : option A :=
  let stop := match lo with O => k pre rest caps | S _ => None end in
  let more := match hi with Some O => false | _ => true end in
  match rest with
  | String a rest' =>
      if more && in_cls cl a then
        match rep cl k caps (Nat.pred lo) (option_map Nat.pred hi) (String a pre) rest' with
        | Some x => Some x
        | None => stop
        end
      else stop
  | EmptyString => stop
  end.

(** Backtracking in the order of [re]: alternatives left to right,
    repetitions longest first. *)
Fixpoint run (r : regex) (pre rest : string) (caps : captures) (k : cont) : option A :=
  match r with
  | Eps => k pre rest caps
  | Chr c =>
      match rest with
      | String a rest' => if chr_eq c a then k (String a pre) rest' caps else None
      | EmptyString => None
      end
  | Cls cl =>
      match rest with
      | String a rest' => if in_cls cl a then k (String a pre) rest' caps else None
      | EmptyString => None
      end
  | Seq r1 r2 => run r1 pre rest caps (fun pre' rest' caps' => run r2 pre' rest' caps' k)
  | Alt r1 r2 =>
      match run r1 pre rest caps k with
      | Some x => Some x
      | None => run r2 pre rest caps k
      end
  | Opt r1 =>
      match run r1 pre rest caps k with
      | Some x => Some x
      | None => k pre rest caps
      end
  | Rep cl lo hi => rep cl k caps lo hi pre rest
  | Grp name r1 =>
      run r1 pre rest caps
          (fun pre' rest' caps' => k pre' rest' ((name, between pre pre') :: caps'))
  | WordB => if xorb (word_at pre) (word_at rest) then k pre rest caps else None
  | EndS =>
      match rest with
      | EmptyString => k pre rest caps
      | String a EmptyString => if (Str.code a =? 10)%N then k pre rest caps else None
      | _ => None
      end
  end.

End Matcher.

(** A match object: where it starts and ends, and its groups. *)
Record rmatch := { m_start : nat; m_end : nat; m_groups : captures }.

(** One attempt at the position after [pre].  [must_advance] refuses the
    empty match, as [re.sub] asks right after an empty match. *)
Definition match_at (ic must_advance : bool) (r : regex) (pre rest : string) : option rmatch :=
  run ic r pre rest []
      (fun pre' _ caps =>
         if must_advance && (String.length pre' =? String.length pre)%nat then None
         else Some {| m_start := String.length pre; m_end := String.length pre'; m_groups := caps |}).

Fixpoint search_from (ic : bool) (r : regex) (pre rest : string) : option rmatch :=
  match match_at ic false r pre rest with
  | Some m => Some m
  | None =>
      match rest with
      | String a rest' => search_from ic r (String a pre) rest'
      | EmptyString => None
      end
  end.

(** [re.search(r, s)] *)
Definition search (r : regex) (s : string) : option rmatch := search_from false r "" s.

(** [m.group(name)], as a string; a group that took no part gives None. *)
Definition mgroup (m : rmatch) (name : string) : option string := group name (m_groups m).

(** [re.sub]: [skip] counts the characters of the current match still to
    be dropped. *)
Fixpoint sub_from (r : regex) (repl : string) (skip : nat) (pre rest : string) : string :=
  match skip, rest with
  | S n, String a rest' => sub_from r repl n (String a pre) rest'
  | S _, EmptyString => EmptyString
  | O, _ =>
      let span m := (m_end m - m_start m)%nat in
      let step (emitted : string) (len : nat) :=
        match rest with
        | String a rest' =>
            match len with
            | O => emitted ++ String a (sub_from r repl 0 (String a pre) rest')
            | S n => emitted ++ sub_from r repl n (String a pre) rest'
            end
        | EmptyString => emitted
        end in
      match match_at false false r pre rest with
      | None => step "" 0%nat
      | Some m =>
          match span m with
          | S n => step repl (S n)
          | O =>
              match match_at false true r pre rest with
              | Some m' => step (repl ++ repl) (span m')
              | None => step repl 0%nat
              end
          end
      end
  end.

(** [re.sub(r, repl, s)] for a replacement text without group references. *)
Definition sub (r : regex) (repl s : string) : string := sub_from r repl 0 "" s.

End Re.

(** ** Built-ins: exceptions, [int] and [str] on integers *)

Module Py.

(** The exceptions the modelled operations raise. *)
Inductive exn := ValueError | TypeError.

(** A call that may raise. *)
Definition result (A : Type) : Type := exn + A.

Definition digit_value (c : ascii) : Z := Z.of_N (Str.code c) - 48.

Fixpoint int_digits (acc : Z) (s : string) : Z :=
  match s with
  | EmptyString => acc
  | String c s' => int_digits (10 * acc + digit_value c) s'
  end.

(** sys.int_info.default_max_str_digits: the longest numeral, in digits,
    that [int] reads and [str] writes.  The limit is in force unless the
    interpreter is started or set otherwise; the source does not touch
    it. *)
Definition int_max_str_digits : Z := 4300.

Definition too_long (digits : string) : bool :=
  (int_max_str_digits <? Z.of_nat (String.length digits))%Z.

(** [int(s)] for the texts that reach it here: decimal digits, possibly
    with white space around them.  Anything else is taken to raise
    ValueError, and so does a numeral past the limit. *)
Definition int (s : string) : result Z :=
  let t := Str.strip s in
  match t with
  | EmptyString => inl ValueError
  | _ =>
      if Str.all Str.isdecimal t
      then if too_long t then inl ValueError else inr (int_digits 0 t)
      else inl ValueError
  end.

Definition digit_char (d : Z) : ascii := ascii_of_N (Z.to_N d + 48).

Fixpoint str_digits (fuel : nat) (n : Z) (acc : string) : string :=
  match fuel with
  | O => acc
  | S fuel' =>
      let acc' := String (digit_char (n mod 10)) acc in
      if n / 10 =? 0 then acc' else str_digits fuel' (n / 10) acc'
  end%Z.

(** The decimal numeral of an integer. *)
Definition decimal (n : Z) : string :=
  if (n <? 0)%Z then String "-" (str_digits (S (Z.to_nat (Z.log2 (- n)))) (- n) "")
  else str_digits (S (Z.to_nat (Z.log2 n))) n "".

(** [str(n)], also what an f-string makes of an integer: its numeral, or
    ValueError when the digits, the sign apart, pass the limit. *)
Definition str (n : Z) : result string :=
  if too_long (decimal (Z.abs n)) then inl ValueError else inr (decimal n).

End Py.

(** ** [datetime]: dates, instants and their differences *)

Module Datetime.

Import Py.
Local Open Scope Z_scope.

Definition MINYEAR : Z := 1.
Definition MAXYEAR : Z := 9999.

Record datetime := mkdatetime
  { year : Z; month : Z; day : Z;
    hour : Z; minute : Z; second : Z; microsecond : Z }.

Record timedelta := mktimedelta { days : Z; seconds : Z; microseconds : Z }.

Definition is_leap (y : Z) : bool :=
  (y mod 4 =? 0) && (negb (y mod 100 =? 0) || (y mod 400 =? 0)).

Definition DAYS_IN_MONTH : list Z := [-1; 31; 28; 31; 30; 31; 30; 31; 31; 30; 31; 30; 31].
Definition DAYS_BEFORE_MONTH : list Z := [-1; 0; 31; 59; 90; 120; 151; 181; 212; 243; 273; 304; 334].

Definition days_in_month (y m : Z) : Z :=
  if (m =? 2) && is_leap y then 29 else nth (Z.to_nat m) DAYS_IN_MONTH 0.

Definition days_before_year (y : Z) : Z :=
  let y := y - 1 in y * 365 + y / 4 - y / 100 + y / 400.

Definition days_before_month (y m : Z) : Z :=
  nth (Z.to_nat m) DAYS_BEFORE_MONTH 0 + (if (2 <? m) && is_leap y then 1 else 0).

Definition ymd2ord (y m d : Z) : Z :=
  days_before_year y + days_before_month y m + d.

Definition check_date_fields (y m d : Z) : bool :=
  (MINYEAR <=? y) && (y <=? MAXYEAR) && (1 <=? m) && (m <=? 12)
  && (1 <=? d) && (d <=? days_in_month y m).

(** [datetime(y, m, d)]: midnight of a day that exists, else ValueError. *)
Definition new (y m d : Z) : result datetime :=
  if check_date_fields y m d then inr (mkdatetime y m d 0 0 0 0) else inl ValueError.

Definition toordinal (t : datetime) : Z := ymd2ord (year t) (month t) (day t).

(** [a.date() > b.date()] *)
Definition date_gt (a b : datetime) : bool :=
  match year a ?= year b with
  | Gt => true
  | Lt => false
  | Eq =>
      match month a ?= month b with
      | Gt => true
      | Lt => false
      | Eq => day b <? day a
      end
  end.

(** [timedelta(days, seconds, microseconds)] on integers, with its carries. *)
Definition new_timedelta (d s us : Z) : timedelta :=
  let s := s + us / 1000000 in
  mktimedelta (d + s / 86400) (s mod 86400) (us mod 1000000).

(** [a - b] on two naive instants. *)
Definition sub (a b : datetime) : timedelta :=
  let secs t := second t + minute t * 60 + hour t * 3600 in
  new_timedelta (toordinal a - toordinal b) (secs a - secs b)
                (microsecond a - microsecond b).

(** What [datetime.now()] can return. *)
Definition valid (t : datetime) : Prop :=
  check_date_fields (year t) (month t) (day t) = true
  /\ 0 <= hour t < 24 /\ 0 <= minute t < 60 /\ 0 <= second t < 60
  /\ 0 <= microsecond t < 1000000.

End Datetime.

(** ** [datetime.strptime], after CPython's _strptime.py *)

Module Strptime.

Import Py Re Datetime.

(** LocaleTime for the C locale, names in lower case. *)
Definition f_month : list string :=
  [""; "january"; "february"; "march"; "april"; "may"; "june"; "july";
   "august"; "september"; "october"; "november"; "december"].
Definition a_month : list string :=
  [""; "jan"; "feb"; "mar"; "apr"; "may"; "jun"; "jul";
   "aug"; "sep"; "oct"; "nov"; "dec"].

Fixpoint insert_by_len (x : string) (l : list string) : list string :=
  match l with
  | [] => [x]
  | y :: l' =>
      if (String.length y <=? String.length x)%nat then x :: l
      else y :: insert_by_len x l'
  end.

(** [sorted(to_convert, key=len, reverse=True)]: longest first, stable. *)
Definition sorted_by_len (l : list string) : list string :=
  fold_right insert_by_len [] l.

Definition seqToRE (to_convert : list string) (directive : string) : regex :=
  Grp directive (alts (map lit (sorted_by_len to_convert))).

Definition digit_range (lo hi : ascii) : regex := Cls (CRange lo hi).

(** The entries of TimeRE that the source's templates use. *)
Definition directive (d : ascii) : option regex :=
  match d with
  | "d"%char =>   (* (?P<d>3[0-1]|[1-2]\d|0[1-9]|[1-9]| [1-9]) *)
      Some (Grp "d" (alts [Seq (Chr "3") (digit_range "0" "1");
                           Seq (digit_range "1" "2") (Cls CDigit);
                           Seq (Chr "0") (digit_range "1" "9");
                           digit_range "1" "9";
                           Seq (Chr " ") (digit_range "1" "9")]))
  | "m"%char =>   (* (?P<m>1[0-2]|0[1-9]|[1-9]) *)
      Some (Grp "m" (alts [Seq (Chr "1") (digit_range "0" "2");
                           Seq (Chr "0") (digit_range "1" "9");
                           digit_range "1" "9"]))
  | "Y"%char =>   (* (?P<Y>\d\d\d\d) *)
      Some (Grp "Y" (seqs [Cls CDigit; Cls CDigit; Cls CDigit; Cls CDigit]))
  | "B"%char => Some (seqToRE (tl f_month) "B")
  | "b"%char => Some (seqToRE (tl a_month) "b")
  | _ => None
  end.

(** [TimeRE.pattern]: a run of white space becomes [\s+], a directive its
    regex, any other character itself.  None stands for the KeyError or
    IndexError of a bad directive. *)
Fixpoint pattern (in_space : bool) (format : string) : option (list regex) :=
  match format with
  | EmptyString => Some []
  | String "%" EmptyString => None
  | String "%" (String d format') =>
      match directive d, pattern false format' with
      | Some r, Some rs => Some (r :: rs)
      | _, _ => None
      end
  | String c format' =>
      if Str.isspace c then
        if in_space then pattern true format'
        else option_map (cons (plus CSpace)) (pattern true format')
      else option_map (cons (Chr c)) (pattern false format')
  end.

Fixpoint index (x : string) (l : list string) : option nat :=
  match l with
  | [] => None
  | y :: l' => if String.eqb y x then Some O else option_map S (index x l')
  end.

(** The fields read so far: year (None until a %Y is seen), month, day. *)
Definition fields : Type := option Z * Z * Z.

Definition set_field (acc : result fields) (kv : string * string) : result fields :=
  match acc with
  | inl e => inl e
  | inr (y, m, d) =>
      let (group_key, text) := kv in
      if String.eqb group_key "Y" then
        match int text with inr v => inr (Some v, m, d) | inl e => inl e end
      else if String.eqb group_key "m" then
        match int text with inr v => inr (y, v, d) | inl e => inl e end
      else if String.eqb group_key "B" then
        match index (Str.lower text) f_month with
        | Some i => inr (y, Z.of_nat i, d)
        | None => inl ValueError
        end
      else if String.eqb group_key "b" then
        match index (Str.lower text) a_month with
        | Some i => inr (y, Z.of_nat i, d)
        | None => inl ValueError
        end
      else if String.eqb group_key "d" then
        match int text with inr v => inr (y, m, v) | inl e => inl e end
      else inr (y, m, d)
  end.

(** The second half of _strptime: from the match object to the date. *)
Definition convert (data_string : string) (found : option rmatch) : result datetime :=
  match found with
  | None => inl ValueError                     (* does not match format *)
  | Some found =>
      if negb (String.length data_string =? m_end found)%nat
      then inl ValueError                      (* unconverted data remains *)
      else
        match fold_left set_field (List.rev (m_groups found)) (inr (None, 1, 1)%Z) with
        | inl e => inl e
        | inr (y, m, d) =>
            let leap_year_fix :=
              match y with None => (m =? 2)%Z && (d =? 29)%Z | Some _ => false end in
            let y_checked :=
              match y with
              | Some v => v
              | None => if leap_year_fix then 1904%Z else 1900%Z
              end in
            (* datetime_date(year, month, day) inside _strptime *)
            if negb (check_date_fields y_checked m d) then inl ValueError
            else new (match y with Some v => v | None => 1900%Z end) m d
        end
  end.

(** [datetime.strptime(data_string, format)] *)
Definition strptime (data_string format : string) : result datetime :=
  match pattern false format with
  | None => inl ValueError                     (* bad directive *)
  | Some rs => convert data_string (match_at true false (seqs rs) "" data_string)
  end.

End Strptime.

(** ** Effects: the clock, standard output, early return and exceptions *)

Module Eff.

Import Py Datetime.

(** What a run has consumed and produced: the number of clock readings
    taken and the lines printed. *)
Record world := mkworld { ticks : nat; stdout : list string }.

Definition world0 : world := mkworld 0 [].

(** How a block of statements ends: it falls through with a value, it
    executes [return], or it raises. *)
Inductive outcome (R A : Type) :=
| Normal (a : A)
| Returned (r : R)
| Raised (e : exn).
Arguments Normal {R A} a.
Arguments Returned {R A} r.
Arguments Raised {R A} e.

(** A block inside a function returning [R]; the clock gives the n-th
    reading of [datetime.now()]. *)
Definition M (R A : Type) : Type := (nat -> datetime) -> world -> world * outcome R A.

Definition ret {R A} (a : A) : M R A := fun _ w => (w, Normal a).

Definition bind {R A B} (m : M R A) (f : A -> M R B) : M R B :=
  fun clk w =>
    match m clk w with
    | (w', Normal a) => f a clk w'
    | (w', Returned r) => (w', Returned r)
    | (w', Raised e) => (w', Raised e)
    end.

Definition return_ {R A} (r : R) : M R A := fun _ w => (w, Returned r).

Definition raise {R A} (e : exn) : M R A := fun _ w => (w, Raised e).

(** The value of a call that may raise. *)
Definition lift {R A} (x : result A) : M R A :=
  match x with
  | inr a => ret a
  | inl e => raise e
  end.

Definition print {R} (line : string) : M R unit :=
  fun _ w => (mkworld (ticks w) (stdout w ++ [line]), Normal tt).

Definition datetime_now {R} : M R datetime :=
  fun clk w => (mkworld (S (ticks w)) (stdout w), Normal (clk (ticks w))).

(** [try: body  except ValueError: handler] *)
Definition try_except_ValueError {R A} (body handler : M R A) : M R A :=
  fun clk w =>
    match body clk w with
    | (w', Raised ValueError) => handler clk w'
    | other => other
    end.

(** [for x in xs: body], threading the local variables the loop updates. *)
Fixpoint for_fold {R X S} (xs : list X) (s : S) (body : S -> X -> M R S) : M R S :=
  match xs with
  | [] => ret s
  | x :: xs' => bind (body s x) (fun s' => for_fold xs' s' body)
  end.

(** [for x in xs: body] *)
Fixpoint for_each {R X} (xs : list X) (body : X -> M R unit) : M R unit :=
  match xs with
  | [] => ret tt
  | x :: xs' => bind (body x) (fun _ => for_each xs' body)
  end.

(** Calling a function: its [return] gives the value of the call; falling
    off its end gives [none]. *)
Definition call {R R' : Type} (none : R) (body : M R unit) : M R' R :=
  fun clk w =>
    match body clk w with
    | (w', Normal _) => (w', Normal none)
    | (w', Returned r) => (w', Normal r)
    | (w', Raised e) => (w', Raised e)
    end.

Module Notations.
  Notation "x <- m ;; k" := (bind m (fun x => k))
    (at level 61, m at next level, right associativity).
  Notation "m ;; k" := (bind m (fun _ => k))
    (at level 61, right associativity).
End Notations.

End Eff.

(** ** The parser *)

Import Py Re Datetime Eff Eff.Notations.

(** A pattern as the source writes it, next to its parsed form. *)
Record pattern := mkpattern { source : string; compiled : regex }.

(** The object built by [TimestampParser(verbose)]. *)
Record TimestampParser := mkTimestampParser
  { verbose : bool;
    month_mappings : list (string * string) }.

Definition init (verbose : bool) : TimestampParser :=
  {| verbose := verbose;
     month_mappings :=
       [("jan", "january"); ("feb", "february"); ("mar", "march"); ("apr", "april");
        ("may", "may"); ("jun", "june"); ("jul", "july"); ("aug", "august");
        ("sep", "september"); ("sept", "september"); ("oct", "october");
        ("nov", "november"); ("dec", "december")] |}.

(** [self.log(message)] *)
Definition log {R} (self : TimestampParser) (message : string) : M R unit :=
  if verbose self then print ("[TimestampParser] " ++ message) else ret tt.

(** [key in d] and [d[key]] on a dict kept in insertion order. *)
Fixpoint dict_get (key : string) (d : list (string * string)) : option string :=
  match d with
  | [] => None
  | (k, v) :: d' => if String.eqb k key then Some v else dict_get key d'
  end.

Definition immediate_phrases : list string :=
  ["just now"; " now"; "a moment ago"; "moments ago"].

Definition time_units : list (pattern * Z) :=
  [ (mkpattern "(\d+)\s*s(?:ec|ecs|econd|econds)?\b"
       (seqs [Grp "1" (plus CDigit); star CSpace; Chr "s";
              Opt (alts [lit "ec"; lit "ecs"; lit "econd"; lit "econds"]); WordB]),
     0%Z);
    (mkpattern "(\d+)\s*(?:m|min|mins|minute|minutes)\b"
       (seqs [Grp "1" (plus CDigit); star CSpace;
              alts [lit "m"; lit "min"; lit "mins"; lit "minute"; lit "minutes"]; WordB]),
     0%Z);
    (mkpattern "(\d+)\s*(?:h|hr|hrs|hour|hours)\b"
       (seqs [Grp "1" (plus CDigit); star CSpace;
              alts [lit "h"; lit "hr"; lit "hrs"; lit "hour"; lit "hours"]; WordB]),
     0%Z) ].

(** The value of [m.group(n)] handed to [int]: None is not a string. *)
Definition int_of_group (x : option string) : result Z :=
  match x with
  | Some s => int s
  | None => inl TypeError
  end.

Definition times (f : Z) (x : option string) : result Z :=
  match int_of_group x with
  | inr n => inr (n * f)%Z
  | inl e => inl e
  end.

Definition day_pattern : pattern :=
  mkpattern "(\d+)\s*(?:d|day|days)\b(?:\s*ago)?"
    (seqs [Grp "1" (plus CDigit); star CSpace;
           alts [lit "d"; lit "day"; lit "days"]; WordB;
           Opt (Seq (star CSpace) (lit "ago"))]).

Definition week_pattern : pattern :=
  mkpattern "(\d+)\s*(?:w|wk|week|weeks)\b(?:\s*ago)?"
    (seqs [Grp "1" (plus CDigit); star CSpace;
           alts [lit "w"; lit "wk"; lit "week"; lit "weeks"]; WordB;
           Opt (Seq (star CSpace) (lit "ago"))]).

Definition relative_patterns : list (pattern * (option string -> result Z)) :=
  [ (day_pattern, int_of_group);       (* lambda x: int(x) *)
    (week_pattern, times 7) ].         (* lambda x: int(x) * 7 *)

(** \s+at\s+\d{1,2}:\d{2}(?::\d{2})?(?:\s*[ap]m)? *)
Definition time_of_day : regex :=
  seqs [plus CSpace; lit "at"; plus CSpace; Rep CDigit 1 (Some 2); Chr ":";
        Rep CDigit 2 (Some 2);
        Opt (Seq (Chr ":") (Rep CDigit 2 (Some 2)));
        Opt (seqs [star CSpace; Cls (CSet "ap"); Chr "m"])].

(** \s*[\|·].*$   (the middle dot is U+00B7) *)
Definition trailing_info : regex :=
  seqs [star CSpace; Cls (CSet (String "|" (String "183" EmptyString)));
        star CDot; EndS].

(** \s+ago\s*$ *)
Definition trailing_ago : regex :=
  seqs [plus CSpace; lit "ago"; star CSpace; EndS].

(** \b{abbrev}\b *)
Definition whole_word (abbrev : string) : regex :=
  seqs [WordB; lit abbrev; WordB].

(** The clean-up between the relative stages and the date stages. *)
Definition clean (self : TimestampParser) (ts_lower : string) : string :=
  let ts_cleaned := Str.strip (Re.sub time_of_day "" ts_lower) in
  let ts_cleaned := Str.strip (Re.sub trailing_info "" ts_cleaned) in
  let ts_cleaned := Str.strip (Re.sub trailing_ago "" ts_cleaned) in
  fold_left (fun ts_cleaned '(abbrev, full_name) =>
               Re.sub (whole_word abbrev) full_name ts_cleaned)
            (month_mappings self) ts_cleaned.

Definition date_formats_with_year : list string :=
  ["%d %B %Y"; "%B %d, %Y"; "%b %d, %Y"; "%d %b %Y"; "%Y-%m-%d"; "%m/%d/%Y";
   "%d/%m/%Y"; "%Y/%m/%d"; "%B %d %Y"; "%d-%B-%Y"; "%d-%b-%Y"; "%B %d, %Y"].

Definition date_formats_no_year : list string :=
  ["%d %B"; "%B %d"; "%d %b"; "%b %d"; "%m/%d"; "%d/%m"; "%d-%B"; "%d-%b"].

Definition special_patterns : list (pattern * (option string -> result Z)) :=
  [ (mkpattern "(\d+)\s+days?\s+ago"
       (seqs [Grp "1" (plus CDigit); plus CSpace; lit "day"; Opt (Chr "s");
              plus CSpace; lit "ago"]),
     int_of_group);
    (mkpattern "(\d+)\s+weeks?\s+ago"
       (seqs [Grp "1" (plus CDigit); plus CSpace; lit "week"; Opt (Chr "s");
              plus CSpace; lit "ago"]),
     times 7);
    (mkpattern "(\d+)\s+months?\s+ago"
       (seqs [Grp "1" (plus CDigit); plus CSpace; lit "month"; Opt (Chr "s");
              plus CSpace; lit "ago"]),
     times 30);
    (mkpattern "(\d+)\s+years?\s+ago"
       (seqs [Grp "1" (plus CDigit); plus CSpace; lit "year"; Opt (Chr "s");
              plus CSpace; lit "ago"]),
     times 365) ].

(** (\d{1,2})\s+([a-z]+)(?:\s+(\d{4}))? *)
Definition date_pattern : regex :=
  seqs [Grp "1" (Rep CDigit 1 (Some 2)); plus CSpace;
        Grp "2" (plus (CRange "a" "z"));
        Opt (Seq (plus CSpace) (Grp "3" (Rep CDigit 4 (Some 4))))].

(** How an f-string prints a group. *)
Definition show (x : option string) : string :=
  match x with
  | Some s => s
  | None => "None"
  end.

(** [if x:] on a group. *)
Definition truthy (x : option string) : bool :=
  match x with
  | Some (String _ _) => true
  | _ => false
  end.

(** The candidate of a yearless date: this year's date, or last year's
    when this year's lies after today. *)
Definition assume_year {R} (self : TimestampParser) (announce : bool)
           (now parsed_dt_curr_year : datetime) : M R datetime :=
  if date_gt parsed_dt_curr_year now then
    parsed_dt <- lift (new (year now - 1) (month parsed_dt_curr_year) (day parsed_dt_curr_year)) ;;
    (if announce
     then last_year <- lift (str (year now - 1)) ;;
          log self ("Date appears to be from last year (" ++ last_year ++ ")")
     else ret tt) ;;
    ret parsed_dt
  else ret parsed_dt_curr_year.

Definition parse_timestamp_to_days (self : TimestampParser) (timestamp : string)
  : M (option Z) unit :=
  let ts_lower := Str.strip (Str.lower timestamp) in
  now <- datetime_now ;;
  log self ("Parsing timestamp: '" ++ ts_lower ++ "'") ;;
  (if String.eqb ts_lower "" then return_ None else ret tt) ;;
  (* immediate timestamps *)
  (if existsb (fun phrase => Str.contains phrase ts_lower) immediate_phrases then
     log self "Matched immediate timestamp - returning 0 days" ;;
     return_ (Some 0%Z)
   else ret tt) ;;
  (* seconds, minutes, hours *)
  for_each time_units (fun '(pattern, days) =>
    match search (compiled pattern) ts_lower with
    | Some _ =>
        shown <- lift (str days) ;;
        log self ("Matched time unit pattern: " ++ source pattern
                  ++ " - returning " ++ shown ++ " days") ;;
        return_ (Some days)
    | None => ret tt
    end) ;;
  (if Str.contains "yesterday" ts_lower then
     log self "Matched 'yesterday' - returning 1 day" ;;
     return_ (Some 1%Z)
   else ret tt) ;;
  (* days and weeks, short forms included *)
  for_each relative_patterns (fun '(pattern, converter) =>
    match search (compiled pattern) ts_lower with
    | Some m =>
        result <- lift (converter (mgroup m "1")) ;;
        shown <- lift (str result) ;;
        log self ("Matched relative pattern: " ++ source pattern
                  ++ " - returning " ++ shown ++ " days") ;;
        return_ (Some result)
    | None => ret tt
    end) ;;
  let ts_cleaned := clean self ts_lower in
  log self ("Cleaned timestamp: '" ++ ts_cleaned ++ "'") ;;
  (* dates with a year *)
  for_each date_formats_with_year (fun fmt_str =>
    try_except_ValueError
      (parsed_dt <- lift (Strptime.strptime ts_cleaned fmt_str) ;;
       let days_diff := days (Datetime.sub now parsed_dt) in
       shown <- lift (str days_diff) ;;
       log self ("Successfully parsed with format '" ++ fmt_str ++ "' - "
                 ++ shown ++ " days ago") ;;
       return_ (Some (Z.max 0 days_diff)))
      (ret tt)) ;;
  (* dates without a year *)
  for_each date_formats_no_year (fun fmt_str =>
    try_except_ValueError
      (this_year <- lift (str (year now)) ;;
       parsed_dt_curr_year <-
         lift (Strptime.strptime (ts_cleaned ++ " " ++ this_year) (fmt_str ++ " %Y")) ;;
       parsed_dt <- assume_year self true now parsed_dt_curr_year ;;
       let days_diff := days (Datetime.sub now parsed_dt) in
       shown <- lift (str days_diff) ;;
       log self ("Successfully parsed with format '" ++ fmt_str
                 ++ "' (year assumed) - " ++ shown ++ " days ago") ;;
       return_ (Some (Z.max 0 days_diff)))
      (ret tt)) ;;
  (* "N units ago" that slipped through *)
  for_each special_patterns (fun '(pattern, converter) =>
    match search (compiled pattern) ts_lower with
    | Some m =>
        result <- lift (converter (mgroup m "1")) ;;
        shown <- lift (str result) ;;
        log self ("Matched special pattern: " ++ source pattern ++ " - "
                  ++ shown ++ " days ago") ;;
        return_ (Some result)
    | None => ret tt
    end) ;;
  (* last resort: a day and a month anywhere in the text *)
  match search date_pattern ts_cleaned with
  | Some date_pattern_match =>
      let day_str := mgroup date_pattern_match "1" in
      let month_str := mgroup date_pattern_match "2" in
      let year_str := mgroup date_pattern_match "3" in
      let month_str :=
        match dict_get (show month_str) (month_mappings self) with
        | Some full_name => Some full_name
        | None => month_str
        end in
      try_except_ValueError
        (parsed_dt <-
           (if truthy year_str then
              lift (Strptime.strptime
                      (show day_str ++ " " ++ show month_str ++ " " ++ show year_str)
                      "%d %B %Y")
            else
              this_year <- lift (str (year now)) ;;
              parsed_dt_curr_year <-
                lift (Strptime.strptime
                        (show day_str ++ " " ++ show month_str ++ " " ++ this_year)
                        "%d %B %Y") ;;
              assume_year self false now parsed_dt_curr_year) ;;
         let days_diff := days (Datetime.sub now parsed_dt) in
         shown <- lift (str days_diff) ;;
         log self ("Matched fallback pattern - " ++ shown ++ " days ago") ;;
         return_ (Some (Z.max 0 days_diff)))
        (ret tt)
  | None => ret tt
  end ;;
  log self ("Failed to parse timestamp: '" ++ timestamp ++ "' (cleaned: '"
            ++ ts_cleaned ++ "')") ;;
  return_ None.

(** [self.parse_multiple_timestamps(timestamps)] *)
Definition parse_multiple_timestamps (self : TimestampParser) (timestamps : list string)
  : M (list (string * option Z)) unit :=
  results <- for_fold timestamps [] (fun results timestamp =>
    days_ago <- call None (parse_timestamp_to_days self timestamp) ;;
    ret (results ++ [(timestamp, days_ago)])%list) ;;
  return_ results.

(** What a dict of [get_parsed_info] holds under a key. *)
Inductive value :=
| VStr (s : string)
| VInt (n : Z)
| VNone
| VBool (b : bool).

(** [self._categorize_timestamp(days_ago)] *)
Definition _categorize_timestamp (self : TimestampParser) (days_ago : Z) : string :=
  if (days_ago =? 0)%Z then "today"
  else if (days_ago =? 1)%Z then "yesterday"
  else if (days_ago <=? 7)%Z then "this_week"
  else if (days_ago <=? 30)%Z then "this_month"
  else if (days_ago <=? 365)%Z then "this_year"
  else "older_than_year".

(** [self.get_parsed_info(timestamp)]: the dict, keys in the order they
    are written. *)
Definition get_parsed_info (self : TimestampParser) (timestamp : string)
  : M (list (string * value)) unit :=
  days_ago <- call None (parse_timestamp_to_days self timestamp) ;;
  let info :=
    [ ("original", VStr timestamp);
      ("days_ago", match days_ago with Some n => VInt n | None => VNone end);
      ("parsed_successfully", VBool (match days_ago with Some _ => true | None => false end));
      ("category", VStr (match days_ago with
                         | Some n => _categorize_timestamp self n
                         | None => "unparseable"
                         end)) ] in
  return_ info.

(** The module-level [parse_timestamp] and [parse_timestamps]. *)
Definition parse_timestamp (timestamp : string) (verbose : bool) : M (option Z) unit :=
  let parser := init verbose in
  r <- call None (parse_timestamp_to_days parser timestamp) ;;
  return_ r.

Definition parse_timestamps (timestamps : list string) (verbose : bool)
  : M (list (string * option Z)) unit :=
  let parser := init verbose in
  r <- call [] (parse_multiple_timestamps parser timestamps) ;;
  return_ r.

(** *** Running a call

    [resolve] and [resolve_many] are the two operations as the
    specification names them: the reference instant is what the clock
    reads during the call, and the value is what the call returns or the
    exception that leaves it. *)

Definition run_call {R} (none : R) (body : M R unit) (reference : datetime) (w : world)
  : world * result R :=
  match body (fun _ => reference) w with
  | (w', Normal _) => (w', inr none)
  | (w', Returned r) => (w', inr r)
  | (w', Raised e) => (w', inl e)
  end.

Definition resolve (verbose : bool) (reference : datetime) (raw : string)
  : result (option Z) :=
  snd (run_call None (parse_timestamp_to_days (init verbose) raw) reference world0).

Definition resolve_many (verbose : bool) (reference : datetime) (raws : list string)
  : result (list (string * option Z)) :=
  snd (run_call [] (parse_multiple_timestamps (init verbose) raws) reference world0).

(** [get_parsed_info] run the same way. *)
Definition parsed_info (verbose : bool) (reference : datetime) (raw : string)
  : result (list (string * value)) :=
  snd (run_call [] (get_parsed_info (init verbose) raw) reference world0).

(** *** Vocabulary of the statements *)

(** The text every stage looks at. *)
Definition normalize (raw : string) : string := Str.strip (Str.lower raw).

Definition found (p : pattern) (s : string) : bool :=
  match search (compiled p) s with
  | Some _ => true
  | None => false
  end.

(** One of the immediate phrases occurs. *)
Definition immediate (t : string) : bool :=
  existsb (fun phrase => Str.contains phrase t) immediate_phrases.

(** A count with a seconds, minutes or hours unit is found. *)
Definition sub_day (t : string) : bool :=
  existsb (fun '(p, _) => found p t) time_units.

(** Some "N units ago" pattern of the late stage is found. *)
Definition special (t : string) : bool :=
  existsb (fun '(p, _) => found p t) special_patterns.

(** No stage before the day/week shorthand answers. *)
Definition reaches_shorthand (t : string) : bool :=
  negb (String.eqb t "") && negb (immediate t) && negb (sub_day t)
  && negb (Str.contains "yesterday" t).

(** No stage before the clean-up answers. *)
Definition reaches_dates (t : string) : bool :=
  reaches_shorthand t && negb (found day_pattern t) && negb (found week_pattern t).

(** The first template, in the declared order, that strptime accepts for
    the text, with the date read. *)
Fixpoint first_accepted (text : string) (suffix : string) (formats : list string)
  : option (string * datetime) :=
  match formats with
  | [] => None
  | fmt_str :: formats' =>
      match Strptime.strptime text (fmt_str ++ suffix) with
      | inr parsed => Some (fmt_str, parsed)
      | inl _ => first_accepted text suffix formats'
      end
  end.

Definition with_year_parse (ts_cleaned : string) : option (string * datetime) :=
  first_accepted ts_cleaned "" date_formats_with_year.

(** The year a yearless candidate is given: the reference year, or the
    year before when the candidate lies after the reference date. *)
Definition assumed (now cand : datetime) : result datetime :=
  if date_gt cand now then new (year now - 1) (month cand) (day cand) else inr cand.

(** The date the yearless stage settles on: that of the first template
    that strptime accepts and whose candidate can be given a year. *)
Fixpoint no_year_date (now : datetime) (text : string) (formats : list string)
  : option datetime :=
  match formats with
  | [] => None
  | fmt_str :: formats' =>
      match Strptime.strptime text (fmt_str ++ " %Y") with
      | inr cand =>
          match assumed now cand with
          | inr parsed => Some parsed
          | inl _ => no_year_date now text formats'
          end
      | inl _ => no_year_date now text formats'
      end
  end.

(** The date the loose fallback reads out of the cleaned text, if any. *)
Definition loose_date (self : TimestampParser) (now : datetime) (ts_cleaned : string)
  : option datetime :=
  match search date_pattern ts_cleaned with
  | Some date_pattern_match =>
      let day_str := mgroup date_pattern_match "1" in
      let month_str := mgroup date_pattern_match "2" in
      let year_str := mgroup date_pattern_match "3" in
      let month_str :=
        match dict_get (show month_str) (month_mappings self) with
        | Some full_name => Some full_name
        | None => month_str
        end in
      let parsed :=
        if truthy year_str then
          Strptime.strptime
            (show day_str ++ " " ++ show month_str ++ " " ++ show year_str) "%d %B %Y"
        else
          match Strptime.strptime
                  (show day_str ++ " " ++ show month_str ++ " " ++ decimal (year now))
                  "%d %B %Y" with
          | inr cand => assumed now cand
          | inl e => inl e
          end in
      match parsed with
      | inr parsed_dt => Some parsed_dt
      | inl _ => None
      end
  | None => None
  end.

(** Whole days from a date to the reference instant's date. *)
Definition days_between (parsed reference : datetime) : Z :=
  toordinal reference - toordinal parsed.

(** The count a date stage answers with. *)
Definition clamp (now parsed : datetime) : Z := Z.max 0 (days (Datetime.sub now parsed)).

(** A text so long that a count in it may pass the limit once
    multiplied. *)
Definition long (timestamp : string) : Prop :=
  (int_max_str_digits < Z.of_nat (String.length timestamp) + 3)%Z.

(** A count of 4301 digits with the day unit: "1" * 4301 + "d". *)
Definition long_count : string := Str.repeat "1" 4301 ++ "d".

(** A result that is not a negative count. *)
Definition nonneg (r : option Z) : Prop :=
  match r with
  | Some n => (0 <= n)%Z
  | None => True
  end.

(** The reference instant lies in a leap year, before its 29 February. *)
Definition before_leap_day (reference : datetime) : Prop :=
  is_leap (year reference) = true
  /\ (month reference = 1 \/ (month reference = 2 /\ day reference < 29))%Z.

(** Spellings of a yearless 29 February, and the cleaned forms they
    lead to. *)
Definition leap_day_spellings : list string :=
  ["29 feb"; "29 Feb"; "29 FEB"; "29 february"; "29 February"; "feb 29"; "Feb 29";
   "february 29"; "February 29"; "29-feb"; "29-Feb"; "29-february";
   "02/29"; "2/29"; "29/02"; "29/2"; "29 Feb at 10:37"; "Feb 29 | Public"].

Definition leap_day_cleaned : list string :=
  ["29 february"; "february 29"; "29-february"; "02/29"; "2/29"; "29/02"; "29/2"].

(** The value of a call, from the way its body ends. *)
Definition value_of {R} (none : R) (o : outcome R unit) : result R :=
  match o with
  | Normal _ => inr none
  | Returned r => inr r
  | Raised e => inl e
  end.

(** The pairs of a batch when the n-th reading of the clock is the
    reference instant of the n-th input. *)
Fixpoint resolve_each (verbose : bool) (clk : nat -> datetime) (n : nat) (raws : list string)
  : result (list (string * option Z)) :=
  match raws with
  | [] => inr []
  | raw :: raws' =>
      match resolve verbose (clk n) raw with
      | inl e => inl e
      | inr r =>
          match resolve_each verbose clk (S n) raws' with
          | inl e => inl e
          | inr pairs => inr ((raw, r) :: pairs)
          end
      end
  end.

(** The line a verbose call prints first. *)
Definition opening_line (timestamp : string) : string :=
  "[TimestampParser] Parsing timestamp: '" ++ normalize timestamp ++ "'".

(** A line of the trace. *)
Definition tagged (line : string) : Prop := prefix "[TimestampParser] " line = true.

(** The n-th pattern of the late stage, counted from 0. *)
Definition special_pattern (n : nat) : pattern :=
  fst (nth n special_patterns (day_pattern, int_of_group)).

(** *** Reasoning about blocks

    Both judgements are taken under a clock that reads [now] at every
    call.  [wp] is a weakest precondition with one postcondition for each
    way a block can end; [sim] relates two blocks that end the same way
    whatever has been printed or read before. *)

Definition wp {R A} (now : datetime) (m : M R A)
           (Qn : A -> Prop) (Qr : R -> Prop) (Qe : exn -> Prop) : Prop :=
  forall w,
    match snd (m (fun _ => now) w) with
    | Normal a => Qn a
    | Returned r => Qr r
    | Raised e => Qe e
    end.

Definition sim {R A} (now : datetime) (m1 m2 : M R A) : Prop :=
  forall w1 w2, snd (m1 (fun _ => now) w1) = snd (m2 (fun _ => now) w2).

Definition no_exn : exn -> Prop := fun _ => False.

(** A block that does not read the clock: it runs alike under any two
    clocks and leaves the count of readings as it is. *)
Definition unclocked {R A} (m : M R A) : Prop :=
  forall clk clk' w, m clk w = m clk' w /\ ticks (fst (m clk w)) = ticks w.

(** A block that adds nothing to standard output but lines of the trace,
    and nothing at all when [quiet]. *)
Definition traces {R A} (quiet : bool) (m : M R A) : Prop :=
  forall clk w,
  exists lines,
    stdout (fst (m clk w)) = (stdout w ++ lines)%list
    /\ Forall tagged lines
    /\ (quiet = true -> lines = []).

(** *** Devices of the proofs *)

(** A pattern without capturing groups. *)
Fixpoint groupless (r : regex) : bool :=
  match r with
  | Grp _ _ => false
  | Seq r1 r2 | Alt r1 r2 => groupless r1 && groupless r2
  | Opt r1 => groupless r1
  | _ => true
  end.

(** A pattern that opens with its only group, a run of one or more
    digits: [(\d+)...]. *)
Definition counted (p : pattern) : bool :=
  match compiled p with
  | Seq (Grp name (Rep CDigit (S _) _)) tail => String.eqb name "1" && groupless tail
  | _ => false
  end.

(** A pattern every match of which goes through a given character. *)
Fixpoint requires (c : ascii) (r : regex) : bool :=
  match r with
  | Chr c' => Ascii.eqb c' c
  | Seq r1 r2 => requires c r1 || requires c r2
  | Alt r1 r2 => requires c r1 && requires c r2
  | Grp _ r1 => requires c r1
  | _ => false
  end.

(** The first instant of a day, as strptime and [datetime(y, m, d)] give it. *)
Definition midnight (t : datetime) : Prop :=
  hour t = 0%Z /\ minute t = 0%Z /\ second t = 0%Z /\ microsecond t = 0%Z.

(** The pattern of %Y, the continuation on which [re.match] ends, and
    what the match of a template does once it reaches the year appended
    to the text: a run of white space and four digits. *)
Definition year_directive : regex :=
  Grp "Y" (seqs [Cls CDigit; Cls CDigit; Cls CDigit; Cls CDigit]).

Definition accept : cont (A:=rmatch) :=
  fun pre' _ caps => Some {| m_start := 0; m_end := String.length pre'; m_groups := caps |}.

Definition year_tail : cont (A:=rmatch) :=
  fun pre rest caps => run true (Seq (plus CSpace) year_directive) pre rest caps accept.

(** What a yearless template may make of a 29 February: nothing, or the
    29 February of the year appended. *)
Definition leap_day_or_error (y : Z) (parsed : result datetime) : Prop :=
  parsed = inl ValueError \/ parsed = inr (mkdatetime y 2 29 0 0 0 0).

(** What a pattern may span: on the text [w ++ rest], reached after the
    text of which [pre] is the reverse, the pattern can match exactly
    [w].  Case is not ignored. *)
Inductive spans : regex -> string -> string -> string -> Prop :=
| spans_eps pre rest : spans Eps pre "" rest
| spans_chr c pre rest : spans (Chr c) pre (String c "") rest
| spans_cls cl a pre rest : in_cls cl a = true -> spans (Cls cl) pre (String a "") rest
| spans_seq r1 r2 pre w1 w2 rest :
    spans r1 pre w1 (w2 ++ rest) -> spans r2 (Str.rev_onto w1 pre) w2 rest ->
    spans (Seq r1 r2) pre (w1 ++ w2) rest
| spans_alt_l r1 r2 pre w rest : spans r1 pre w rest -> spans (Alt r1 r2) pre w rest
| spans_alt_r r1 r2 pre w rest : spans r2 pre w rest -> spans (Alt r1 r2) pre w rest
| spans_opt r pre w rest : spans r pre w rest -> spans (Opt r) pre w rest
| spans_skip r pre rest : spans (Opt r) pre "" rest
| spans_rep cl lo hi pre w rest :
    Str.all (in_cls cl) w = true -> (lo <= String.length w)%nat ->
    match hi with Some h => (String.length w <= h)%nat | None => True end ->
    spans (Rep cl lo hi) pre w rest
| spans_grp name r pre w rest : spans r pre w rest -> spans (Grp name r) pre w rest
| spans_wordb pre rest : xorb (word_at pre) (word_at rest) = true -> spans WordB pre "" rest
| spans_end pre rest :
    match rest with
    | EmptyString => True
    | String a EmptyString => (Str.code a =? 10)%N = true
    | _ => False
    end ->
    spans EndS pre "" rest.

(** * Properties *)

(** ** Strings *)

Section StringFacts.

Lemma append_empty_r (s : string) : s ++ "" = s.
Proof. induction s as [|c s IH]; simpl; [reflexivity | now rewrite IH]. Qed.

Lemma append_assoc (a b c : string) : (a ++ b) ++ c = a ++ (b ++ c).
Proof. induction a as [|x a IH]; simpl; [reflexivity | now rewrite IH]. Qed.

Lemma append_length (a b : string) :
  String.length (a ++ b) = (String.length a + String.length b)%nat.
Proof. induction a as [|x a IH]; simpl; [reflexivity | now rewrite IH]. Qed.

Lemma rev_onto_rev_onto (s a b : string) :
  Str.rev_onto (Str.rev_onto s a) b = Str.rev_onto a (s ++ b).
Proof.
  revert a b. induction s as [|c s IH]; intros a b; simpl.
  - reflexivity.
  - rewrite IH. reflexivity.
Qed.

Lemma rev_involutive (s : string) : Str.rev (Str.rev s) = s.
Proof.
  unfold Str.rev. rewrite rev_onto_rev_onto. simpl. apply append_empty_r.
Qed.

Lemma rev_onto_app (s t acc : string) :
  Str.rev_onto (s ++ t) acc = Str.rev_onto t (Str.rev_onto s acc).
Proof.
  revert acc. induction s as [|c s IH]; intros acc; simpl; [reflexivity | apply IH].
Qed.

Lemma rev_onto_length (s acc : string) :
  String.length (Str.rev_onto s acc) = (String.length s + String.length acc)%nat.
Proof.
  revert acc. induction s as [|c s IH]; intros acc; simpl.
  - reflexivity.
  - rewrite IH. simpl. lia.
Qed.

Lemma take_rev_onto (n : nat) (s acc : string) :
  Str.take (String.length s + n) (Str.rev_onto s acc)
  = Str.rev_onto s (Str.take n acc).
Proof.
  revert n acc. induction s as [|c s IH]; intros n acc.
  - reflexivity.
  - change (Str.rev_onto (String c s) acc) with (Str.rev_onto s (String c acc)).
    change (Str.rev_onto (String c s) (Str.take n acc))
      with (Str.rev_onto s (Str.take (S n) (String c acc))).
    rewrite <- IH. f_equal. simpl. lia.
Qed.

Lemma take_0 (s : string) : Str.take 0 s = "".
Proof. destruct s; reflexivity. Qed.

(** A group spans exactly the text consumed while it was open. *)
Lemma between_rev_onto (w pre : string) : between pre (Str.rev_onto w pre) = w.
Proof.
  unfold between. rewrite rev_onto_length.
  replace (String.length w + String.length pre - String.length pre)%nat
    with (String.length w + 0)%nat by lia.
  rewrite take_rev_onto, take_0. apply rev_involutive.
Qed.

Lemma all_rev_onto (p : ascii -> bool) (s acc : string) :
  Str.all p s = true -> Str.all p acc = true -> Str.all p (Str.rev_onto s acc) = true.
Proof.
  revert acc. induction s as [|c s IH]; intros acc Hs Hacc; simpl in *.
  - exact Hacc.
  - apply andb_true_iff in Hs as [Hc Hs]. apply IH; [exact Hs|].
    simpl. now rewrite Hc.
Qed.

Lemma all_app (p : ascii -> bool) (s t : string) :
  Str.all p (s ++ t) = Str.all p s && Str.all p t.
Proof.
  induction s as [|c s IH]; simpl; [reflexivity|].
  rewrite IH. now rewrite andb_assoc.
Qed.

Lemma decimal_not_space (c : ascii) : Str.isdecimal c = true -> Str.isspace c = false.
Proof.
  unfold Str.isdecimal, Str.isspace, Str.in_range.
  intros H. apply andb_true_iff in H as [H1 H2].
  apply N.leb_le in H1. apply N.leb_le in H2.
  repeat (apply orb_false_iff; split);
    try (apply andb_false_iff);
    try (apply N.eqb_neq; lia).
  - right. apply N.leb_gt. lia.
  - right. apply N.leb_gt. lia.
Qed.

Lemma lstrip_decimal (s : string) : Str.all Str.isdecimal s = true -> Str.lstrip s = s.
Proof.
  destruct s as [|c s]; simpl; [reflexivity|].
  intros H. apply andb_true_iff in H as [Hc _].
  now rewrite (decimal_not_space c Hc).
Qed.

(** Stripping leaves a run of digits as it is. *)
Lemma strip_decimal (s : string) : Str.all Str.isdecimal s = true -> Str.strip s = s.
Proof.
  intros H. unfold Str.strip, Str.rstrip.
  rewrite (lstrip_decimal s H).
  rewrite lstrip_decimal.
  - apply rev_involutive.
  - unfold Str.rev. apply all_rev_onto; [exact H | reflexivity].
Qed.

(** Lowering and stripping never lengthen a text. *)
Lemma lower_length (s : string) : String.length (Str.lower s) = String.length s.
Proof. induction s as [|c s IH]; simpl; [reflexivity | now rewrite IH]. Qed.

Lemma lstrip_length (s : string) : (String.length (Str.lstrip s) <= String.length s)%nat.
Proof.
  induction s as [|c s IH]; simpl; [lia|].
  destruct (Str.isspace c); simpl; lia.
Qed.

Lemma rev_length (s : string) : String.length (Str.rev s) = String.length s.
Proof. unfold Str.rev. rewrite rev_onto_length. simpl. lia. Qed.

Lemma strip_length (s : string) : (String.length (Str.strip s) <= String.length s)%nat.
Proof.
  unfold Str.strip, Str.rstrip. rewrite rev_length.
  pose proof (lstrip_length (Str.rev (Str.lstrip s))) as H. rewrite rev_length in H.
  pose proof (lstrip_length s). lia.
Qed.

Lemma lower_app (s t : string) : Str.lower (s ++ t) = Str.lower s ++ Str.lower t.
Proof. induction s as [|c s IH]; simpl; [reflexivity | now rewrite IH]. Qed.

Lemma lower_decimal (s : string) : Str.all Str.isdecimal s = true -> Str.lower s = s.
Proof.
  induction s as [|c s IH]; simpl; [reflexivity|]. intros H.
  apply andb_true_iff in H as [Hc Hs]. rewrite (IH Hs). f_equal.
  unfold Str.lower_char, Str.isdecimal, Str.in_range in *.
  apply andb_true_iff in Hc as [H1 H2]. apply N.leb_le in H1. apply N.leb_le in H2.
  replace (65 <=? Str.code c)%N with false by (symmetry; apply N.leb_gt; lia).
  replace (192 <=? Str.code c)%N with false by (symmetry; apply N.leb_gt; lia).
  replace (216 <=? Str.code c)%N with false by (symmetry; apply N.leb_gt; lia).
  reflexivity.
Qed.

(** A text that opens and ends on characters other than white space is
    left as it is. *)
Lemma strip_inner (c z : ascii) (s : string) :
  Str.isspace c = false -> Str.isspace z = false ->
  Str.strip (String c s ++ String z "") = String c s ++ String z "".
Proof.
  intros Hc Hz. unfold Str.strip, Str.rstrip.
  cbn [append Str.lstrip]. rewrite Hc.
  change (String c (s ++ String z "")) with (String c s ++ String z "").
  assert (Hr : Str.rev (String c s ++ String z "") = String z (Str.rev (String c s))).
  { unfold Str.rev. rewrite rev_onto_app. reflexivity. }
  rewrite Hr. cbn [Str.lstrip]. rewrite Hz. rewrite <- Hr. apply rev_involutive.
Qed.

Lemma all_impl (p q : ascii -> bool) (s : string) :
  (forall a, p a = true -> q a = true) -> Str.all p s = true -> Str.all q s = true.
Proof.
  intros Hpq. induction s as [|c s IH]; simpl; [reflexivity|]. intros H.
  apply andb_true_iff in H as [Hc Hs]. now rewrite (Hpq c Hc), (IH Hs).
Qed.

(** A text in which a character does not occur holds no phrase that
    opens with it. *)
Lemma contains_lacks (c : ascii) (phrase s : string) :
  Str.all (fun a => negb (Ascii.eqb a c)) s = true ->
  Str.contains (String c phrase) s = false.
Proof.
  induction s as [|a s IH]; simpl; [reflexivity|]. intros H.
  apply andb_true_iff in H as [Ha Hs]. rewrite (IH Hs), orb_false_r.
  destruct (ascii_dec c a) as [->|_]; [|reflexivity].
  now rewrite Ascii.eqb_refl in Ha.
Qed.

End StringFacts.

(** ** [int] on captured digits *)

Section IntFacts.

Local Open Scope Z_scope.

Lemma digit_value_range (c : ascii) :
  Str.isdecimal c = true -> 0 <= digit_value c <= 9.
Proof.
  unfold Str.isdecimal, Str.in_range, digit_value. intros H.
  apply andb_true_iff in H as [H1 H2].
  apply N.leb_le in H1. apply N.leb_le in H2. lia.
Qed.

Lemma int_digits_nonneg (s : string) :
  forall acc, 0 <= acc -> Str.all Str.isdecimal s = true -> 0 <= int_digits acc s.
Proof.
  induction s as [|c s IH]; intros acc Hacc H; cbn [int_digits Str.all] in *.
  - exact Hacc.
  - apply andb_true_iff in H as [Hc Hs].
    apply IH; [|exact Hs]. pose proof (digit_value_range c Hc). lia.
Qed.

(** The value of a run of digits lies below the power of ten of its
    length. *)
Lemma int_digits_bound (s : string) :
  forall acc, 0 <= acc -> Str.all Str.isdecimal s = true ->
  int_digits acc s < (acc + 1) * 10 ^ Z.of_nat (String.length s).
Proof.
  induction s as [|c s IH]; intros acc Hacc H; cbn [int_digits Str.all String.length] in *.
  - change (10 ^ Z.of_nat 0) with 1. lia.
  - apply andb_true_iff in H as [Hc Hs]. pose proof (digit_value_range c Hc) as Hd.
    specialize (IH (10 * acc + digit_value c) ltac:(lia) Hs).
    rewrite Nat2Z.inj_succ, Z.pow_succ_r by lia.
    assert (0 < 10 ^ Z.of_nat (String.length s)) by (apply Z.pow_pos_nonneg; lia).
    nia.
Qed.

Lemma within_limit (s : string) :
  Z.of_nat (String.length s) <= int_max_str_digits -> too_long s = false.
Proof. intros H. unfold too_long. apply Z.ltb_ge. exact H. Qed.

Lemma past_limit (s : string) :
  int_max_str_digits < Z.of_nat (String.length s) -> too_long s = true.
Proof. intros H. unfold too_long. apply Z.ltb_lt. exact H. Qed.

(** [int] succeeds on a non-empty run of digits within the limit. *)
Lemma int_decimal (s : string) :
  s <> "" -> Str.all Str.isdecimal s = true -> too_long s = false ->
  int s = inr (int_digits 0 s).
Proof.
  intros Hne H Hlen. unfold int. rewrite (strip_decimal s H).
  destruct s as [|c s]; [congruence|]. now rewrite H, Hlen.
Qed.

(** [int] refuses a run of digits past the limit. *)
Lemma int_too_long (s : string) :
  Str.all Str.isdecimal s = true -> too_long s = true -> int s = inl ValueError.
Proof.
  intros H Hlen. unfold int. rewrite (strip_decimal s H).
  destruct s as [|c s]; [reflexivity|]. now rewrite H, Hlen.
Qed.

Lemma int_raises_ValueError (s : string) (e : exn) : int s = inl e -> e = ValueError.
Proof.
  unfold int. destruct (Str.strip s); [congruence|].
  destruct (Str.all _ _); [|congruence]. destruct (too_long _); congruence.
Qed.

Lemma int_of_group_decimal (s : string) :
  s <> "" -> Str.all Str.isdecimal s = true -> too_long s = false ->
  int_of_group (Some s) = inr (int_digits 0 s).
Proof. intros; simpl; now apply int_decimal. Qed.

Lemma times_decimal (f : Z) (s : string) :
  s <> "" -> Str.all Str.isdecimal s = true -> too_long s = false ->
  times f (Some s) = inr (int_digits 0 s * f).
Proof. intros; unfold times; now rewrite int_of_group_decimal. Qed.

Lemma times_too_long (f : Z) (s : string) :
  Str.all Str.isdecimal s = true -> too_long s = true -> times f (Some s) = inl ValueError.
Proof. intros Hall Hlen. unfold times, int_of_group. now rewrite int_too_long. Qed.

(** A numeral has no more digits than the powers of ten say. *)
Lemma str_digits_length (fuel : nat) :
  forall (k : nat) (n : Z) (acc : string),
    0 <= n < 10 ^ Z.of_nat (S k) ->
    (String.length (str_digits fuel n acc) <= S k + String.length acc)%nat.
Proof.
  induction fuel as [|fuel IH]; intros k n acc Hn; cbn [str_digits].
  - lia.
  - destruct (n / 10 =? 0) eqn:E.
    + simpl. lia.
    + apply Z.eqb_neq in E. destruct k as [|k].
      * exfalso. apply E. apply Z.div_small. change (10 ^ Z.of_nat 1) with 10 in Hn. lia.
      * assert (Hq : 0 <= n / 10 < 10 ^ Z.of_nat (S k)).
        { rewrite (Nat2Z.inj_succ (S k)), Z.pow_succ_r in Hn by lia.
          split; [apply Z.div_pos; lia|]. apply Z.div_lt_upper_bound; lia. }
        specialize (IH k (n / 10) (String (digit_char (n mod 10)) acc) Hq).
        simpl String.length in IH. lia.
Qed.

Lemma decimal_length (n : Z) (k : nat) :
  0 <= n < 10 ^ Z.of_nat (S k) -> (String.length (decimal n) <= S k)%nat.
Proof.
  intros Hn. unfold decimal.
  replace (n <? 0) with false by (symmetry; apply Z.ltb_ge; lia).
  pose proof (str_digits_length (S (Z.to_nat (Z.log2 n))) k n "" Hn) as H.
  change (String.length "") with 0%nat in H. lia.
Qed.

(** [str] writes an integer whose numeral stays within the limit. *)
Lemma str_short (n : Z) (k : nat) :
  Z.abs n < 10 ^ Z.of_nat (S k) -> Z.of_nat (S k) <= int_max_str_digits ->
  str n = inr (decimal n).
Proof.
  intros Hn Hk. unfold str, too_long.
  pose proof (decimal_length (Z.abs n) k ltac:(lia)) as H.
  replace (int_max_str_digits <? _) with false; [reflexivity|].
  symmetry. apply Z.ltb_ge. lia.
Qed.

Lemma str_raises_ValueError (n : Z) (e : exn) : str n = inl e -> e = ValueError.
Proof. unfold str. destruct (too_long _); congruence. Qed.

(** Day counts and years are far below the limit. *)
Lemma str_small (n : Z) : Z.abs n < 10000000 -> str n = inr (decimal n).
Proof.
  intros H. apply (str_short n 6); [exact H|]. unfold int_max_str_digits. lia.
Qed.

End IntFacts.

(** ** The matcher *)

Section MatcherFacts.

Variable ic : bool.
Context {A : Type}.

(** A repetition hands over to its continuation after a run of
    characters of its class. *)
Lemma rep_inv (cl : cls) (k : cont (A:=A)) (caps : captures) :
  forall rest lo hi pre x,
    rep cl k caps lo hi pre rest = Some x ->
    exists w rest',
      rest = w ++ rest' /\ Str.all (in_cls cl) w = true
      /\ (lo <= String.length w)%nat
      /\ k (Str.rev_onto w pre) rest' caps = Some x.
Proof.
  induction rest as [|a rest IH]; intros lo hi pre x H.
  - simpl in H. destruct lo; [|discriminate].
    exists "", "". repeat split; auto.
  - cbn [rep] in H.
    assert (Hstop : match lo with O => k pre (String a rest) caps | S _ => None end = Some x ->
                    exists w rest', String a rest = w ++ rest'
                      /\ Str.all (in_cls cl) w = true /\ (lo <= String.length w)%nat
                      /\ k (Str.rev_onto w pre) rest' caps = Some x).
    { intros Hs. destruct lo; [|discriminate].
      exists "", (String a rest). repeat split; auto. }
    destruct (match hi with Some O => false | _ => true end && in_cls cl a) eqn:Hc;
      [|now apply Hstop].
    destruct (rep cl k caps (Nat.pred lo) (option_map Nat.pred hi) (String a pre) rest)
      as [y|] eqn:Hrec; [|now apply Hstop].
    injection H as ->.
    apply IH in Hrec as (w & rest' & -> & Hall & Hlo & Hk).
    apply andb_true_iff in Hc as [_ Hc].
    exists (String a w), rest'. repeat split.
    + simpl. now rewrite Hc, Hall.
    + simpl. lia.
    + exact Hk.
Qed.

(** Whatever a pattern does, its continuation is resumed further along
    the same text, with the groups closed on the way added in front. *)
Lemma run_inv (r : regex) :
  forall pre rest caps (k : cont (A:=A)) x,
    run ic r pre rest caps k = Some x ->
    exists w rest' extra,
      rest = w ++ rest'
      /\ k (Str.rev_onto w pre) rest' (extra ++ caps)%list = Some x
      /\ (groupless r = true -> extra = []).
Proof.
  induction r as [ |c|cl|r1 IH1 r2 IH2|r1 IH1 r2 IH2|r1 IH1|cl lo hi|name r1 IH1| | ];
    intros pre rest caps k x H; cbn [run] in H.
  - exists "", rest, []. auto.
  - destruct rest as [|a rest]; [discriminate|].
    destruct (chr_eq ic c a); [|discriminate].
    exists (String a ""), rest, []. auto.
  - destruct rest as [|a rest]; [discriminate|].
    destruct (in_cls cl a); [|discriminate].
    exists (String a ""), rest, []. auto.
  - apply IH1 in H as (w1 & rest1 & extra1 & -> & H & G1).
    apply IH2 in H as (w2 & rest2 & extra2 & -> & H & G2).
    exists (w1 ++ w2), rest2, (extra2 ++ extra1)%list. repeat split.
    + now rewrite append_assoc.
    + now rewrite rev_onto_app, <- app_assoc.
    + simpl. intros G. apply andb_true_iff in G as [Ga Gb].
      now rewrite (G1 Ga), (G2 Gb).
  - destruct (run ic r1 pre rest caps k) as [y|] eqn:H1.
    + injection H as ->. apply IH1 in H1 as (w & rest' & extra & -> & H & G).
      exists w, rest', extra. repeat split; auto.
      simpl. intros G'. apply andb_true_iff in G' as [Ga _]. auto.
    + apply IH2 in H as (w & rest' & extra & -> & H & G).
      exists w, rest', extra. repeat split; auto.
      simpl. intros G'. apply andb_true_iff in G' as [_ Gb]. auto.
  - destruct (run ic r1 pre rest caps k) as [y|] eqn:H1.
    + injection H as ->. apply IH1 in H1 as (w & rest' & extra & -> & H & G).
      exists w, rest', extra. auto.
    + exists "", rest, []. auto.
  - apply rep_inv in H as (w & rest' & -> & _ & _ & H).
    exists w, rest', []. auto.
  - apply IH1 in H as (w & rest' & extra & -> & H & _).
    exists w, rest', ((name, between pre (Str.rev_onto w pre)) :: extra).
    repeat split; auto. simpl. discriminate.
  - destruct (xorb _ _); [|discriminate]. exists "", rest, []. auto.
  - destruct rest as [|a [|b rest]]; try discriminate.
    + exists "", "", []. auto.
    + destruct (Str.code a =? 10)%N; [|discriminate].
      exists "", (String a ""), []. auto.
Qed.

End MatcherFacts.

Section SearchFacts.

(** A search that succeeds is a match at some position of the text. *)
Lemma search_from_within (ic : bool) (r : regex) :
  forall rest pre m,
    search_from ic r pre rest = Some m ->
    exists pre' rest',
      match_at ic false r pre' rest' = Some m
      /\ (String.length rest' <= String.length rest)%nat.
Proof.
  induction rest as [|a rest IH]; intros pre m H; cbn [search_from] in H.
  - destruct (match_at ic false r pre "") eqn:E; [|discriminate].
    injection H as ->. eauto.
  - destruct (match_at ic false r pre (String a rest)) eqn:E.
    + injection H as ->. eauto.
    + apply IH in H as (pre' & rest' & Hm & Hlen).
      exists pre', rest'. split; [exact Hm | simpl; lia].
Qed.

(** A match at the first position is what the search returns. *)
Lemma search_from_here (ic : bool) (r : regex) (pre rest : string) (m : rmatch) :
  match_at ic false r pre rest = Some m -> search_from ic r pre rest = Some m.
Proof. intros H. destruct rest; cbn [search_from]; now rewrite H. Qed.

(** The group of a counted pattern holds one or more digits of the
    text. *)
Lemma counted_group (p : pattern) (s : string) (m : rmatch) :
  counted p = true ->
  search (compiled p) s = Some m ->
  exists ds, mgroup m "1" = Some ds /\ ds <> "" /\ Str.all Str.isdecimal ds = true
             /\ (String.length ds <= String.length s)%nat.
Proof.
  unfold counted, search. intros Hc Hs.
  apply search_from_within in Hs as (pre & rest & Hm & Hlen).
  destruct (compiled p) as [ | | |r1 tail| | | | | | ]; try discriminate.
  destruct r1 as [ | | | | | | |name body| | ]; try discriminate.
  destruct body as [ | | | | | |cl lo hi| | | ]; try discriminate.
  destruct cl; try discriminate.
  destruct lo as [|lo]; [discriminate|].
  apply andb_true_iff in Hc as [Hname Hc]. apply String.eqb_eq in Hname. subst name.
  unfold match_at in Hm. cbn [run] in Hm.
  apply rep_inv in Hm as (w & rest' & -> & Hall & Hlo & Hm).
  apply run_inv in Hm as (w' & rest'' & extra & -> & Hm & G).
  rewrite (G Hc) in Hm. simpl in Hm.
  injection Hm as <-. unfold mgroup. simpl.
  rewrite between_rev_onto.
  exists w. repeat split; auto.
  - destruct w; [simpl in Hlo; lia | discriminate].
  - rewrite append_length in Hlen. lia.
Qed.

(** A repetition without upper bound takes the whole run of its class
    when what follows lets it. *)
Lemma rep_greedy {A} (cl : cls) (k : cont (A:=A)) (caps : captures) (rest' : string) (x : A) :
  match rest' with String a _ => in_cls cl a = false | EmptyString => True end ->
  forall w lo pre,
    Str.all (in_cls cl) w = true -> (lo <= String.length w)%nat ->
    k (Str.rev_onto w pre) rest' caps = Some x ->
    rep cl k caps lo None pre (w ++ rest') = Some x.
Proof.
  intros Hnext. induction w as [|a w IH]; intros lo pre Hall Hlo Hk.
  - simpl in Hlo. assert (lo = 0)%nat as -> by lia. simpl in Hk. cbn [append].
    destruct rest' as [|b rest']; cbn [rep]; [exact Hk|].
    now rewrite Hnext.
  - cbn [Str.all] in Hall. apply andb_true_iff in Hall as [Ha Hall].
    cbn [append rep option_map]. rewrite Ha. cbn [andb].
    rewrite (IH (Nat.pred lo) (String a pre) Hall); [reflexivity | simpl in Hlo; lia | exact Hk].
Qed.

Lemma all_app_r (p : ascii -> bool) (s t : string) :
  Str.all p (s ++ t) = true -> Str.all p t = true.
Proof. rewrite all_app. intros H. now apply andb_true_iff in H as [_ H]. Qed.

(** Such a pattern matches nowhere in a text without the character. *)
Lemma run_requires {A} (c : ascii) (r : regex) :
  requires c r = true ->
  forall pre rest caps (k : cont (A:=A)),
    Str.all (fun a => negb (Ascii.eqb a c)) rest = true ->
    run false r pre rest caps k = None.
Proof.
  induction r as [ |c'|cl|r1 IH1 r2 IH2|r1 IH1 r2 IH2|r1 IH1|cl lo hi|name r1 IH1| | ];
    cbn [requires]; intros Hr pre rest caps k Hrest; try discriminate; cbn [run].
  - apply Ascii.eqb_eq in Hr. subst c'.
    destruct rest as [|a rest]; [reflexivity|].
    cbn [Str.all] in Hrest. apply andb_true_iff in Hrest as [Ha _].
    unfold chr_eq. rewrite Ascii.eqb_sym. now apply negb_true_iff in Ha as ->.
  - destruct (requires c r1) eqn:H1; [now apply IH1|].
    cbn [orb] in Hr.
    destruct (run false r1 pre rest caps _) as [x|] eqn:E; [|reflexivity].
    apply run_inv in E as (w & rest' & extra & -> & E & _).
    rewrite (IH2 Hr) in E; [discriminate|]. eapply all_app_r; eauto.
  - apply andb_true_iff in Hr as [H1 H2].
    now rewrite (IH1 H1), (IH2 H2).
  - now apply IH1.
Qed.

Lemma search_from_requires (c : ascii) (r : regex) :
  requires c r = true ->
  forall rest pre,
    Str.all (fun a => negb (Ascii.eqb a c)) rest = true ->
    search_from false r pre rest = None.
Proof.
  intros Hr. induction rest as [|a rest IH]; intros pre Hrest; cbn [search_from];
    unfold match_at; rewrite (run_requires c r Hr) by assumption; [reflexivity|].
  cbn [Str.all] in Hrest. apply andb_true_iff in Hrest as [_ Hrest]. now apply IH.
Qed.

End SearchFacts.

(** ** The program logic *)

Section Logic.

Context {R : Type}.
Variable now : datetime.

Lemma wp_ret {A} (a : A) (Qn : A -> Prop) (Qr : R -> Prop) Qe :
  Qn a -> wp now (ret a) Qn Qr Qe.
Proof. intros H w. exact H. Qed.

Lemma wp_return {A} (r : R) (Qn : A -> Prop) (Qr : R -> Prop) Qe :
  Qr r -> wp now (return_ r) Qn Qr Qe.
Proof. intros H w. exact H. Qed.

Lemma wp_bind {A B} (m : M R A) (f : A -> M R B) (Qn : B -> Prop) (Qr : R -> Prop) Qe :
  wp now m (fun a => wp now (f a) Qn Qr Qe) Qr Qe -> wp now (bind m f) Qn Qr Qe.
Proof.
  intros H w. specialize (H w). unfold bind.
  destruct (m (fun _ => now) w) as [w' [a|r|e]]; simpl in *; auto.
  apply H.
Qed.

Lemma wp_mono {A} (m : M R A) (Qn Qn' : A -> Prop) (Qr Qr' : R -> Prop) (Qe Qe' : exn -> Prop) :
  wp now m Qn Qr Qe ->
  (forall a, Qn a -> Qn' a) -> (forall r, Qr r -> Qr' r) -> (forall e, Qe e -> Qe' e) ->
  wp now m Qn' Qr' Qe'.
Proof.
  intros H Hn Hr He w. specialize (H w).
  destruct (snd (m (fun _ => now) w)); auto.
Qed.

Lemma wp_lift {A} (x : result A) (Qn : A -> Prop) (Qr : R -> Prop) Qe :
  match x with inr a => Qn a | inl e => Qe e end -> wp now (lift x) Qn Qr Qe.
Proof. intros H w. destruct x; exact H. Qed.

Lemma wp_lift_value {A} (x : result A) (a : A) (Qn : A -> Prop) (Qr : R -> Prop) Qe :
  x = inr a -> Qn a -> wp now (lift x) Qn Qr Qe.
Proof. intros -> H w. exact H. Qed.

Lemma wp_log (self : TimestampParser) (message : string) (Qn : unit -> Prop) (Qr : R -> Prop) Qe :
  Qn tt -> wp now (log self message) Qn Qr Qe.
Proof. intros H w. unfold log. destruct (verbose self); exact H. Qed.

Lemma wp_now (Qn : datetime -> Prop) (Qr : R -> Prop) Qe :
  Qn now -> wp now datetime_now Qn Qr Qe.
Proof. intros H w. exact H. Qed.

Lemma wp_try {A} (body handler : M R A) (Qn : A -> Prop) (Qr : R -> Prop) Qe :
  wp now body Qn Qr
     (fun e => match e with ValueError => wp now handler Qn Qr Qe | _ => Qe e end) ->
  wp now (try_except_ValueError body handler) Qn Qr Qe.
Proof.
  intros H w. specialize (H w). unfold try_except_ValueError.
  destruct (body (fun _ => now) w) as [w' [a|r|[]]]; simpl in *; auto.
  apply H.
Qed.

Lemma wp_for_each {X} (xs : list X) (body : X -> M R unit)
      (Qn : unit -> Prop) (Qr : R -> Prop) Qe :
  (forall x, In x xs -> wp now (body x) (fun _ => True) Qr Qe) ->
  Qn tt ->
  wp now (for_each xs body) Qn Qr Qe.
Proof.
  intros Hbody Hend. induction xs as [|x xs IH]; simpl.
  - now apply wp_ret.
  - apply wp_bind. eapply wp_mono.
    + apply Hbody. now left.
    + intros _ _. apply IH. intros x0 Hin. apply Hbody. now right.
    + auto.
    + auto.
Qed.

(** Blocks that end alike. *)

Lemma sim_ret {A} (a : A) : sim now (ret (R:=R) a) (ret a).
Proof. intros w1 w2. reflexivity. Qed.

Lemma sim_return {A} (r : R) : sim now (return_ (A:=A) r) (return_ r).
Proof. intros w1 w2. reflexivity. Qed.

Lemma sim_lift {A} (x : result A) : sim now (lift (R:=R) x) (lift x).
Proof. intros w1 w2. destruct x; reflexivity. Qed.

Lemma sim_log (self1 self2 : TimestampParser) (message1 message2 : string) :
  sim now (log (R:=R) self1 message1) (log self2 message2).
Proof.
  intros w1 w2. unfold log. destruct (verbose self1), (verbose self2); reflexivity.
Qed.

Lemma sim_now : sim now (datetime_now (R:=R)) datetime_now.
Proof. intros w1 w2. reflexivity. Qed.

Lemma sim_bind {A B} (m1 m2 : M R A) (f1 f2 : A -> M R B) :
  sim now m1 m2 -> (forall a, sim now (f1 a) (f2 a)) -> sim now (bind m1 f1) (bind m2 f2).
Proof.
  intros Hm Hf w1 w2. specialize (Hm w1 w2). unfold bind.
  destruct (m1 (fun _ => now) w1) as [w1' o1], (m2 (fun _ => now) w2) as [w2' o2].
  simpl in Hm. subst o2. destruct o1; simpl; auto. apply Hf.
Qed.

Lemma sim_try {A} (body1 body2 handler1 handler2 : M R A) :
  sim now body1 body2 -> sim now handler1 handler2 ->
  sim now (try_except_ValueError body1 handler1) (try_except_ValueError body2 handler2).
Proof.
  intros Hb Hh w1 w2. specialize (Hb w1 w2). unfold try_except_ValueError.
  destruct (body1 (fun _ => now) w1) as [w1' o1], (body2 (fun _ => now) w2) as [w2' o2].
  simpl in Hb. subst o2. destruct o1 as [a|r|[]]; simpl; auto.
Qed.

Lemma sim_for_each {X} (xs : list X) (body1 body2 : X -> M R unit) :
  (forall x, sim now (body1 x) (body2 x)) ->
  sim now (for_each xs body1) (for_each xs body2).
Proof.
  intros H. induction xs as [|x xs IH]; simpl.
  - apply sim_ret.
  - apply sim_bind; auto.
Qed.

End Logic.

(** ** Dates *)

Section DatetimeFacts.

Local Open Scope Z_scope.

Lemma new_inv (y m d : Z) (t : datetime) :
  new y m d = inr t ->
  t = mkdatetime y m d 0 0 0 0 /\ check_date_fields y m d = true.
Proof.
  unfold new. destruct (check_date_fields y m d); [|discriminate].
  intros H. injection H as <-. auto.
Qed.

Lemma new_raises_ValueError (y m d : Z) (e : exn) : new y m d = inl e -> e = ValueError.
Proof. unfold new. destruct (check_date_fields y m d); congruence. Qed.

(** The difference to a midnight counts the days between the two dates,
    whatever the time of day of the reference instant. *)
Lemma sub_days (now parsed : datetime) :
  valid now -> midnight parsed ->
  days (Datetime.sub now parsed) = days_between parsed now.
Proof.
  intros (_ & Hh & Hm & Hs & Hus) (Ph & Pm & Ps & Pus).
  unfold Datetime.sub, new_timedelta, days_between. cbn [days].
  rewrite Ph, Pm, Ps, Pus.
  replace ((microsecond now - 0) / 1000000) with 0
    by (symmetry; apply Z.div_small; lia).
  replace ((second now + minute now * 60 + hour now * 3600 - (0 + 0 * 60 + 0 * 3600) + 0) / 86400)
    with 0 by (symmetry; apply Z.div_small; lia).
  lia.
Qed.

Lemma year_length (y : Z) :
  days_before_year (y + 1) = days_before_year y + (if is_leap y then 366 else 365).
Proof.
  unfold days_before_year, is_leap.
  replace (y + 1 - 1) with y by lia.
  destruct (y mod 4 =? 0) eqn:E4; destruct (y mod 100 =? 0) eqn:E100;
    destruct (y mod 400 =? 0) eqn:E400; cbn [andb orb negb];
    rewrite ?Z.eqb_eq, ?Z.eqb_neq in *;
    Z.div_mod_to_equations; lia.
Qed.

Lemma days_before_year_mono (y1 y2 : Z) :
  y1 <= y2 -> days_before_year y1 <= days_before_year y2.
Proof.
  unfold days_before_year. intros H. Z.div_mod_to_equations. lia.
Qed.

Lemma month_cases (m : Z) :
  1 <= m <= 12 ->
  m = 1 \/ m = 2 \/ m = 3 \/ m = 4 \/ m = 5 \/ m = 6 \/ m = 7 \/ m = 8 \/ m = 9
  \/ m = 10 \/ m = 11 \/ m = 12.
Proof. lia. Qed.

Lemma check_date_fields_inv (y m d : Z) :
  check_date_fields y m d = true ->
  1 <= y <= 9999 /\ 1 <= m <= 12 /\ 1 <= d <= days_in_month y m.
Proof.
  unfold check_date_fields, MINYEAR, MAXYEAR. intros H.
  repeat (apply andb_true_iff in H as [H ?]).
  rewrite Z.leb_le in *. lia.
Qed.

Ltac each_month m H :=
  destruct (month_cases m H) as [->|[->|[->|[->|[->|[->|[->|[->|[->|[->|[->| ->]]]]]]]]]]].

(** Evaluates the table lookups and the tests on a known month. *)
Ltac eval_month :=
  repeat match goal with
         | |- context [nth ?n ?l ?d] =>
             let v := eval vm_compute in (nth n l d) in change (nth n l d) with v
         | H : context [nth ?n ?l ?d] |- _ =>
             let v := eval vm_compute in (nth n l d) in change (nth n l d) with v in H
         | |- context [Z.ltb ?a ?b] =>
             let v := eval vm_compute in (Z.ltb a b) in change (Z.ltb a b) with v
         | H : context [Z.ltb ?a ?b] |- _ =>
             let v := eval vm_compute in (Z.ltb a b) in change (Z.ltb a b) with v in H
         | |- context [Z.eqb ?a ?b] =>
             let v := eval vm_compute in (Z.eqb a b) in change (Z.eqb a b) with v
         | H : context [Z.eqb ?a ?b] |- _ =>
             let v := eval vm_compute in (Z.eqb a b) in change (Z.eqb a b) with v in H
         end;
  cbn [andb] in *.

(** The day of the year lies within the year. *)
Lemma day_of_year_range (y m d : Z) :
  check_date_fields y m d = true ->
  1 <= days_before_month y m + d <= (if is_leap y then 366 else 365).
Proof.
  intros H. apply check_date_fields_inv in H as (_ & Hm & Hd).
  unfold days_before_month, days_in_month in *.
  each_month m Hm; eval_month; destruct (is_leap y); lia.
Qed.

Lemma month_order (y m1 d1 m2 : Z) :
  1 <= m1 <= 12 -> 1 <= m2 <= 12 -> d1 <= days_in_month y m1 -> m1 < m2 ->
  days_before_month y m1 + d1 <= days_before_month y m2.
Proof.
  intros H1 H2 Hd Hlt.
  unfold days_before_month, days_in_month in *.
  each_month m1 H1; each_month m2 H2; try lia;
    eval_month; destruct (is_leap y); lia.
Qed.

(** The ordinal of a day follows the order of dates. *)
Lemma ordinal_order (a b : datetime) :
  check_date_fields (year a) (month a) (day a) = true ->
  check_date_fields (year b) (month b) (day b) = true ->
  if date_gt a b then toordinal b < toordinal a else toordinal a <= toordinal b.
Proof.
  intros Ha Hb.
  pose proof (day_of_year_range _ _ _ Ha) as Ra.
  pose proof (day_of_year_range _ _ _ Hb) as Rb.
  apply check_date_fields_inv in Ha as (Hya & Hma & Hda).
  apply check_date_fields_inv in Hb as (Hyb & Hmb & Hdb).
  unfold date_gt, toordinal, ymd2ord.
  destruct (Z.compare_spec (year a) (year b)) as [Ey|Ly|Gy].
  - rewrite Ey in *.
    destruct (Z.compare_spec (month a) (month b)) as [Em|Lm|Gm].
    + rewrite Em in *. destruct (Z.ltb_spec (day b) (day a)); lia.
    + pose proof (month_order (year b) (month a) (day a) (month b) Hma Hmb (proj2 Hda) Lm). lia.
    + pose proof (month_order (year b) (month b) (day b) (month a) Hmb Hma (proj2 Hdb) Gm). lia.
  - pose proof (year_length (year a)) as La.
    pose proof (days_before_year_mono (year a + 1) (year b) ltac:(lia)).
    destruct (is_leap (year a)); lia.
  - pose proof (year_length (year b)) as Lb.
    pose proof (days_before_year_mono (year b + 1) (year a) ltac:(lia)).
    destruct (is_leap (year b)); lia.
Qed.

(** The days of the calendar are numbered from 1 and stay below ten
    million. *)
Lemma toordinal_range (t : datetime) :
  check_date_fields (year t) (month t) (day t) = true -> 1 <= toordinal t < 3652061.
Proof.
  intros H. pose proof (day_of_year_range _ _ _ H) as Hd.
  apply check_date_fields_inv in H as (Hy & _ & _).
  unfold toordinal, ymd2ord, days_before_year in *.
  destruct (is_leap (year t)); Z.div_mod_to_equations; lia.
Qed.

(** The day count of a date stage is written without fail. *)
Lemma str_days (now parsed : datetime) :
  valid now ->
  check_date_fields (year parsed) (month parsed) (day parsed) = true -> midnight parsed ->
  str (days (Datetime.sub now parsed)) = inr (decimal (days (Datetime.sub now parsed))).
Proof.
  intros Hv Hc Hm. rewrite (sub_days now parsed Hv Hm). unfold days_between.
  pose proof (toordinal_range parsed Hc). destruct Hv as (Hv & _).
  pose proof (toordinal_range now Hv).
  apply str_small. lia.
Qed.

(** So are the year of the reference instant and the year before. *)
Lemma str_year (now : datetime) : valid now -> str (year now) = inr (decimal (year now)).
Proof.
  intros (Hv & _). apply check_date_fields_inv in Hv as (Hy & _).
  apply str_small. lia.
Qed.

Lemma str_last_year (now : datetime) :
  valid now -> str (year now - 1) = inr (decimal (year now - 1)).
Proof.
  intros (Hv & _). apply check_date_fields_inv in Hv as (Hy & _).
  apply str_small. lia.
Qed.

Lemma leap_neighbours (y : Z) : is_leap y = true -> is_leap (y - 1) = false.
Proof.
  unfold is_leap. intros H. apply andb_true_iff in H as [H _].
  apply Z.eqb_eq in H.
  destruct ((y - 1) mod 4 =? 0) eqn:E; [|reflexivity].
  apply Z.eqb_eq in E. exfalso. Z.div_mod_to_equations. lia.
Qed.

(** From a day of last year to an earlier day of the calendar in this
    year there are 365 days at most. *)
Lemma last_year_span (y m d m' d' : Z) :
  check_date_fields y m d = true -> check_date_fields (y - 1) m' d' = true ->
  m < m' \/ m = m' /\ d < d' ->
  ymd2ord y m d - ymd2ord (y - 1) m' d' <= 365.
Proof.
  intros H H' Hlater.
  apply check_date_fields_inv in H as (_ & Hm & Hd).
  apply check_date_fields_inv in H' as (_ & Hm' & Hd').
  pose proof (year_length (y - 1)) as Hlen.
  replace (y - 1 + 1) with y in Hlen by lia.
  pose proof (leap_neighbours y) as Hleap.
  unfold ymd2ord, days_before_month, days_in_month in *. rewrite Hlen.
  destruct (is_leap y), (is_leap (y - 1)); try (specialize (Hleap eq_refl); discriminate);
    clear Hleap Hlen;
    each_month m Hm; each_month m' Hm'; try lia; eval_month; lia.
Qed.

End DatetimeFacts.

(** ** strptime *)

Section StrptimeFacts.

Lemma set_field_raises_ValueError (acc : result Strptime.fields) (kv : string * string) :
  (forall e, acc = inl e -> e = ValueError) ->
  forall e, Strptime.set_field acc kv = inl e -> e = ValueError.
Proof.
  intros Hacc e. unfold Strptime.set_field.
  destruct acc as [e0|[[y m] d]]; [intros H; injection H as <-; now apply Hacc|].
  destruct kv as [group_key text].
  repeat match goal with
         | |- context [if ?c then _ else _] => destruct c
         | |- context [int ?t] =>
             let E := fresh "E" in
             destruct (int t) eqn:E; [apply int_raises_ValueError in E; subst|]
         | |- context [Strptime.index ?a ?b] => destruct (Strptime.index a b)
         end; congruence.
Qed.

Lemma fold_set_field_raises_ValueError (l : list (string * string)) :
  forall acc, (forall e, acc = inl e -> e = ValueError) ->
  forall e, fold_left Strptime.set_field l acc = inl e -> e = ValueError.
Proof.
  induction l as [|kv l IH]; intros acc Hacc e; simpl.
  - apply Hacc.
  - apply IH. now apply set_field_raises_ValueError.
Qed.

(** strptime raises nothing but ValueError. *)
Lemma strptime_raises_ValueError (data_string format : string) (e : exn) :
  Strptime.strptime data_string format = inl e -> e = ValueError.
Proof.
  unfold Strptime.strptime, Strptime.convert.
  destruct (Strptime.pattern false format); [|congruence].
  destruct (match_at true false _ "" data_string); [|congruence].
  destruct (negb _); [congruence|].
  destruct (fold_left _ _ _) as [e0|[[y m] d]] eqn:F.
  - apply fold_set_field_raises_ValueError in F; [congruence | discriminate].
  - destruct (negb _); [congruence|]. apply new_raises_ValueError.
Qed.

(** What strptime returns is the midnight of a day that exists. *)
Lemma strptime_date (data_string format : string) (t : datetime) :
  Strptime.strptime data_string format = inr t ->
  check_date_fields (year t) (month t) (day t) = true /\ midnight t.
Proof.
  unfold Strptime.strptime, Strptime.convert.
  destruct (Strptime.pattern false format); [|discriminate].
  destruct (match_at true false _ "" data_string); [|discriminate].
  destruct (negb _); [discriminate|].
  destruct (fold_left _ _ _) as [e0|[[y m] d]]; [discriminate|].
  destruct (negb _); [discriminate|].
  intros H. apply new_inv in H as [-> H]. simpl. unfold midnight. simpl. auto.
Qed.

End StrptimeFacts.

Section DateFacts.

Local Open Scope Z_scope.

Lemma clamp_days (now parsed : datetime) :
  valid now -> midnight parsed -> clamp now parsed = Z.max 0 (days_between parsed now).
Proof. intros Hv Hm. unfold clamp. now rewrite sub_days. Qed.

(** The sign of the day count follows the order of the dates. *)
Lemma days_between_sign (now parsed : datetime) :
  valid now ->
  check_date_fields (year parsed) (month parsed) (day parsed) = true ->
  if date_gt parsed now then days_between parsed now < 0 else 0 <= days_between parsed now.
Proof.
  intros (Hv & _) Hp. pose proof (ordinal_order parsed now Hp Hv) as H.
  unfold days_between. destruct (date_gt parsed now); lia.
Qed.

(** A date given its year by [assumed] does not lie after the reference. *)
Lemma assumed_not_after (now cand parsed : datetime) :
  assumed now cand = inr parsed -> date_gt parsed now = false.
Proof.
  unfold assumed. destruct (date_gt cand now) eqn:Hgt.
  - intros H. apply new_inv in H as [-> _]. unfold date_gt. simpl.
    replace (year now - 1 ?= year now) with Lt; [reflexivity|].
    symmetry. apply Z.compare_lt_iff. lia.
  - intros [= <-]. exact Hgt.
Qed.

Lemma assumed_date (now cand parsed : datetime) :
  check_date_fields (year cand) (month cand) (day cand) = true -> midnight cand ->
  assumed now cand = inr parsed ->
  check_date_fields (year parsed) (month parsed) (day parsed) = true /\ midnight parsed.
Proof.
  unfold assumed. intros Hc Hm. destruct (date_gt cand now).
  - intros H. apply new_inv in H as [-> H]. simpl. unfold midnight. simpl. auto.
  - intros [= <-]. auto.
Qed.

End DateFacts.

(** ** The parser as a whole *)

Section Whole.

(** What holds of every way the body can end holds of what [resolve]
    gives. *)
Lemma resolve_outcome (v : bool) (now : datetime) (raw : string)
      (Qr : option Z -> Prop) (Qe : exn -> Prop) :
  wp now (parse_timestamp_to_days (init v) raw) (fun _ => False) Qr Qe ->
  match resolve v now raw with
  | inr r => Qr r
  | inl e => Qe e
  end.
Proof.
  intros H. specialize (H world0). unfold resolve, run_call.
  destruct (parse_timestamp_to_days (init v) raw (fun _ => now) world0) as [w' [a|r|e]];
    simpl in *; [contradiction | exact H | exact H].
Qed.

Lemma resolve_wp (v : bool) (now : datetime) (raw : string) (Qr : option Z -> Prop) :
  wp now (parse_timestamp_to_days (init v) raw) (fun _ => False) Qr no_exn ->
  exists r, resolve v now raw = inr r /\ Qr r.
Proof.
  intros H. apply resolve_outcome in H.
  destruct (resolve v now raw) as [e|r]; [contradiction | eauto].
Qed.

(** The rule of [assume_year] at a reference instant that exists. *)
Lemma wp_assume_year {R} (now' : datetime) (self : TimestampParser) (announce : bool)
      (now cand : datetime) (Qn : datetime -> Prop) (Qr : R -> Prop) (Qe : exn -> Prop) :
  valid now ->
  (if date_gt cand now
   then match new (year now - 1) (month cand) (day cand) with
        | inr d => Qn d
        | inl e => Qe e
        end
   else Qn cand) ->
  wp now' (assume_year self announce now cand) Qn Qr Qe.
Proof.
  intros Hv H. unfold assume_year. destruct (date_gt cand now).
  - apply wp_bind, wp_lift.
    destruct (new _ _ _); [exact H|].
    apply wp_bind. destruct announce; [|apply wp_ret; now apply wp_ret].
    apply wp_bind, (wp_lift_value _ _ _ _ _ _ (str_last_year now Hv)).
    apply wp_log. now apply wp_ret.
  - now apply wp_ret.
Qed.

(** The same at any instant, where the year may fail to be written. *)
Lemma wp_assume_year_any {R} (now' : datetime) (self : TimestampParser) (announce : bool)
      (now cand : datetime) (Qn : datetime -> Prop) (Qr : R -> Prop) (Qe : exn -> Prop) :
  Qe ValueError ->
  (if date_gt cand now
   then match new (year now - 1) (month cand) (day cand) with
        | inr d => Qn d
        | inl e => Qe e
        end
   else Qn cand) ->
  wp now' (assume_year self announce now cand) Qn Qr Qe.
Proof.
  intros He H. unfold assume_year. destruct (date_gt cand now).
  - apply wp_bind, wp_lift.
    destruct (new _ _ _); [exact H|].
    apply wp_bind. destruct announce; [|apply wp_ret; now apply wp_ret].
    apply wp_bind, wp_lift.
    destruct (str (year now - 1)) as [e|last_year] eqn:Hs.
    + now rewrite (str_raises_ValueError _ _ Hs).
    + apply wp_log. now apply wp_ret.
  - now apply wp_ret.
Qed.

Lemma counted_relative p c : In (p, c) relative_patterns -> counted p = true.
Proof. intros [[= <- <-]|[[= <- <-]|[]]]; reflexivity. Qed.
Lemma counted_special p c : In (p, c) special_patterns -> counted p = true.
Proof. intros [[= <- <-]|[[= <- <-]|[[= <- <-]|[[= <- <-]|[]]]]]; reflexivity. Qed.

(** What a converter makes of the digits of a group: past the limit it
    raises; within it, it gives a count that is not negative and has at
    most three digits more than the group. *)
Lemma converter_outcome (c : option string -> result Z) (ds : string) :
  (c = int_of_group \/ exists f, (0 <= f <= 1000)%Z /\ c = times f) ->
  ds <> "" -> Str.all Str.isdecimal ds = true ->
  (too_long ds = true /\ c (Some ds) = inl ValueError)
  \/ (too_long ds = false
      /\ exists n, c (Some ds) = inr n
                   /\ (0 <= n < 10 ^ Z.of_nat (S (String.length ds + 2)))%Z).
Proof.
  intros Hc Hne Hall.
  pose proof (int_digits_nonneg ds 0%Z ltac:(lia) Hall) as Hpos.
  pose proof (int_digits_bound ds 0%Z ltac:(lia) Hall) as Hup.
  assert (Hpow : (10 ^ Z.of_nat (S (String.length ds + 2))
                  = 1000 * 10 ^ Z.of_nat (String.length ds))%Z).
  { replace (Z.of_nat (S (String.length ds + 2)))
      with (Z.of_nat (String.length ds) + 3)%Z by lia.
    rewrite Z.pow_add_r by lia. change (10 ^ 3)%Z with 1000%Z. lia. }
  assert (0 < 10 ^ Z.of_nat (String.length ds))%Z by (apply Z.pow_pos_nonneg; lia).
  destruct (too_long ds) eqn:Hlen; [left | right]; split; auto.
  - destruct Hc as [->|(f & Hf & ->)].
    + simpl. now apply int_too_long.
    + now apply times_too_long.
  - destruct Hc as [->|(f & Hf & ->)].
    + rewrite int_of_group_decimal by assumption. eexists; split; [reflexivity|]. nia.
    + rewrite times_decimal by assumption. eexists; split; [reflexivity|]. nia.
Qed.

Lemma converters_relative p c :
  In (p, c) relative_patterns ->
  c = int_of_group \/ exists f, (0 <= f <= 1000)%Z /\ c = times f.
Proof.
  intros [[= <- <-]|[[= <- <-]|[]]]; [left | right; exists 7%Z]; auto; split; auto; lia.
Qed.

Lemma converters_special p c :
  In (p, c) special_patterns ->
  c = int_of_group \/ exists f, (0 <= f <= 1000)%Z /\ c = times f.
Proof.
  intros [[= <- <-]|[[= <- <-]|[[= <- <-]|[[= <- <-]|[]]]]];
    [left | right; exists 7%Z | right; exists 30%Z | right; exists 365%Z];
    auto; split; auto; lia.
Qed.

(** The rule of a count stage: it answers with a count that is not
    negative, passes, or raises ValueError, the last on a long text
    only. *)
Lemma wp_count (self : TimestampParser) (now : datetime) (timestamp : string)
      (p : pattern) (c : option string -> result Z) (message : string -> string)
      (Qn : unit -> Prop) (Qe : exn -> Prop) :
  counted p = true ->
  (c = int_of_group \/ exists f, (0 <= f <= 1000)%Z /\ c = times f) ->
  Qn tt ->
  (long timestamp -> Qe ValueError) ->
  wp now
     (match search (compiled p) (Str.strip (Str.lower timestamp)) with
      | Some m =>
          result <- lift (c (mgroup m "1")) ;;
          shown <- lift (str result) ;;
          log self (message shown) ;;
          return_ (Some result)
      | None => ret tt
      end)
     Qn nonneg Qe.
Proof.
  intros Hp Hc Hn He.
  destruct (search _ _) as [m|] eqn:Hs; [|now apply wp_ret].
  destruct (counted_group _ _ _ Hp Hs) as (ds & -> & Hne & Hall & Hlen).
  pose proof (strip_length (Str.lower timestamp)) as Hstrip.
  rewrite lower_length in Hstrip.
  apply wp_bind, wp_lift.
  destruct (converter_outcome c ds Hc Hne Hall) as [[Hlong ->]|(Hshort & n & -> & Hn0 & Hn1)].
  - apply He. unfold too_long in Hlong. apply Z.ltb_lt in Hlong. unfold long. lia.
  - apply wp_bind, wp_lift. destruct (str n) as [e|shown] eqn:Hstr.
    + rewrite (str_raises_ValueError _ _ Hstr). apply He. unfold long.
      destruct (Z_lt_le_dec int_max_str_digits (Z.of_nat (String.length timestamp) + 3))
        as [Hl|Hl]; [exact Hl|].
      rewrite (str_short n (String.length ds + 2)) in Hstr; [discriminate | lia | lia].
    + apply wp_bind, wp_log. apply wp_return. exact Hn0.
Qed.

Ltac written :=
  apply wp_bind, wp_lift;
  match goal with
  | |- match str ?n with _ => _ end =>
      let e := fresh "e" in
      let Hs := fresh "Hs" in
      destruct (str n) as [e|?] eqn:Hs;
      [rewrite (str_raises_ValueError _ _ Hs) |]
  end.

Ltac finish_date :=
  written; [now apply wp_ret | apply wp_bind, wp_log; apply wp_return; simpl; lia].

(** However the stages go, the body ends by a [return], of None or of a
    count that is not negative, or by a ValueError, and this on a long
    text only. *)
Lemma parse_total (self : TimestampParser) (now : datetime) (timestamp : string) :
  wp now (parse_timestamp_to_days self timestamp) (fun _ => False) nonneg
     (fun e => e = ValueError /\ long timestamp).
Proof.
  unfold parse_timestamp_to_days.
  apply wp_bind, wp_now. apply wp_bind, wp_log.
  apply wp_bind. destruct (String.eqb _ _); [now apply wp_return | apply wp_ret].
  apply wp_bind. destruct (existsb _ _).
  { apply wp_bind, wp_log. apply wp_return. simpl. lia. }
  apply wp_ret.
  apply wp_bind. apply wp_for_each.
  { intros [pattern days] Hin. destruct (search _ _); [|now apply wp_ret].
    apply wp_bind, wp_lift.
    destruct Hin as [[= <- <-]|[[= <- <-]|[[= <- <-]|[]]]];
      (change (str 0) with (inr (A:=exn) "0");
       apply wp_bind, wp_log; apply wp_return; simpl; lia). }
  apply wp_bind. destruct (Str.contains _ _).
  { apply wp_bind, wp_log. apply wp_return. simpl. lia. }
  apply wp_ret.
  apply wp_bind. apply wp_for_each.
  { intros [pattern converter] Hin.
    apply (wp_count self now timestamp pattern converter
             (fun shown => "Matched relative pattern: " ++ source pattern
                           ++ " - returning " ++ shown ++ " days"));
      [eapply counted_relative | eapply converters_relative | | ]; eauto. }
  apply wp_bind, wp_log.
  apply wp_bind. apply wp_for_each.
  { intros fmt_str _. apply wp_try. apply wp_bind, wp_lift.
    destruct (Strptime.strptime _ _) as [e|parsed_dt] eqn:Hp.
    - rewrite (strptime_raises_ValueError _ _ _ Hp). now apply wp_ret.
    - finish_date. }
  apply wp_bind. apply wp_for_each.
  { intros fmt_str _. apply wp_try. written; [now apply wp_ret|].
    apply wp_bind, wp_lift.
    destruct (Strptime.strptime _ _) as [e|cand] eqn:Hp.
    - rewrite (strptime_raises_ValueError _ _ _ Hp). now apply wp_ret.
    - apply wp_bind, wp_assume_year_any; [now apply wp_ret|].
      destruct (date_gt cand now); [|finish_date].
      destruct (new _ _ _) as [e|d] eqn:Hn; [|finish_date].
      rewrite (new_raises_ValueError _ _ _ _ Hn). now apply wp_ret. }
  apply wp_bind. apply wp_for_each.
  { intros [pattern converter] Hin.
    apply (wp_count self now timestamp pattern converter
             (fun shown => "Matched special pattern: " ++ source pattern ++ " - "
                           ++ shown ++ " days ago"));
      [eapply counted_special | eapply converters_special | | ]; eauto. }
  apply wp_bind.
  match goal with
  | |- wp _ _ (fun _ => ?rest) _ _ => assert (Hrest : rest)
  end.
  { apply wp_bind, wp_log. now apply wp_return. }
  destruct (search date_pattern _) as [m|]; [|now apply wp_ret].
  apply wp_try. apply wp_bind.
  destruct (truthy _).
  - apply wp_lift. destruct (Strptime.strptime _ _) as [e|d] eqn:Hp; [|finish_date].
    rewrite (strptime_raises_ValueError _ _ _ Hp). now apply wp_ret.
  - written; [now apply wp_ret|].
    apply wp_bind, wp_lift.
    destruct (Strptime.strptime _ _) as [e|cand] eqn:Hp.
    + rewrite (strptime_raises_ValueError _ _ _ Hp). now apply wp_ret.
    + apply wp_assume_year_any; [now apply wp_ret|].
      destruct (date_gt cand now); [|finish_date].
      destruct (new _ _ _) as [e|d] eqn:Hn; [|finish_date].
      rewrite (new_raises_ValueError _ _ _ _ Hn). now apply wp_ret.
Qed.

Lemma sim_assume_year {R} (now' : datetime) (self1 self2 : TimestampParser) (announce : bool)
      (now cand : datetime) :
  sim (R:=R) now' (assume_year self1 announce now cand) (assume_year self2 announce now cand).
Proof.
  unfold assume_year. destruct (date_gt cand now); [|apply sim_ret].
  apply sim_bind; [apply sim_lift | intros d].
  apply sim_bind; [|intros _; apply sim_ret].
  destruct announce; [|apply sim_ret].
  apply sim_bind; [apply sim_lift | intros last_year; apply sim_log].
Qed.

Lemma clean_mappings (self1 self2 : TimestampParser) (t : string) :
  month_mappings self1 = month_mappings self2 -> clean self1 t = clean self2 t.
Proof. intros H. unfold clean. now rewrite H. Qed.

Ltac sim_step :=
  match goal with
  | |- sim _ (bind _ _) (bind _ _) => apply sim_bind; [|intros ?]
  | |- sim _ (log _ _) (log _ _) => apply sim_log
  | |- sim _ (ret _) (ret _) => apply sim_ret
  | |- sim _ (return_ _) (return_ _) => apply sim_return
  | |- sim _ (lift _) (lift _) => apply sim_lift
  | |- sim _ datetime_now datetime_now => apply sim_now
  | |- sim _ (for_each _ _) (for_each _ _) => apply sim_for_each; intros ?; cbv beta
  | |- sim _ (try_except_ValueError _ _) (try_except_ValueError _ _) => apply sim_try
  | |- sim _ (assume_year _ _ _ _) (assume_year _ _ _ _) => apply sim_assume_year
  | |- sim _ (if ?c then _ else _) (if ?c then _ else _) => destruct c
  | |- sim _ (match ?x with Some _ => _ | None => _ end) _ => destruct x
  | |- sim _ (let '(_, _) := ?p in _) _ => destruct p
  end.

(** The way a call ends depends neither on the verbosity of the parser
    nor on what has been printed or read before. *)
Lemma parse_sim (self1 self2 : TimestampParser) (now : datetime) (timestamp : string) :
  month_mappings self1 = month_mappings self2 ->
  sim now (parse_timestamp_to_days self1 timestamp) (parse_timestamp_to_days self2 timestamp).
Proof.
  intros Hmm. unfold parse_timestamp_to_days.
  rewrite (clean_mappings self1 self2 _ Hmm), Hmm.
  repeat sim_step.
Qed.

(** Inputs that agree once trimmed and lowercased end alike. *)
Lemma parse_sim_normalize (self : TimestampParser) (now : datetime) (raw1 raw2 : string) :
  normalize raw1 = normalize raw2 ->
  sim now (parse_timestamp_to_days self raw1) (parse_timestamp_to_days self raw2).
Proof.
  unfold normalize. intros H. unfold parse_timestamp_to_days. rewrite H.
  repeat sim_step.
Qed.

End Whole.

(** ** The stages *)

Section StageFacts.

Lemma found_false (p : pattern) (t : string) :
  found p t = false -> search (compiled p) t = None.
Proof. unfold found. destruct (search _ _); congruence. Qed.

Lemma existsb_false {X} (f : X -> bool) (l : list X) :
  existsb f l = false -> forall x, In x l -> f x = false.
Proof.
  intros H x Hin. destruct (f x) eqn:E; [|reflexivity].
  assert (existsb f l = true) by (apply existsb_exists; eauto). congruence.
Qed.

Lemma reaches_shorthand_inv (t : string) :
  reaches_shorthand t = true ->
  String.eqb t "" = false
  /\ existsb (fun phrase => Str.contains phrase t) immediate_phrases = false
  /\ (forall p d, In (p, d) time_units -> search (compiled p) t = None)
  /\ Str.contains "yesterday" t = false.
Proof.
  unfold reaches_shorthand, immediate, sub_day. intros H.
  repeat (apply andb_true_iff in H as [H ?]).
  rewrite negb_true_iff in *. repeat split; auto.
  intros p d Hin. apply found_false.
  match goal with Hs : existsb _ time_units = false |- _ =>
    apply (existsb_false _ _ Hs (p, d) Hin) end.
Qed.

Lemma reaches_dates_inv (t : string) :
  reaches_dates t = true ->
  reaches_shorthand t = true
  /\ (forall p c, In (p, c) relative_patterns -> search (compiled p) t = None).
Proof.
  unfold reaches_dates. intros H.
  apply andb_true_iff in H as [H Hw]. apply andb_true_iff in H as [H Hd].
  rewrite negb_true_iff in *. split; auto.
  intros p c [[= <- <-]|[[= <- <-]|[]]]; now apply found_false.
Qed.

Lemma special_false (t : string) :
  special t = false ->
  forall p c, In (p, c) special_patterns -> search (compiled p) t = None.
Proof.
  intros H p c Hin. apply found_false. apply (existsb_false _ _ H (p, c) Hin).
Qed.

End StageFacts.

(** Steps over the stages before the day/week shorthand when none of
    them answers. *)
Ltac skip_to_shorthand H :=
  let H1 := fresh "Hempty" in
  let H2 := fresh "Himm" in
  let H3 := fresh "Hunits" in
  let H4 := fresh "Hyest" in
  destruct (reaches_shorthand_inv _ H) as (H1 & H2 & H3 & H4);
  unfold parse_timestamp_to_days;
  apply wp_bind, wp_now; apply wp_bind, wp_log;
  apply wp_bind; [rewrite H1; apply wp_ret];
  apply wp_bind; [rewrite H2; apply wp_ret];
  apply wp_bind, wp_for_each;
  [ let p := fresh "p" in let d := fresh "d" in let Hin := fresh "Hin" in
    intros [p d] Hin; rewrite (H3 p d Hin); now apply wp_ret | ];
  apply wp_bind; [rewrite H4; apply wp_ret].

Section Stages.

Variable self : TimestampParser.
Variable now : datetime.
Hypothesis Hnow : valid now.

(** The tail of a date stage: the count is written into the trace and
    returned, clamped. *)
Lemma wp_answer (parsed : datetime) (message : string -> string)
      (Qn : unit -> Prop) (Qr : option Z -> Prop) (Qe : exn -> Prop) :
  check_date_fields (year parsed) (month parsed) (day parsed) = true -> midnight parsed ->
  Qr (Some (Z.max 0 (days (Datetime.sub now parsed)))) ->
  wp now
     (shown <- lift (str (days (Datetime.sub now parsed))) ;;
      log self (message shown) ;;
      return_ (Some (Z.max 0 (days (Datetime.sub now parsed)))))
     Qn Qr Qe.
Proof.
  intros Hc Hm H. apply wp_bind, (wp_lift_value _ _ _ _ _ _ (str_days now parsed Hnow Hc Hm)).
  apply wp_bind, wp_log. now apply wp_return.
Qed.

(** The loop over the templates with a year answers with the first
    template that strptime accepts. *)
Lemma wp_with_year_loop (ts_cleaned : string) (formats : list string)
      (Qn : unit -> Prop) (Qr : option Z -> Prop) (Qe : exn -> Prop) :
  match first_accepted ts_cleaned "" formats with
  | Some (_, parsed) => Qr (Some (Z.max 0 (days (Datetime.sub now parsed))))
  | None => Qn tt
  end ->
  wp now
     (for_each formats (fun fmt_str =>
        try_except_ValueError
          (parsed_dt <- lift (Strptime.strptime ts_cleaned fmt_str) ;;
           let days_diff := days (Datetime.sub now parsed_dt) in
           shown <- lift (str days_diff) ;;
           log self ("Successfully parsed with format '" ++ fmt_str ++ "' - "
                     ++ shown ++ " days ago") ;;
           return_ (Some (Z.max 0 days_diff)))
          (ret tt)))
     Qn Qr Qe.
Proof.
  induction formats as [|fmt_str formats IH]; cbn [for_each first_accepted]; intros H.
  - now apply wp_ret.
  - rewrite append_empty_r in H.
    apply wp_bind, wp_try, wp_bind, wp_lift.
    destruct (Strptime.strptime ts_cleaned fmt_str) as [e|parsed] eqn:Hp.
    + rewrite (strptime_raises_ValueError _ _ _ Hp). apply wp_ret. now apply IH.
    + apply strptime_date in Hp as [Hc Hm].
      now apply (wp_answer parsed (fun shown => "Successfully parsed with format '" ++ fmt_str
                                                ++ "' - " ++ shown ++ " days ago")).
Qed.

(** The loop over the yearless templates answers with the first template
    that strptime accepts and whose candidate can be given a year. *)
Lemma wp_no_year_loop (ts_cleaned : string) (formats : list string)
      (Qn : unit -> Prop) (Qr : option Z -> Prop) (Qe : exn -> Prop) :
  match no_year_date now (ts_cleaned ++ " " ++ decimal (year now)) formats with
  | Some parsed => Qr (Some (Z.max 0 (days (Datetime.sub now parsed))))
  | None => Qn tt
  end ->
  wp now
     (for_each formats (fun fmt_str =>
        try_except_ValueError
          (this_year <- lift (str (year now)) ;;
           parsed_dt_curr_year <-
             lift (Strptime.strptime (ts_cleaned ++ " " ++ this_year) (fmt_str ++ " %Y")) ;;
           parsed_dt <- assume_year self true now parsed_dt_curr_year ;;
           let days_diff := days (Datetime.sub now parsed_dt) in
           shown <- lift (str days_diff) ;;
           log self ("Successfully parsed with format '" ++ fmt_str
                     ++ "' (year assumed) - " ++ shown ++ " days ago") ;;
           return_ (Some (Z.max 0 days_diff)))
          (ret tt)))
     Qn Qr Qe.
Proof.
  induction formats as [|fmt_str formats IH]; cbn [for_each no_year_date]; intros H.
  - now apply wp_ret.
  - apply wp_bind, wp_try, wp_bind, (wp_lift_value _ _ _ _ _ _ (str_year now Hnow)).
    apply wp_bind, wp_lift.
    destruct (Strptime.strptime _ (fmt_str ++ " %Y")) as [e|cand] eqn:Hp.
    + rewrite (strptime_raises_ValueError _ _ _ Hp). apply wp_ret. now apply IH.
    + apply strptime_date in Hp as [Hc Hm].
      apply wp_bind, wp_assume_year; [exact Hnow|].
      pose proof (assumed_date now cand) as Hd. unfold assumed in H, Hd.
      destruct (date_gt cand now).
      * destruct (new _ _ _) as [e|parsed] eqn:Hn.
        -- rewrite (new_raises_ValueError _ _ _ _ Hn). apply wp_ret. now apply IH.
        -- destruct (Hd parsed Hc Hm eq_refl) as [Hc' Hm'].
           now apply (wp_answer parsed (fun shown => "Successfully parsed with format '" ++ fmt_str
                                                     ++ "' (year assumed) - " ++ shown
                                                     ++ " days ago")).
      * now apply (wp_answer cand (fun shown => "Successfully parsed with format '" ++ fmt_str
                                                ++ "' (year assumed) - " ++ shown
                                                ++ " days ago")).
Qed.

(** What the call returns once the stages before the clean-up have
    passed: the answer of the first date stage that has one. *)
Lemma wp_date_stages (timestamp : string) (Qr : option Z -> Prop) :
  let t := normalize timestamp in
  let ts_cleaned := clean self t in
  reaches_dates t = true ->
  match with_year_parse ts_cleaned with
  | Some (_, parsed) => Qr (Some (clamp now parsed))
  | None =>
      match no_year_date now (ts_cleaned ++ " " ++ decimal (year now)) date_formats_no_year with
      | Some parsed => Qr (Some (clamp now parsed))
      | None =>
          special t = false
          /\ Qr (option_map (clamp now) (loose_date self now ts_cleaned))
      end
  end ->
  wp now (parse_timestamp_to_days self timestamp) (fun _ => False) Qr no_exn.
Proof.
  intros t ts_cleaned Hreach H.
  destruct (reaches_dates_inv _ Hreach) as (Hshort & Hrel).
  unfold t, normalize in *.
  skip_to_shorthand Hshort.
  apply wp_bind, wp_for_each.
  { intros [p c] Hin. rewrite (Hrel p c Hin). now apply wp_ret. }
  apply wp_bind, wp_log.
  apply wp_bind, wp_with_year_loop.
  fold ts_cleaned. unfold with_year_parse in H.
  destruct (first_accepted ts_cleaned "" date_formats_with_year) as [[fmt parsed]|];
    [exact H|].
  apply wp_bind, wp_no_year_loop.
  destruct (no_year_date now _ date_formats_no_year) as [parsed|]; [exact H|].
  destruct H as [Hspecial H].
  apply wp_bind, wp_for_each.
  { intros [p c] Hin. rewrite (special_false _ Hspecial p c Hin). now apply wp_ret. }
  assert (Hrest : forall (Qe : exn -> Prop), Qr None ->
            wp now (log self ("Failed to parse timestamp: '" ++ timestamp ++ "' (cleaned: '"
                      ++ ts_cleaned ++ "')") ;; return_ None) (fun _ : unit => False) Qr Qe).
  { intros Qe HN. apply wp_bind, wp_log. now apply wp_return. }
  unfold loose_date in H. apply wp_bind.
  destruct (search date_pattern ts_cleaned) as [m|]; [|apply wp_ret; now apply Hrest].
  cbv zeta in H.
  apply wp_try, wp_bind.
  destruct (truthy (mgroup m "3")).
  - apply wp_lift.
    destruct (Strptime.strptime _ _) as [e|parsed] eqn:Hp.
    + rewrite (strptime_raises_ValueError _ _ _ Hp). apply wp_ret. now apply Hrest.
    + apply strptime_date in Hp as [Hc Hm].
      now apply (wp_answer parsed (fun shown => "Matched fallback pattern - " ++ shown
                                                ++ " days ago")).
  - apply wp_bind, (wp_lift_value _ _ _ _ _ _ (str_year now Hnow)).
    apply wp_bind, wp_lift.
    destruct (Strptime.strptime _ _) as [e|cand] eqn:Hp.
    + rewrite (strptime_raises_ValueError _ _ _ Hp). apply wp_ret. now apply Hrest.
    + apply strptime_date in Hp as [Hc Hm].
      apply wp_assume_year; [exact Hnow|].
      pose proof (assumed_date now cand) as Hd. unfold assumed in H, Hd.
      destruct (date_gt cand now).
      * destruct (new _ _ _) as [e|parsed] eqn:Hn.
        -- rewrite (new_raises_ValueError _ _ _ _ Hn). apply wp_ret. now apply Hrest.
        -- destruct (Hd parsed Hc Hm eq_refl) as [Hc' Hm'].
           now apply (wp_answer parsed (fun shown => "Matched fallback pattern - " ++ shown
                                                     ++ " days ago")).
      * now apply (wp_answer cand (fun shown => "Matched fallback pattern - " ++ shown
                                                ++ " days ago")).
Qed.

End Stages.

(** ** Calls and batches *)

Section Calls.

(** What a call gives, from the way its body ends. *)
Lemma run_call_outcome {R} (none : R) (body : M R unit) (now : datetime) (w : world) :
  snd (run_call none body now w)
  = match snd (body (fun _ => now) w) with
    | Normal _ => inr none
    | Returned r => inr r
    | Raised e => inl e
    end.
Proof.
  unfold run_call. destruct (body (fun _ => now) w) as [w' [a|r|e]]; reflexivity.
Qed.

(** In any state of the world a call ends as [resolve] says. *)
Lemma parse_outcome (verbose : bool) (now : datetime) (raw : string) (w : world) :
  snd (parse_timestamp_to_days (init verbose) raw (fun _ => now) w)
  = match resolve verbose now raw with
    | inr r => Returned r
    | inl e => Raised e
    end.
Proof.
  pose proof (parse_total (init verbose) now raw w) as Ht.
  pose proof (parse_sim (init verbose) (init verbose) now raw eq_refl w world0) as Hs.
  unfold resolve. rewrite run_call_outcome, <- Hs.
  destruct (snd (parse_timestamp_to_days (init verbose) raw (fun _ => now) w)) as [a|r|e];
    simpl in Ht; [contradiction | reflexivity | reflexivity].
Qed.

(** The loop of a batch adds, for each input in turn, the pair of the
    input and what resolving it alone returns, as long as the inputs
    resolve. *)
Lemma batch_loop (verbose : bool) (now : datetime) (raws : list string) :
  Forall (fun raw => exists r, resolve verbose now raw = inr r) raws ->
  forall results w,
  exists w' more,
    for_fold raws results
      (fun results timestamp =>
         days_ago <- call (R':=list (string * option Z)) None
                          (parse_timestamp_to_days (init verbose) timestamp) ;;
         ret (results ++ [(timestamp, days_ago)])%list)
      (fun _ => now) w
    = (w', Normal (results ++ more)%list)
    /\ Forall2 (fun raw pair => fst pair = raw /\ resolve verbose now raw = inr (snd pair))
               raws more.
Proof.
  induction 1 as [|raw raws [r Hr] _ IH]; intros results w; simpl.
  - exists w, []. rewrite app_nil_r. split; [reflexivity | constructor].
  - pose proof (parse_outcome verbose now raw w) as Ho. rewrite Hr in Ho.
    unfold bind at 1. unfold bind at 1. unfold call at 1.
    destruct (parse_timestamp_to_days (init verbose) raw (fun _ => now) w) as [w1 o].
    simpl in Ho. subst o. cbn [ret].
    destruct (IH (results ++ [(raw, r)])%list w1) as (w' & more & Hf & Hall).
    exists w', ((raw, r) :: more). split.
    + rewrite Hf. now rewrite <- app_assoc.
    + constructor; auto.
Qed.

(** The loop stops at the first input that raises, with its exception. *)
Lemma batch_loop_raises (verbose : bool) (now : datetime) (before : list string)
      (raw : string) (after : list string) (e : exn) :
  Forall (fun raw => exists r, resolve verbose now raw = inr r) before ->
  resolve verbose now raw = inl e ->
  forall results w,
  exists w',
    for_fold (before ++ raw :: after) results
      (fun results timestamp =>
         days_ago <- call (R':=list (string * option Z)) None
                          (parse_timestamp_to_days (init verbose) timestamp) ;;
         ret (results ++ [(timestamp, days_ago)])%list)
      (fun _ => now) w
    = (w', Raised e).
Proof.
  intros Hbefore He. induction Hbefore as [|first before [r Hr] _ IH]; intros results w; simpl.
  - pose proof (parse_outcome verbose now raw w) as Ho. rewrite He in Ho.
    unfold bind at 1. unfold bind at 1. unfold call at 1.
    destruct (parse_timestamp_to_days (init verbose) raw (fun _ => now) w) as [w1 o].
    simpl in Ho. subst o. eauto.
  - pose proof (parse_outcome verbose now first w) as Ho. rewrite Hr in Ho.
    unfold bind at 1. unfold bind at 1. unfold call at 1.
    destruct (parse_timestamp_to_days (init verbose) first (fun _ => now) w) as [w1 o].
    simpl in Ho. subst o. cbn [ret].
    apply IH.
Qed.

(** The module-level functions give what [resolve] and [resolve_many]
    say. *)
Lemma parse_timestamp_resolve (verbose : bool) (reference : datetime) (raw : string)
      (w : world) :
  snd (run_call None (parse_timestamp raw verbose) reference w)
  = resolve verbose reference raw.
Proof.
  pose proof (parse_outcome verbose reference raw w) as Ho.
  unfold run_call, parse_timestamp, bind, call.
  destruct (parse_timestamp_to_days (init verbose) raw (fun _ => reference) w) as [w' o].
  simpl in Ho. subst o. destruct (resolve verbose reference raw); reflexivity.
Qed.

Lemma parse_timestamps_resolve_many (verbose : bool) (reference : datetime)
      (raws : list string) :
  snd (run_call [] (parse_timestamps raws verbose) reference world0)
  = resolve_many verbose reference raws.
Proof.
  unfold resolve_many, run_call, parse_timestamps.
  unfold bind at 1. unfold call at 1.
  destruct (parse_multiple_timestamps (init verbose) raws (fun _ => reference) world0)
    as [w' [a|r|e]]; reflexivity.
Qed.

End Calls.

Section Loops.

Variable self : TimestampParser.
Variable now : datetime.

(** The loop over the sub-day units answers as soon as one is found. *)
Lemma wp_time_units_loop (ts_lower : string) (units : list (pattern * Z))
      (Qn : unit -> Prop) (Qr : option Z -> Prop) (Qe : exn -> Prop) :
  (forall p d, In (p, d) units -> Qr (Some d) /\ str d = inr (decimal d)) ->
  (existsb (fun '(p, _) => found p ts_lower) units = false -> Qn tt) ->
  wp now
     (for_each units (fun '(pattern, days) =>
        match search (compiled pattern) ts_lower with
        | Some _ =>
            shown <- lift (str days) ;;
            log self ("Matched time unit pattern: " ++ source pattern
                      ++ " - returning " ++ shown ++ " days") ;;
            return_ (Some days)
        | None => ret tt
        end))
     Qn Qr Qe.
Proof.
  induction units as [|[p d] units IH]; cbn [for_each existsb]; intros Hr Hn.
  - apply wp_ret. now apply Hn.
  - apply wp_bind. unfold found at 1 in Hn.
    destruct (search (compiled p) ts_lower).
    + destruct (Hr p d (or_introl eq_refl)) as [HQ Hs].
      apply wp_bind, (wp_lift_value _ _ _ _ _ _ Hs).
      apply wp_bind, wp_log. now apply wp_return.
    + apply wp_ret. apply IH; [|exact Hn].
      intros p' d' Hin. apply (Hr p' d'). now right.
Qed.

End Loops.

Section Templates.

(** The first accepted template is the one before which every template
    is rejected. *)
Lemma first_accepted_split (text suffix : string) (formats before after : list string)
      (fmt : string) (parsed : datetime) :
  formats = (before ++ fmt :: after)%list ->
  (forall f, In f before -> exists e, Strptime.strptime text (f ++ suffix) = inl e) ->
  Strptime.strptime text (fmt ++ suffix) = inr parsed ->
  first_accepted text suffix formats = Some (fmt, parsed).
Proof.
  intros -> Hbefore Hfmt. induction before as [|f before IH]; simpl.
  - now rewrite Hfmt.
  - destruct (Hbefore f (or_introl eq_refl)) as [e ->].
    apply IH. intros f' Hin. apply Hbefore. now right.
Qed.

Lemma first_accepted_none (text suffix : string) (formats : list string) :
  (forall f, In f formats -> exists e, Strptime.strptime text (f ++ suffix) = inl e) ->
  first_accepted text suffix formats = None.
Proof.
  induction formats as [|f formats IH]; simpl; intros H; [reflexivity|].
  destruct (H f (or_introl eq_refl)) as [e ->].
  apply IH. intros f' Hin. apply H. now right.
Qed.

Lemma first_accepted_date (text suffix : string) (formats : list string)
      (fmt : string) (parsed : datetime) :
  first_accepted text suffix formats = Some (fmt, parsed) ->
  check_date_fields (year parsed) (month parsed) (day parsed) = true /\ midnight parsed.
Proof.
  induction formats as [|f formats IH]; simpl; [discriminate|].
  destruct (Strptime.strptime text (f ++ suffix)) as [e|d] eqn:Hp; [exact IH|].
  intros [= <- <-]. eapply strptime_date; eauto.
Qed.

Lemma no_year_date_first (now : datetime) (text : string) (formats : list string)
      (fmt : string) (cand parsed : datetime) :
  first_accepted text " %Y" formats = Some (fmt, cand) ->
  assumed now cand = inr parsed ->
  no_year_date now text formats = Some parsed.
Proof.
  induction formats as [|f formats IH]; simpl; [discriminate|].
  destruct (Strptime.strptime text (f ++ " %Y")) as [e|d]; [exact IH|].
  intros [= <- <-] ->. reflexivity.
Qed.

Lemma no_year_date_inv (now : datetime) (text : string) (formats : list string)
      (parsed : datetime) :
  no_year_date now text formats = Some parsed ->
  date_gt parsed now = false
  /\ check_date_fields (year parsed) (month parsed) (day parsed) = true /\ midnight parsed.
Proof.
  induction formats as [|f formats IH]; simpl; [discriminate|].
  destruct (Strptime.strptime text (f ++ " %Y")) as [e|cand] eqn:Hp; [exact IH|].
  destruct (assumed now cand) as [e|d] eqn:Ha; [exact IH|].
  intros [= <-]. split.
  - eapply assumed_not_after; eauto.
  - apply strptime_date in Hp as [Hc Hm]. eapply assumed_date; eauto.
Qed.

Lemma with_year_none (ts_cleaned : string) :
  (forall f, In f date_formats_with_year -> exists e, Strptime.strptime ts_cleaned f = inl e) ->
  with_year_parse ts_cleaned = None.
Proof.
  intros H. apply first_accepted_none. intros f Hin. rewrite append_empty_r. auto.
Qed.

End Templates.

(** ** Answers of the date stages *)

Section Answers.

Variable verbose : bool.
Variable reference : datetime.
Variable raw : string.
Hypothesis Hvalid : valid reference.
Hypothesis Hreach : reaches_dates (normalize raw) = true.

(** The answer of the stage with a year. *)
Lemma with_year_answer (fmt : string) (parsed : datetime) :
  with_year_parse (clean (init verbose) (normalize raw)) = Some (fmt, parsed) ->
  resolve verbose reference raw = inr (Some (Z.max 0 (days_between parsed reference))).
Proof.
  intros Hp.
  destruct (resolve_wp verbose reference raw
              (fun r => r = Some (Z.max 0 (days_between parsed reference))))
    as (r & Hr & ->); [|exact Hr].
  apply wp_date_stages; [exact Hvalid | exact Hreach |]. rewrite Hp.
  apply first_accepted_date in Hp as [_ Hm].
  now rewrite clamp_days.
Qed.

(** The answer of the yearless stage. *)
Lemma no_year_answer (parsed : datetime) :
  with_year_parse (clean (init verbose) (normalize raw)) = None ->
  no_year_date reference
    (clean (init verbose) (normalize raw) ++ " " ++ decimal (year reference))
    date_formats_no_year = Some parsed ->
  resolve verbose reference raw = inr (Some (days_between parsed reference))
  /\ (0 <= days_between parsed reference)%Z.
Proof.
  intros Hw Hp.
  destruct (no_year_date_inv _ _ _ _ Hp) as (Hgt & Hc & Hm).
  pose proof (days_between_sign reference parsed Hvalid Hc) as Hs.
  rewrite Hgt in Hs. split; [|exact Hs].
  destruct (resolve_wp verbose reference raw
              (fun r => r = Some (days_between parsed reference)))
    as (r & Hr & ->); [|exact Hr].
  apply wp_date_stages; [exact Hvalid | exact Hreach |]. rewrite Hw, Hp.
  rewrite clamp_days by assumption. f_equal. lia.
Qed.

(** The answer of the loose fallback. *)
Lemma loose_answer :
  with_year_parse (clean (init verbose) (normalize raw)) = None ->
  no_year_date reference
    (clean (init verbose) (normalize raw) ++ " " ++ decimal (year reference))
    date_formats_no_year = None ->
  special (normalize raw) = false ->
  resolve verbose reference raw
  = inr (option_map (clamp reference)
           (loose_date (init verbose) reference (clean (init verbose) (normalize raw)))).
Proof.
  intros Hw Hn Hs.
  destruct (resolve_wp verbose reference raw
              (fun r => r = option_map (clamp reference)
                     (loose_date (init verbose) reference (clean (init verbose) (normalize raw)))))
    as (r & Hr & ->); [|exact Hr].
  apply wp_date_stages; [exact Hvalid | exact Hreach |]. rewrite Hw, Hn. auto.
Qed.

Lemma loose_date_date (parsed : datetime) :
  loose_date (init verbose) reference (clean (init verbose) (normalize raw)) = Some parsed ->
  check_date_fields (year parsed) (month parsed) (day parsed) = true /\ midnight parsed.
Proof.
  unfold loose_date. destruct (search date_pattern _) as [m|]; [|discriminate].
  cbv zeta. destruct (truthy _).
  - destruct (Strptime.strptime _ _) as [e|d] eqn:Hp; [discriminate|].
    intros [= <-]. eapply strptime_date; eauto.
  - destruct (Strptime.strptime _ _) as [e|cand] eqn:Hp; [discriminate|].
    destruct (assumed reference cand) as [e|d] eqn:Ha; [discriminate|].
    intros [= <-]. apply strptime_date in Hp as [Hc Hm]. eapply assumed_date; eauto.
Qed.

End Answers.

(** The first template with a year that strptime accepts gives the answer. *)
Lemma with_year_first (verbose : bool) (reference : datetime) (raw : string)
      (before : list string) (fmt : string) (after : list string) (parsed : datetime) :
  valid reference ->
  reaches_dates (normalize raw) = true ->
  date_formats_with_year = (before ++ fmt :: after)%list ->
  (forall f, In f before ->
             exists e, Strptime.strptime (clean (init verbose) (normalize raw)) f = inl e) ->
  Strptime.strptime (clean (init verbose) (normalize raw)) fmt = inr parsed ->
  resolve verbose reference raw = inr (Some (Z.max 0 (days_between parsed reference))).
Proof.
  intros Hv Hreach Hsplit Hbefore Hfmt.
  apply (with_year_answer verbose reference raw Hv Hreach fmt).
  unfold with_year_parse.
  apply (first_accepted_split _ _ _ before after); auto.
  - intros f Hin. rewrite append_empty_r. auto.
  - now rewrite append_empty_r.
Qed.

(** ** The year of a yearless candidate *)

Section YearText.

Local Open Scope Z_scope.

Lemma code_digit_char (d : Z) : 0 <= d <= 9 -> Str.code (digit_char d) = (Z.to_N d + 48)%N.
Proof.
  intros H. unfold Str.code, digit_char. apply N_ascii_embedding. lia.
Qed.

Lemma digit_char_decimal (d : Z) : 0 <= d <= 9 -> Str.isdecimal (digit_char d) = true.
Proof.
  intros H. unfold Str.isdecimal, Str.in_range. rewrite code_digit_char by exact H.
  apply andb_true_iff. split; apply N.leb_le; lia.
Qed.

Lemma digit_value_char (d : Z) : 0 <= d <= 9 -> digit_value (digit_char d) = d.
Proof.
  intros H. unfold digit_value. rewrite code_digit_char by exact H. lia.
Qed.

(** The text of a year: at most four digits, which read back as the
    year, and exactly four from the year 1000 on. *)
Lemma decimal_year (y : Z) :
  1 <= y <= 9999 ->
  Str.all Str.isdecimal (decimal y) = true
  /\ int_digits 0 (decimal y) = y
  /\ (1 <= String.length (decimal y) <= 4)%nat
  /\ (String.length (decimal y) = 4%nat <-> 1000 <= y).
Proof.
  intros Hy. unfold decimal.
  destruct (Z.ltb_spec y 0) as [?|_]; [lia|].
  set (fuel := Z.to_nat (Z.log2 y)).
  assert (Hd : forall n, 0 <= n mod 10 <= 9)
    by (intros n; pose proof (Z.mod_pos_bound n 10); lia).
  assert (Hfuel : forall k, 0 <= k -> 2 ^ k <= y -> (Z.to_nat k <= fuel)%nat).
  { intros k Hk0 Hk. unfold fuel.
    apply Z2Nat.inj_le; [lia | apply Z.log2_nonneg | apply Z.log2_le_pow2; lia]. }
  cbn [str_digits].
  destruct (Z.eqb_spec (y / 10) 0) as [E1|N1].
  { cbn [Str.all int_digits String.length].
    rewrite digit_char_decimal, digit_value_char by auto.
    repeat split; intros; try reflexivity;
      cbn [String.length] in *; Z.div_mod_to_equations; lia. }
  destruct fuel as [|fuel]; [specialize (Hfuel 3 ltac:(lia) ltac:(change (2 ^ 3) with 8; Z.div_mod_to_equations; lia)); simpl in Hfuel; lia|].
  cbn [str_digits].
  destruct (Z.eqb_spec (y / 10 / 10) 0) as [E2|N2].
  { cbn [Str.all int_digits String.length].
    rewrite !digit_char_decimal, !digit_value_char by auto.
    repeat split; intros; try reflexivity;
      cbn [String.length] in *; Z.div_mod_to_equations; lia. }
  destruct fuel as [|fuel]; [specialize (Hfuel 6 ltac:(lia) ltac:(change (2 ^ 6) with 64; Z.div_mod_to_equations; lia)); simpl in Hfuel; lia|].
  cbn [str_digits].
  destruct (Z.eqb_spec (y / 10 / 10 / 10) 0) as [E3|N3].
  { cbn [Str.all int_digits String.length].
    rewrite !digit_char_decimal, !digit_value_char by auto.
    repeat split; intros; try reflexivity;
      cbn [String.length] in *; Z.div_mod_to_equations; lia. }
  destruct fuel as [|fuel]; [specialize (Hfuel 9 ltac:(lia) ltac:(change (2 ^ 9) with 512; Z.div_mod_to_equations; lia)); simpl in Hfuel; lia|].
  cbn [str_digits].
  destruct (Z.eqb_spec (y / 10 / 10 / 10 / 10) 0) as [E4|N4].
  { cbn [Str.all int_digits String.length].
    rewrite !digit_char_decimal, !digit_value_char by auto.
    repeat split; intros; try reflexivity;
      cbn [String.length] in *; Z.div_mod_to_equations; lia. }
  exfalso. Z.div_mod_to_equations; lia.
Qed.

End YearText.

Section StringSplit.

Lemma string_app_eq_app (x1 : string) :
  forall x2 y1 y2,
    x1 ++ x2 = y1 ++ y2 ->
    exists l, (x1 = y1 ++ l /\ y2 = l ++ x2) \/ (y1 = x1 ++ l /\ x2 = l ++ y2).
Proof.
  induction x1 as [|a x1 IH]; intros x2 y1 y2 H; simpl in H.
  - exists y1. right. auto.
  - destruct y1 as [|b y1]; simpl in H.
    + exists (String a x1). left. auto.
    + injection H as -> H. apply IH in H as (l & [[-> ->]|[-> ->]]); exists l; auto.
Qed.

Lemma string_last (l : string) : l <> "" -> exists l' z, l = l' ++ String z "".
Proof.
  induction l as [|a l IH]; [congruence|]. intros _.
  destruct l as [|b l].
  - exists "", a. reflexivity.
  - destruct IH as (l' & z & E); [discriminate|].
    exists (String a l'), z. simpl. now rewrite E.
Qed.

Lemma string_snoc_inj (a b : string) (x y : ascii) :
  a ++ String x "" = b ++ String y "" -> a = b /\ x = y.
Proof.
  revert b. induction a as [|c a IH]; intros [|d b] H; simpl in H.
  - injection H as ->. auto.
  - injection H as -> H. destruct b; discriminate.
  - injection H as -> H. destruct a; discriminate.
  - injection H as -> H. apply IH in H as [-> ->]. auto.
Qed.

Lemma length_zero (s : string) : String.length s = 0%nat -> s = "".
Proof. destruct s; [reflexivity | discriminate]. Qed.

(** Four digits at the end of a text that ends with a space and at most
    four digits are those digits. *)
Lemma year_suffix (u ds v ys : string) :
  u ++ ds = v ++ String " " ys ->
  String.length ds = 4%nat -> Str.all Str.isdecimal ds = true ->
  (String.length ys <= 4)%nat ->
  ds = ys.
Proof.
  intros H Hlen Hds Hys.
  replace (v ++ String " " ys) with ((v ++ String " " "") ++ ys) in H
    by (rewrite append_assoc; reflexivity).
  apply string_app_eq_app in H as (l & [[-> ->]|[Hv ->]]).
  - rewrite append_length in Hys.
    assert (l = "") by (apply length_zero; lia). now subst.
  - destruct l as [|a l]; [reflexivity|]. exfalso.
    destruct (string_last (String a l)) as (l' & z & E); [discriminate|].
    rewrite E in Hv, Hds. rewrite <- append_assoc in Hv.
    apply string_snoc_inj in Hv as [_ <-].
    rewrite !all_app in Hds. simpl in Hds.
    rewrite andb_false_r in Hds. discriminate.
Qed.

End StringSplit.

Section YearTail.

Lemma year_tail_miss (a : ascii) (r pre : string) (caps : captures) :
  Str.isspace a = false -> year_tail pre (String a r) caps = None.
Proof. intros H. unfold year_tail. cbn [run plus rep in_cls]. now rewrite H. Qed.

Lemma year_tail_end (pre : string) (caps : captures) : year_tail pre "" caps = None.
Proof. reflexivity. Qed.

(** At the appended year the tail matches when the year has four digits. *)
Lemma year_tail_year (ys pre : string) (caps : captures) :
  Str.all Str.isdecimal ys = true -> (String.length ys <= 4)%nat ->
  year_tail pre (String " " ys) caps
  = if (String.length ys =? 4)%nat
    then Some {| m_start := 0; m_end := 5 + String.length pre;
                 m_groups := ("Y", ys) :: caps |}
    else None.
Proof.
  intros Hall Hlen. unfold year_tail, year_directive.
  cbn [run plus rep in_cls seqs].
  change (Str.isspace " ") with true. cbn [andb Nat.pred option_map].
  assert (Hstep : forall a, Str.isdecimal a = true -> Str.isspace a = false)
    by apply decimal_not_space.
  destruct ys as [|a [|b [|c [|d [|e ys]]]]]; cbn [Str.all String.length] in *;
    try lia;
    repeat match goal with
           | H : _ && _ = true |- _ => apply andb_true_iff in H as [? H]
           end;
    cbn [rep run in_cls Nat.eqb];
    repeat match goal with
           | H : Str.isdecimal ?x = true |- _ =>
               rewrite ?(Hstep x H), ?H; clear H
           end;
    cbn [andb]; try reflexivity.
  unfold accept.
  match goal with
  | |- context [between ?p (String ?x4 (String ?x3 (String ?x2 (String ?x1 ?p))))] =>
      change (String x4 (String x3 (String x2 (String x1 p))))
        with (Str.rev_onto (String x1 (String x2 (String x3 (String x4 "")))) p);
      rewrite between_rev_onto
  end.
  reflexivity.
Qed.

(** Where the tail matches, it has read white space and four digits. *)
Lemma year_tail_inv (pre rest : string) (caps : captures) (x : rmatch) :
  year_tail pre rest caps = Some x ->
  exists ws ds rest',
    rest = ws ++ ds ++ rest'
    /\ String.length ds = 4%nat /\ Str.all Str.isdecimal ds = true
    /\ x = {| m_start := 0;
              m_end := 4 + String.length ws + String.length pre;
              m_groups := ("Y", ds) :: caps |}.
Proof.
  unfold year_tail, year_directive. cbn [run plus seqs]. intros H.
  apply rep_inv in H as (ws & rest1 & -> & _ & _ & H).
  cbn [run in_cls] in H.
  destruct rest1 as [|a [|b [|c [|d rest']]]]; try discriminate;
    repeat match type of H with
           | (if ?t then _ else _) = _ => destruct t eqn:?; [|discriminate]
           end; try discriminate.
  exists ws, (String a (String b (String c (String d "")))), rest'.
  unfold accept in H.
  match type of H with
  | context [between ?p (String ?x4 (String ?x3 (String ?x2 (String ?x1 ?p))))] =>
      change (String x4 (String x3 (String x2 (String x1 p))))
        with (Str.rev_onto (String x1 (String x2 (String x3 (String x4 "")))) p) in H;
      rewrite between_rev_onto in H
  end.
  injection H as <-. repeat split.
  - cbn [Str.all].
    repeat match goal with E : Str.isdecimal _ = true |- _ => rewrite E; clear E end.
    reflexivity.
  - cbn [String.length]. rewrite rev_onto_length. reflexivity.
Qed.

End YearTail.

Section YearOfCandidate.

(** A template with the year appended comes to its last two items, the
    white space and the year, somewhere in the text. *)
Lemma run_then_year (front : list regex) :
  forall pre rest caps x,
    run true (seqs (front ++ [plus CSpace; year_directive])) pre rest caps accept = Some x ->
    exists w rest' extra,
      rest = w ++ rest'
      /\ year_tail (Str.rev_onto w pre) rest' (extra ++ caps)%list = Some x.
Proof.
  induction front as [|r front IH]; intros pre rest caps x H.
  - exists "", rest, []. split; [reflexivity | exact H].
  - assert (E : seqs ((r :: front) ++ [plus CSpace; year_directive])
                = Seq r (seqs (front ++ [plus CSpace; year_directive]))).
    { simpl. destruct (front ++ [plus CSpace; year_directive])%list eqn:F; [|reflexivity].
      apply app_eq_nil in F as [_ F]. discriminate. }
    rewrite E in H. cbn [run] in H.
    apply run_inv in H as (w1 & rest1 & extra1 & -> & H & _).
    apply IH in H as (w2 & rest2 & extra2 & -> & H).
    exists (w1 ++ w2), rest2, (extra2 ++ extra1)%list. split.
    + now rewrite append_assoc.
    + now rewrite rev_onto_app, <- app_assoc.
Qed.

Lemma no_year_patterns (fmt : string) :
  In fmt date_formats_no_year ->
  exists front,
    Strptime.pattern false (fmt ++ " %Y") = Some (front ++ [plus CSpace; year_directive])%list.
Proof.
  intros H. repeat (destruct H as [<-|H]; [eexists [_; _; _]; reflexivity|]).
  destruct H.
Qed.

Lemma set_field_year (acc : result Strptime.fields) (text : string) (y : option Z) (m d : Z) :
  Strptime.set_field acc ("Y", text) = inr (y, m, d) ->
  exists v, int text = inr v /\ y = Some v.
Proof.
  unfold Strptime.set_field. destruct acc as [e|[[y0 m0] d0]]; [discriminate|].
  change (String.eqb "Y" "Y") with true. cbv iota.
  destruct (int text) as [e|v]; [discriminate|].
  intros [= <- _ _]. eauto.
Qed.

(** The candidate of a yearless template lies in the year appended to
    the text. *)
Lemma strptime_year (fmt ts_cleaned : string) (y : Z) (cand : datetime) :
  In fmt date_formats_no_year ->
  (1 <= y <= 9999)%Z ->
  Strptime.strptime (ts_cleaned ++ " " ++ decimal y) (fmt ++ " %Y") = inr cand ->
  year cand = y.
Proof.
  intros Hin Hy. destruct (no_year_patterns fmt Hin) as (front & Hpat).
  destruct (decimal_year y Hy) as (Hdigits & Hint & Hlen & _).
  unfold Strptime.strptime. rewrite Hpat. unfold Strptime.convert.
  change (match_at true false (seqs (front ++ [plus CSpace; year_directive])) ""
                   (ts_cleaned ++ " " ++ decimal y))
    with (run true (seqs (front ++ [plus CSpace; year_directive])) ""
              (ts_cleaned ++ " " ++ decimal y) [] accept).
  destruct (run true _ "" _ [] accept) as [found|] eqn:Hrun; [|discriminate].
  apply run_then_year in Hrun as (w & rest & extra & Hdata & Htail).
  apply year_tail_inv in Htail as (ws & ds & rest' & -> & Hds_len & Hds & ->).
  cbn [m_end m_groups].
  destruct (negb _) eqn:Hend; [discriminate|].
  apply negb_false_iff, Nat.eqb_eq in Hend.
  rewrite Hdata, !append_length, Hds_len, rev_onto_length in Hend. simpl in Hend.
  assert (rest' = "") by (apply length_zero; lia). subst rest'.
  rewrite append_empty_r in Hdata.
  replace (w ++ ws ++ ds) with ((w ++ ws) ++ ds) in Hdata by apply append_assoc.
  symmetry in Hdata.
  apply (year_suffix _ ds ts_cleaned (decimal y)) in Hdata; try assumption; try lia.
  subst ds.
  cbn [List.rev]. rewrite fold_left_app. cbn [fold_left].
  destruct (Strptime.set_field _ ("Y", decimal y)) as [e|[[yo m] d]] eqn:Hset; [discriminate|].
  apply set_field_year in Hset as (v & Hv & ->).
  rewrite int_decimal in Hv; auto.
  - injection Hv as <-. rewrite Hint.
    destruct (negb _); [discriminate|].
    intros H. apply new_inv in H as [-> _]. reflexivity.
  - intros E. rewrite E in Hlen. simpl in Hlen. lia.
  - apply within_limit. unfold int_max_str_digits. lia.
Qed.

End YearOfCandidate.

(** The first yearless template that strptime accepts gives the answer,
    when its candidate can be given a year. *)
Lemma no_year_first (verbose : bool) (reference : datetime) (raw : string)
      (before : list string) (fmt : string) (after : list string) (cand parsed : datetime) :
  valid reference ->
  reaches_dates (normalize raw) = true ->
  (forall f, In f date_formats_with_year ->
             exists e, Strptime.strptime (clean (init verbose) (normalize raw)) f = inl e) ->
  date_formats_no_year = (before ++ fmt :: after)%list ->
  (forall f, In f before ->
             exists e, Strptime.strptime
                         (clean (init verbose) (normalize raw) ++ " " ++ decimal (year reference))
                         (f ++ " %Y") = inl e) ->
  Strptime.strptime (clean (init verbose) (normalize raw) ++ " " ++ decimal (year reference))
                    (fmt ++ " %Y") = inr cand ->
  assumed reference cand = inr parsed ->
  resolve verbose reference raw = inr (Some (days_between parsed reference)).
Proof.
  intros Hv Hreach Hwith Hsplit Hbefore Hfmt Hassumed.
  apply (no_year_answer verbose reference raw Hv Hreach parsed).
  - now apply with_year_none.
  - apply (no_year_date_first _ _ _ fmt cand); [|exact Hassumed].
    apply (first_accepted_split _ _ _ before after); auto.
Qed.

(** A way to check that strptime rejects every template of a list. *)
Lemma all_rejected_with (text suffix : string) (formats : list string) :
  forallb (fun f => match Strptime.strptime text (f ++ suffix) with
                    | inl _ => true
                    | inr _ => false
                    end) formats = true ->
  forall f, In f formats -> exists e, Strptime.strptime text (f ++ suffix) = inl e.
Proof.
  intros H f Hf. rewrite forallb_forall in H. specialize (H f Hf).
  destruct (Strptime.strptime text (f ++ suffix)) as [e|]; [eauto | discriminate].
Qed.

Lemma all_rejected (text : string) (formats : list string) :
  forallb (fun f => match Strptime.strptime text f with
                    | inl _ => true
                    | inr _ => false
                    end) formats = true ->
  forall f, In f formats -> exists e, Strptime.strptime text f = inl e.
Proof.
  intros H f Hf. rewrite forallb_forall in H. specialize (H f Hf).
  destruct (Strptime.strptime text f) as [e|]; [eauto | discriminate].
Qed.

(** ** A yearless 29 February *)

Lemma convert_year (data : string) (n : nat) (groups : captures) (ys : string) :
  String.length data = n ->
  Strptime.convert data (Some {| m_start := 0; m_end := n; m_groups := ("Y", ys) :: groups |})
  = match fold_left Strptime.set_field (List.rev groups) (inr (None, 1, 1)%Z) with
    | inl e => inl e
    | inr (_, m, d) =>
        match int ys with
        | inr v => if negb (check_date_fields v m d) then inl ValueError else new v m d
        | inl e => inl e
        end
    end.
Proof.
  intros Hn. unfold Strptime.convert. cbn [m_end m_groups].
  rewrite Hn, Nat.eqb_refl. cbn [negb List.rev].
  rewrite fold_left_app. cbn [fold_left].
  destruct (fold_left Strptime.set_field (List.rev groups) _) as [e|[[y0 m] d]];
    [reflexivity|].
  unfold Strptime.set_field. change (String.eqb "Y" "Y") with true. cbv iota.
  destruct (int ys); reflexivity.
Qed.

Lemma leap_day_exists (y : Z) :
  (1 <= y <= 9999)%Z -> is_leap y = true -> check_date_fields y 2 29 = true.
Proof.
  intros Hy Hl. unfold check_date_fields, days_in_month, MINYEAR, MAXYEAR.
  rewrite Hl. simpl.
  repeat (apply andb_true_iff; split); try reflexivity; apply Z.leb_le; lia.
Qed.

(** One template tried on a text followed by a year [ys]. *)
Ltac year_case :=
  unfold Strptime.strptime;
  match goal with
  | |- context [Strptime.pattern false ?f] =>
      let v := eval vm_compute in (Strptime.pattern false f) in
      change (Strptime.pattern false f) with v
  end;
  cbv iota;
  match goal with
  | |- context [match_at true false (seqs [?r1; ?r2; ?r3; ?ws; ?yd]) "" ?data] =>
      change (match_at true false (seqs [r1; r2; r3; ws; yd]) "" data)
        with (run true (seqs [r1; r2; r3]) "" data [] year_tail)
  end.

(** Finishes a case once the match object is known. *)
Ltac year_result Hlen4 Hint Hy Hleap :=
  match goal with
  | |- leap_day_or_error _ (Strptime.convert _ None) => left; reflexivity
  | |- leap_day_or_error _ (Strptime.convert ?data (Some {| m_start := 0; m_end := ?n; m_groups := ("Y", ?ys) :: ?groups |})) =>
      rewrite (convert_year data n groups ys)
        by (cbn [String.append String.length Nat.add]; rewrite ?Hlen4; reflexivity);
      let v := eval vm_compute in
               (fold_left Strptime.set_field (List.rev groups) (inr (None, 1, 1)%Z)) in
      change (fold_left Strptime.set_field (List.rev groups) (inr (None, 1, 1)%Z)) with v;
      cbv iota; rewrite Hint;
      first
        [ rewrite (leap_day_exists _ Hy Hleap); right;
          unfold new; rewrite (leap_day_exists _ Hy Hleap); reflexivity
        | left; reflexivity ]
  end.

Ltac year_eval :=
  let K := fresh "K" in
  let Kyear := fresh "Kyear" in
  let Kmiss := fresh "Kmiss" in
  let Kend := fresh "Kend" in
  match goal with
  | Hall : Str.all Str.isdecimal ?ys = true, Hlen : (String.length ?ys <= 4)%nat |- _ =>
      pose proof (fun pre caps => year_tail_year ys pre caps Hall Hlen) as Kyear
  end;
  pose proof year_tail_miss as Kmiss;
  pose proof year_tail_end as Kend;
  revert Kyear Kmiss Kend; generalize year_tail; intros K Kyear Kmiss Kend;
  match goal with
  | |- context [run true ?r "" ?d [] K] =>
      let v := eval vm_compute in (run true r "" d [] K) in
      change (run true r "" d [] K) with v
  end;
  repeat first [rewrite Kyear | rewrite Kmiss by reflexivity | rewrite Kend];
  cbv iota.

(** Each yearless template, tried on each cleaned form of a 29 February
    followed by the text of a leap year, raises or reads that year's
    29 February. *)
Lemma leap_day_templates (ts_cleaned fmt : string) :
  In ts_cleaned leap_day_cleaned -> In fmt date_formats_no_year ->
  forall ys y,
    Str.all Str.isdecimal ys = true -> (String.length ys <= 4)%nat ->
    int ys = inr y -> (1 <= y <= 9999)%Z -> is_leap y = true ->
    leap_day_or_error y (Strptime.strptime (ts_cleaned ++ " " ++ ys) (fmt ++ " %Y")).
Proof.
  intros Hc Hf ys y Hall Hlen Hint Hy Hleap.
  unfold leap_day_cleaned, date_formats_no_year in *.
  repeat (destruct Hc as [<-|Hc]; [|]); [..|destruct Hc];
    repeat (destruct Hf as [<-|Hf]; [|]); try (destruct Hf).
  all: year_case; year_eval.
  all: destruct (String.length ys =? 4)%nat eqn:Hlen4;
    [apply Nat.eqb_eq in Hlen4|]; cbv iota.
  all: year_result Hlen4 Hint Hy Hleap.
Qed.

Section LeapDay.

Local Open Scope Z_scope.

Variable reference : datetime.
Hypothesis Hvalid : valid reference.
Hypothesis Hbefore : before_leap_day reference.

Lemma leap_year_range : 1 <= year reference <= 9999.
Proof. destruct Hvalid as [Hc _]. apply check_date_fields_inv in Hc. lia. Qed.

(** Last year has no 29 February, so the candidate finds no year. *)
Lemma leap_day_dropped :
  assumed reference (mkdatetime (year reference) 2 29 0 0 0 0) = inl ValueError.
Proof.
  destruct Hbefore as [Hleap Hday]. unfold assumed.
  assert (Hgt : date_gt (mkdatetime (year reference) 2 29 0 0 0 0) reference = true).
  { unfold date_gt. cbn [year month day]. rewrite Z.compare_refl.
    destruct Hday as [->|[-> Hd]]; [reflexivity|].
    rewrite Z.compare_refl. apply Z.ltb_lt. exact Hd. }
  rewrite Hgt. cbn [month day]. unfold new, check_date_fields, days_in_month.
  assert (Hprev : is_leap (year reference - 1) = false).
  { unfold is_leap in *. apply andb_true_iff in Hleap as [H4 _].
    apply Z.eqb_eq in H4. apply andb_false_iff. left. apply Z.eqb_neq.
    Z.div_mod_to_equations. lia. }
  rewrite Hprev. cbn [andb]. change (nth (Z.to_nat 2) DAYS_IN_MONTH 0) with 28.
  change (29 <=? 28) with false. now rewrite !andb_false_r.
Qed.

Lemma leap_day_or_error_dropped (parsed : result datetime) :
  leap_day_or_error (year reference) parsed ->
  match parsed with
  | inr cand => assumed reference cand = inl ValueError
  | inl _ => True
  end.
Proof. intros [->| ->]; [exact I | apply leap_day_dropped]. Qed.

Lemma year_text :
  Str.all Str.isdecimal (decimal (year reference)) = true
  /\ (String.length (decimal (year reference)) <= 4)%nat
  /\ int (decimal (year reference)) = inr (year reference).
Proof.
  destruct (decimal_year _ leap_year_range) as (Hall & Hint & Hlen & _).
  repeat split; auto; try lia.
  rewrite int_decimal; auto; try congruence.
  - intros E. rewrite E in Hlen. simpl in Hlen. lia.
  - apply within_limit. unfold int_max_str_digits. lia.
Qed.

(** No yearless template gives a date to such a text. *)
Lemma leap_day_no_year (ts_cleaned : string) :
  In ts_cleaned leap_day_cleaned ->
  no_year_date reference (ts_cleaned ++ " " ++ decimal (year reference)) date_formats_no_year
  = None.
Proof.
  intros Hc. destruct year_text as (Hall & Hlen & Hint).
  destruct Hbefore as [Hleap _].
  assert (H : forall fmt, In fmt date_formats_no_year ->
                 leap_day_or_error (year reference)
                   (Strptime.strptime (ts_cleaned ++ " " ++ decimal (year reference))
                                      (fmt ++ " %Y"))).
  { intros fmt Hf.
    apply (leap_day_templates ts_cleaned fmt Hc Hf); auto using leap_year_range. }
  induction date_formats_no_year as [|fmt formats IH]; [reflexivity|].
  cbn [no_year_date].
  pose proof (leap_day_or_error_dropped _ (H fmt (or_introl eq_refl))) as Hd.
  destruct (Strptime.strptime _ (fmt ++ " %Y")) as [e|cand].
  - apply IH. intros f Hf. apply H. now right.
  - rewrite Hd. apply IH. intros f Hf. apply H. now right.
Qed.

(** Nor does the loose fallback. *)
Lemma leap_day_no_loose_date (self : TimestampParser) (ts_cleaned : string) :
  month_mappings self = month_mappings (init false) ->
  In ts_cleaned leap_day_cleaned ->
  loose_date self reference ts_cleaned = None.
Proof.
  intros Hmm Hc. destruct year_text as (Hall & Hlen & Hint).
  destruct Hbefore as [Hleap _].
  pose proof (leap_day_templates "29 february" "%d %B" (or_introl eq_refl) (or_introl eq_refl)
                (decimal (year reference)) (year reference) Hall Hlen Hint leap_year_range Hleap)
    as Hfirst.
  apply leap_day_or_error_dropped in Hfirst.
  unfold loose_date. rewrite Hmm.
  unfold leap_day_cleaned in Hc.
  repeat (destruct Hc as [<-|Hc];
          [ match goal with
            | |- context [search date_pattern ?c] =>
                let v := eval vm_compute in (search date_pattern c) in
                change (search date_pattern c) with v
            end; cbv iota zeta; try reflexivity | ]);
    try destruct Hc.
  change (match
             match Strptime.strptime ("29 february" ++ " " ++ decimal (year reference))
                                     ("%d %B" ++ " %Y") with
             | inr cand => assumed reference cand
             | inl e => inl e
             end
           with
           | inr parsed_dt => Some parsed_dt
           | inl _ => None
           end = None).
  destruct (Strptime.strptime _ _) as [e|cand]; [reflexivity|].
  now rewrite Hfirst.
Qed.

End LeapDay.

(** ** Counts, within the limit and past it *)

Section Counts.

Lemma length_repeat (c : ascii) (n : nat) : String.length (Str.repeat c n) = n.
Proof. induction n as [|n IH]; simpl; [reflexivity | now rewrite IH]. Qed.

Lemma all_repeat (p : ascii -> bool) (c : ascii) (n : nat) :
  p c = true -> Str.all p (Str.repeat c n) = true.
Proof. intros H. induction n as [|n IH]; simpl; [reflexivity | now rewrite H, IH]. Qed.

(** The digits a count pattern captured are written back within the
    limit. *)
Lemma str_count (ds : string) :
  ds <> "" -> Str.all Str.isdecimal ds = true -> too_long ds = false ->
  str (int_digits 0 ds) = inr (decimal (int_digits 0 ds)).
Proof.
  intros Hne Hall Hlen.
  pose proof (int_digits_nonneg ds 0%Z ltac:(lia) Hall) as Hpos.
  pose proof (int_digits_bound ds 0%Z ltac:(lia) Hall) as Hup.
  unfold too_long in Hlen. apply Z.ltb_ge in Hlen.
  destruct ds as [|c ds]; [congruence|].
  apply (str_short _ (String.length ds)); [|exact Hlen].
  change (String.length (String c ds)) with (S (String.length ds)) in Hup. lia.
Qed.

Variable verbose : bool.
Variable reference : datetime.
Variable raw : string.
Hypothesis Hreach : reaches_shorthand (normalize raw) = true.

(** The answer of the day shorthand. *)
Lemma day_answer (m : rmatch) :
  search (compiled day_pattern) (normalize raw) = Some m ->
  exists ds,
    mgroup m "1" = Some ds /\ ds <> "" /\ Str.all Str.isdecimal ds = true
    /\ resolve verbose reference raw
       = if too_long ds then inl ValueError else inr (Some (int_digits 0 ds)).
Proof.
  intros Hday.
  destruct (counted_group day_pattern _ m eq_refl Hday) as (ds & Hg & Hne & Hall & _).
  exists ds. repeat split; auto.
  pose proof (resolve_outcome verbose reference raw
                (fun r => too_long ds = false /\ r = Some (int_digits 0 ds))
                (fun e => too_long ds = true /\ e = ValueError)) as Ho.
  assert (Hwp : wp reference (parse_timestamp_to_days (init verbose) raw) (fun _ => False)
                   (fun r => too_long ds = false /\ r = Some (int_digits 0 ds))
                   (fun e => too_long ds = true /\ e = ValueError)).
  { unfold normalize in *. skip_to_shorthand Hreach.
    unfold relative_patterns. cbn [for_each].
    apply wp_bind, wp_bind. rewrite Hday, Hg. apply wp_bind, wp_lift.
    destruct (too_long ds) eqn:Hlen.
    - cbn [int_of_group]. rewrite (int_too_long ds Hall Hlen). auto.
    - rewrite int_of_group_decimal by assumption.
      apply wp_bind, (wp_lift_value _ _ _ _ _ _ (str_count ds Hne Hall Hlen)).
      apply wp_bind, wp_log. apply wp_return. auto. }
  specialize (Ho Hwp).
  destruct (resolve verbose reference raw) as [e|r], (too_long ds);
    destruct Ho as [Hc ->]; congruence.
Qed.

(** The answer of the week shorthand, reached when no day unit is
    found. *)
Lemma week_answer (m : rmatch) :
  search (compiled day_pattern) (normalize raw) = None ->
  search (compiled week_pattern) (normalize raw) = Some m ->
  exists ds,
    mgroup m "1" = Some ds /\ ds <> "" /\ Str.all Str.isdecimal ds = true
    /\ resolve verbose reference raw
       = if too_long ds || too_long (decimal (int_digits 0 ds * 7))
         then inl ValueError
         else inr (Some (int_digits 0 ds * 7)%Z).
Proof.
  intros Hday Hweek.
  destruct (counted_group week_pattern _ m eq_refl Hweek) as (ds & Hg & Hne & Hall & _).
  exists ds. repeat split; auto.
  pose proof (int_digits_nonneg ds 0%Z ltac:(lia) Hall) as Hpos.
  set (long_one := too_long ds || too_long (decimal (int_digits 0 ds * 7))).
  pose proof (resolve_outcome verbose reference raw
                (fun r => long_one = false /\ r = Some (int_digits 0 ds * 7)%Z)
                (fun e => long_one = true /\ e = ValueError)) as Ho.
  assert (Hwp : wp reference (parse_timestamp_to_days (init verbose) raw) (fun _ => False)
                   (fun r => long_one = false /\ r = Some (int_digits 0 ds * 7)%Z)
                   (fun e => long_one = true /\ e = ValueError)).
  { unfold normalize in *. skip_to_shorthand Hreach.
    unfold relative_patterns. cbn [for_each].
    apply wp_bind, wp_bind. rewrite Hday. apply wp_ret.
    apply wp_bind. rewrite Hweek, Hg. apply wp_bind, wp_lift.
    unfold long_one. destruct (too_long ds) eqn:Hlen.
    - rewrite (times_too_long 7 ds Hall Hlen). auto.
    - rewrite times_decimal by assumption. cbn [orb].
      apply wp_bind, wp_lift. unfold str.
      rewrite (Z.abs_eq (int_digits 0 ds * 7)) by lia.
      destruct (too_long (decimal (int_digits 0 ds * 7))); [auto|].
      apply wp_bind, wp_log. apply wp_return. auto. }
  specialize (Ho Hwp).
  destruct (resolve verbose reference raw) as [e|r], long_one;
    destruct Ho as [Hc ->]; congruence.
Qed.

End Counts.

(** A count with the day unit and nothing else reaches the day
    shorthand, which captures all its digits. *)
Section CountAlone.

Variable ds : string.
Hypothesis Hne : ds <> "".
Hypothesis Hall : Str.all Str.isdecimal ds = true.

Lemma count_lacks (c : ascii) :
  Str.isdecimal c = false -> Ascii.eqb "d" c = false ->
  Str.all (fun a => negb (Ascii.eqb a c)) (ds ++ "d") = true.
Proof.
  intros Hc Hd. rewrite all_app. apply andb_true_iff. split.
  - apply (all_impl Str.isdecimal); [|exact Hall].
    intros a Ha. apply negb_true_iff. destruct (Ascii.eqb_spec a c) as [->|]; congruence.
  - cbn [Str.all]. now rewrite Hd.
Qed.

Lemma count_normalize : normalize (ds ++ "d") = ds ++ "d".
Proof.
  unfold normalize. rewrite lower_app, (lower_decimal ds Hall).
  change (Str.lower "d") with "d".
  pose proof Hall as Hc. revert Hc.
  destruct ds as [|c s] eqn:E; [congruence|]. intros Hc.
  cbn [Str.all] in Hc. apply andb_true_iff in Hc as [Hc _].
  apply strip_inner; [now apply decimal_not_space | reflexivity].
Qed.

Lemma count_reaches : reaches_shorthand (ds ++ "d") = true.
Proof.
  unfold reaches_shorthand, immediate, sub_day.
  assert (F : forall c p, requires c (compiled p) = true ->
                          Str.isdecimal c = false -> Ascii.eqb "d" c = false ->
                          found p (ds ++ "d") = false).
  { intros c p Hr Hc Hd. unfold found, search.
    now rewrite (search_from_requires c _ Hr) by (now apply count_lacks). }
  replace (String.eqb (ds ++ "d") "") with false
    by (destruct ds; [congruence | reflexivity]).
  unfold immediate_phrases, time_units. cbn [existsb].
  rewrite !contains_lacks by (apply count_lacks; reflexivity).
  rewrite (F "s"%char), (F "m"%char), (F "h"%char) by reflexivity.
  reflexivity.
Qed.

Lemma count_search :
  exists m, search (compiled day_pattern) (ds ++ "d") = Some m /\ mgroup m "1" = Some ds.
Proof.
  exists {| m_start := 0; m_end := S (String.length (Str.rev_onto ds ""));
            m_groups := [("1", between "" (Str.rev_onto ds ""))] |}.
  split.
  - unfold search. apply search_from_here. unfold match_at, day_pattern, plus.
    cbn [compiled seqs run].
    apply rep_greedy; [reflexivity | exact Hall | destruct ds; [congruence | simpl; lia] |].
    set (pre := Str.rev_onto ds "").
    cbv -[between String.length pre]. reflexivity.
  - unfold mgroup. cbn [m_groups group]. change (String.eqb "1" "1") with true. cbv iota.
    now rewrite between_rev_onto.
Qed.

(** Past the limit the count is refused and the ValueError leaves the
    call. *)
Lemma count_raises (verbose : bool) (reference : datetime) :
  too_long ds = true -> resolve verbose reference (ds ++ "d") = inl ValueError.
Proof.
  intros Hlen. destruct count_search as (m & Hs & Hg).
  destruct (day_answer verbose reference (ds ++ "d")) with (m := m) as (ds' & Hg' & _ & _ & ->).
  - rewrite count_normalize. exact count_reaches.
  - now rewrite count_normalize.
  - rewrite Hg in Hg'. injection Hg' as <-. now rewrite Hlen.
Qed.

End CountAlone.

Lemma long_count_raises (verbose : bool) (reference : datetime) :
  resolve verbose reference long_count = inl ValueError.
Proof.
  apply count_raises.
  - intros E. apply (f_equal String.length) in E. rewrite length_repeat in E. discriminate E.
  - now apply all_repeat.
  - apply past_limit. rewrite length_repeat. reflexivity.
Qed.

(** * The claims *)

(** C1, as amended.  When no earlier stage answers and the cleaned text
    matches a yearless template, the first such template gives a
    candidate date in the year of the reference instant.  If the
    candidate does not lie after the reference date, the result is the
    number of whole days from it to the reference date; if it does, and
    the same day of the year before exists, the result is the number of
    whole days from that day.  With the reference on 2024-02-01,
    "13 Feb" is counted from 2023-02-13 (353 days); with the reference on
    2024-02-20 it gives 7. *)
Theorem yearless_date_resolution :
  (forall verbose reference raw before fmt after cand,
      valid reference ->
      reaches_dates (normalize raw) = true ->
      (forall f, In f date_formats_with_year ->
                 exists e, Strptime.strptime (clean (init verbose) (normalize raw)) f = inl e) ->
      date_formats_no_year = (before ++ fmt :: after)%list ->
      (forall f, In f before ->
                 exists e, Strptime.strptime
                             (clean (init verbose) (normalize raw) ++ " " ++ decimal (year reference))
                             (f ++ " %Y") = inl e) ->
      Strptime.strptime (clean (init verbose) (normalize raw) ++ " " ++ decimal (year reference))
                        (fmt ++ " %Y") = inr cand ->
      year cand = year reference
      /\ (date_gt cand reference = false ->
          resolve verbose reference raw = inr (Some (days_between cand reference)))
      /\ (date_gt cand reference = true ->
          forall last,
            new (year reference - 1) (month cand) (day cand) = inr last ->
            resolve verbose reference raw = inr (Some (days_between last reference))))
  /\ (forall verbose reference,
         valid reference ->
         year reference = 2024%Z -> month reference = 2%Z -> day reference = 1%Z ->
         resolve verbose reference "13 Feb"
         = inr (Some (days_between (mkdatetime 2023 2 13 0 0 0 0) reference))
         /\ days_between (mkdatetime 2023 2 13 0 0 0 0) reference = 353%Z)
  /\ (forall verbose reference,
         valid reference ->
         year reference = 2024%Z -> month reference = 2%Z -> day reference = 20%Z ->
         resolve verbose reference "13 Feb" = inr (Some 7%Z)).
Proof.
  assert (Hwith : forall verbose f, In f date_formats_with_year ->
            exists e, Strptime.strptime (clean (init verbose) (normalize "13 Feb")) f = inl e).
  { intros v f Hf. exists ValueError.
    unfold date_formats_with_year in Hf.
    repeat (destruct Hf as [<-|Hf]; [reflexivity|]). destruct Hf. }
  split; [|split].
  - intros v reference raw before fmt after cand Hv Hreach Hw Hsplit Hbefore Hfmt.
    split; [|split].
    + apply (strptime_year fmt (clean (init v) (normalize raw))); auto.
      * rewrite Hsplit. apply in_or_app. right. now left.
      * destruct Hv as [Hc _]. apply check_date_fields_inv in Hc. lia.
    + intros Hgt.
      apply (no_year_first v reference raw before fmt after cand cand); auto.
      unfold assumed. now rewrite Hgt.
    + intros Hgt last Hlast.
      apply (no_year_first v reference raw before fmt after cand last); auto.
      unfold assumed. now rewrite Hgt.
  - intros v reference Hv Hy Hm Hd. split.
    + apply (no_year_first v reference "13 Feb" [] "%d %B" (tl date_formats_no_year)
               (mkdatetime 2024 2 13 0 0 0 0)); auto.
      * intros f [].
      * rewrite Hy. reflexivity.
      * unfold assumed, date_gt. rewrite Hy, Hm, Hd. reflexivity.
    + unfold days_between, toordinal. rewrite Hy, Hm, Hd. reflexivity.
  - intros v reference Hv Hy Hm Hd.
    rewrite (no_year_first v reference "13 Feb" [] "%d %B" (tl date_formats_no_year)
               (mkdatetime 2024 2 13 0 0 0 0) (mkdatetime 2024 2 13 0 0 0 0)); auto.
    + unfold days_between, toordinal. rewrite Hy, Hm, Hd. reflexivity.
    + intros f [].
    + rewrite Hy. reflexivity.
    + unfold assumed, date_gt. cbn [year month day]. rewrite Hy, Hm, Hd. reflexivity.
Qed.

Lemma yearless_date_resolution_witness :
  valid (mkdatetime 2024 6 15 12 0 0 0)
  /\ reaches_dates (normalize "Feb 13") = true
  /\ Strptime.strptime (clean (init false) (normalize "Feb 13") ++ " " ++ decimal 2024)
                       ("%B %d" ++ " %Y") = inr (mkdatetime 2024 2 13 0 0 0 0)
  /\ date_gt (mkdatetime 2024 2 13 0 0 0 0) (mkdatetime 2024 6 15 12 0 0 0) = false
  /\ resolve false (mkdatetime 2024 6 15 12 0 0 0) "Feb 13" = inr (Some 123%Z)
  /\ valid (mkdatetime 2024 2 1 12 0 0 0)
  /\ reaches_dates (normalize "13/02") = true
  /\ Strptime.strptime (clean (init false) (normalize "13/02") ++ " " ++ decimal 2024)
                       ("%d/%m" ++ " %Y") = inr (mkdatetime 2024 2 13 0 0 0 0)
  /\ date_gt (mkdatetime 2024 2 13 0 0 0 0) (mkdatetime 2024 2 1 12 0 0 0) = true
  /\ new 2023 2 13 = inr (mkdatetime 2023 2 13 0 0 0 0)
  /\ resolve false (mkdatetime 2024 2 1 12 0 0 0) "13/02" = inr (Some 353%Z).
Proof.
  assert (Hv : valid (mkdatetime 2024 6 15 12 0 0 0)).
  { unfold valid; simpl; repeat split; try reflexivity; lia. }
  assert (Hv' : valid (mkdatetime 2024 2 1 12 0 0 0)).
  { unfold valid; simpl; repeat split; try reflexivity; lia. }
  split; [exact Hv|]. split; [reflexivity|]. split; [reflexivity|].
  split; [reflexivity|]. split.
  { refine (proj1 (proj2 (proj1 yearless_date_resolution false (mkdatetime 2024 6 15 12 0 0 0) "Feb 13"
                            ["%d %B"] "%B %d" (tl (tl date_formats_no_year))
                            (mkdatetime 2024 2 13 0 0 0 0) Hv _ _ _ _ _)) _).
    - reflexivity.
    - apply all_rejected. reflexivity.
    - reflexivity.
    - intros f [<-|[]]. exists ValueError. reflexivity.
    - reflexivity.
    - reflexivity. }
  split; [exact Hv'|]. split; [reflexivity|]. split; [reflexivity|].
  split; [reflexivity|]. split; [reflexivity|].
  refine (proj2 (proj2 (proj1 yearless_date_resolution false (mkdatetime 2024 2 1 12 0 0 0) "13/02"
                          ["%d %B"; "%B %d"; "%d %b"; "%b %d"; "%m/%d"] "%d/%m"
                          ["%d-%B"; "%d-%b"] (mkdatetime 2024 2 13 0 0 0 0) Hv' _ _ _ _ _))
                _ (mkdatetime 2023 2 13 0 0 0 0) _).
  - reflexivity.
  - apply all_rejected. reflexivity.
  - reflexivity.
  - apply all_rejected_with. reflexivity.
  - reflexivity.
  - reflexivity.
  - reflexivity.
Defined.

(** C1 as stated fails where last year lacks the day: "29 feb" read on
    2024-02-01 matches the first yearless template with the candidate
    2024-02-29, which lies after the reference date, 2023 has no
    29 February, and the result is None instead of a day count. *)
Lemma yearless_leap_day_counterexample :
  reaches_dates (normalize "29 feb") = true
  /\ with_year_parse (clean (init false) (normalize "29 feb")) = None
  /\ Strptime.strptime (clean (init false) (normalize "29 feb") ++ " " ++ decimal 2024)
                       ("%d %B" ++ " %Y") = inr (mkdatetime 2024 2 29 0 0 0 0)
  /\ date_gt (mkdatetime 2024 2 29 0 0 0 0) (mkdatetime 2024 2 1 12 0 0 0) = true
  /\ new (2024 - 1) 2 29 = inl ValueError
  /\ resolve false (mkdatetime 2024 2 1 12 0 0 0) "29 feb" = inr None.
Proof. repeat split; vm_compute; reflexivity. Qed.

(** C2, as amended.  When no stage before the clean-up answers and the
    cleaned text matches a template with a year, the templates are tried
    in their declared order, the first one strptime accepts wins, and the
    result is the number of whole days from the parsed date to the
    reference date, with 0 in place of a negative number.  With the
    reference on 2024-06-15, "27 March 2017" gives 2637. *)
Theorem with_year_date_resolution :
  (forall verbose reference raw before fmt after parsed,
      valid reference ->
      reaches_dates (normalize raw) = true ->
      date_formats_with_year = (before ++ fmt :: after)%list ->
      (forall f, In f before ->
                 exists e, Strptime.strptime (clean (init verbose) (normalize raw)) f = inl e) ->
      Strptime.strptime (clean (init verbose) (normalize raw)) fmt = inr parsed ->
      resolve verbose reference raw = inr (Some (Z.max 0 (days_between parsed reference))))
  /\ (forall verbose reference,
         valid reference ->
         year reference = 2024%Z -> month reference = 6%Z -> day reference = 15%Z ->
         resolve verbose reference "27 March 2017" = inr (Some 2637%Z)).
Proof.
  split; [exact with_year_first|].
  intros v reference Hv Hy Hm Hd.
  rewrite (with_year_first v reference "27 March 2017" [] "%d %B %Y"
             (tl date_formats_with_year) (mkdatetime 2017 3 27 0 0 0 0));
    auto; try reflexivity.
  - unfold days_between, toordinal. rewrite Hy, Hm, Hd. reflexivity.
  - intros f [].
Qed.

Lemma with_year_date_resolution_witness :
  valid (mkdatetime 2024 6 15 12 0 0 0)
  /\ reaches_dates (normalize "March 27, 2017") = true
  /\ Strptime.strptime (clean (init false) (normalize "March 27, 2017")) "%B %d, %Y"
     = inr (mkdatetime 2017 3 27 0 0 0 0)
  /\ resolve false (mkdatetime 2024 6 15 12 0 0 0) "March 27, 2017" = inr (Some 2637%Z).
Proof.
  assert (Hv : valid (mkdatetime 2024 6 15 12 0 0 0)).
  { unfold valid; simpl; repeat split; try reflexivity; lia. }
  split; [exact Hv|]. split; [reflexivity|]. split; [reflexivity|].
  apply (proj1 with_year_date_resolution false (mkdatetime 2024 6 15 12 0 0 0)
               "March 27, 2017" ["%d %B %Y"] "%B %d, %Y"
               (tl (tl date_formats_with_year)) (mkdatetime 2017 3 27 0 0 0 0)).
  - exact Hv.
  - reflexivity.
  - reflexivity.
  - intros f [<-|[]]. exists ValueError. reflexivity.
  - reflexivity.
Defined.

(** C2 as stated fails on a date after the reference: "27 March 2030"
    read on 2024-06-15 matches the first template with a year, the days
    elapsed from it are -2111, and the result is 0. *)
Lemma with_year_future_date_counterexample :
  Strptime.strptime (clean (init false) (normalize "27 March 2030")) "%d %B %Y"
  = inr (mkdatetime 2030 3 27 0 0 0 0)
  /\ days_between (mkdatetime 2030 3 27 0 0 0 0) (mkdatetime 2024 6 15 12 0 0 0) = (-2111)%Z
  /\ resolve false (mkdatetime 2024 6 15 12 0 0 0) "27 March 2030" = inr (Some 0%Z)
  /\ resolve false (mkdatetime 2024 6 15 12 0 0 0) "27 March 2030"
     <> inr (Some (days_between (mkdatetime 2030 3 27 0 0 0 0)
                                (mkdatetime 2024 6 15 12 0 0 0))).
Proof. repeat split; try (vm_compute; reflexivity). vm_compute. discriminate. Qed.



(** C4.  [resolve] returns, a day count or None, for every input of at
    most 4297 characters; the empty string and "completely invalid
    gibberish" give None, not 0.  No exception but ValueError ever
    leaves a call, and on a count of 4301 digits with the day unit one
    does: [int] refuses the numeral outside any try block. *)
Theorem resolve_returns_unless_long :
  (forall verbose reference raw,
      ~ long raw -> exists r, resolve verbose reference raw = inr r)
  /\ (forall verbose reference raw e,
         resolve verbose reference raw = inl e -> e = ValueError /\ long raw)
  /\ (forall verbose reference, resolve verbose reference "" = inr None)
  /\ (forall verbose reference,
         valid reference ->
         resolve verbose reference "completely invalid gibberish" = inr None)
  /\ (forall verbose reference, resolve verbose reference long_count = inl ValueError).
Proof.
  assert (Ho : forall v reference raw,
             match resolve v reference raw with
             | inr r => nonneg r
             | inl e => e = ValueError /\ long raw
             end).
  { intros v reference raw. apply resolve_outcome, parse_total. }
  split; [|split; [|split; [|split]]].
  - intros v reference raw Hshort. specialize (Ho v reference raw).
    destruct (resolve v reference raw) as [e|r]; [|eauto].
    destruct Ho as [_ Hl]. contradiction.
  - intros v reference raw e H. specialize (Ho v reference raw). now rewrite H in Ho.
  - intros v reference. destruct v; vm_compute; reflexivity.
  - intros v reference Hv.
    destruct (resolve_wp v reference "completely invalid gibberish" (fun r => r = None))
      as (r & Hr & ->); [|exact Hr].
    apply wp_date_stages; [exact Hv | vm_compute; auto ..].
  - exact long_count_raises.
Qed.

Lemma resolve_returns_unless_long_witness :
  ~ long "Yesterday at 10:37"
  /\ (exists r, resolve false (mkdatetime 2024 6 15 12 0 0 0) "Yesterday at 10:37" = inr r)
  /\ valid (mkdatetime 2024 6 15 12 0 0 0)
  /\ resolve false (mkdatetime 2024 6 15 12 0 0 0) "completely invalid gibberish" = inr None
  /\ resolve false (mkdatetime 2024 6 15 12 0 0 0) long_count = inl ValueError
  /\ long long_count.
Proof.
  assert (Hv : valid (mkdatetime 2024 6 15 12 0 0 0)).
  { unfold valid; simpl; repeat split; try reflexivity; lia. }
  assert (Hs : ~ long "Yesterday at 10:37").
  { unfold long, int_max_str_digits. simpl. lia. }
  destruct resolve_returns_unless_long as (R & E & _ & G & L).
  split; [exact Hs|]. split; [exact (R false _ _ Hs)|]. split; [exact Hv|].
  split; [exact (G false _ Hv)|]. split; [exact (L false _)|].
  exact (proj2 (E false _ _ _ (L false (mkdatetime 2024 6 15 12 0 0 0)))).
Defined.

(** C5.  An input in which a count followed by a seconds, minutes or
    hours unit is found resolves to 0, whatever the count; this holds for
    every spelling of the units, and "500 hours ago" gives 0. *)
Theorem sub_day_units_collapse :
  (forall verbose reference raw,
      sub_day (normalize raw) = true -> resolve verbose reference raw = inr (Some 0%Z))
  /\ (forall verbose reference,
         Forall (fun raw => resolve verbose reference raw = inr (Some 0%Z))
           ["500 hours ago"; "5s"; "5 sec"; "5 secs"; "5 second"; "5 seconds";
            "1m"; "1 min"; "12 mins"; "1 minute"; "45 minutes";
            "2h"; "1 hr"; "3 hrs"; "1 hour"; "23 hours"]).
Proof.
  split.
  - intros v reference raw H.
    destruct (resolve_wp v reference raw (fun r => r = Some 0%Z)) as (r & Hr & ->);
      [|exact Hr].
    unfold normalize in H. unfold parse_timestamp_to_days.
    apply wp_bind, wp_now. apply wp_bind, wp_log.
    apply wp_bind.
    destruct (String.eqb_spec (Str.strip (Str.lower raw)) "") as [E|_];
      [rewrite E in H; vm_compute in H; discriminate H|].
    apply wp_ret.
    apply wp_bind.
    destruct (existsb _ immediate_phrases).
    { apply wp_bind, wp_log. now apply wp_return. }
    apply wp_ret.
    apply wp_bind, wp_time_units_loop.
    + intros p d [[= <- <-]|[[= <- <-]|[[= <- <-]|[]]]]; split; reflexivity.
    + unfold sub_day in H. congruence.
  - intros v reference. repeat constructor; destruct v; vm_compute; reflexivity.
Qed.

Lemma sub_day_units_collapse_witness :
  sub_day (normalize "Posted 90 Minutes ago") = true
  /\ resolve true (mkdatetime 2024 6 15 12 0 0 0) "Posted 90 Minutes ago" = inr (Some 0%Z).
Proof.
  split; [reflexivity|].
  apply (proj1 sub_day_units_collapse). reflexivity.
Defined.

(** C6.  When no earlier stage answers, an input in which a count N
    followed by a day unit is found resolves to N, and one with a week
    unit and no day unit resolves to N times 7, as long as the digits of
    the count, and of its product by 7, stay within the limit of 4300;
    past it the call raises ValueError.  The day pattern is tried first
    and the first pattern found wins.  "3d" gives 3 and "2w" gives 14; a
    count of 4301 digits with the day unit raises. *)
Theorem day_week_shorthand :
  (forall verbose reference raw m,
      reaches_shorthand (normalize raw) = true ->
      search (compiled day_pattern) (normalize raw) = Some m ->
      exists ds,
        mgroup m "1" = Some ds /\ ds <> "" /\ Str.all Str.isdecimal ds = true
        /\ (too_long ds = false ->
            resolve verbose reference raw = inr (Some (int_digits 0 ds)))
        /\ (too_long ds = true -> resolve verbose reference raw = inl ValueError))
  /\ (forall verbose reference raw m,
         reaches_shorthand (normalize raw) = true ->
         search (compiled day_pattern) (normalize raw) = None ->
         search (compiled week_pattern) (normalize raw) = Some m ->
         exists ds,
           mgroup m "1" = Some ds /\ ds <> "" /\ Str.all Str.isdecimal ds = true
           /\ (too_long ds = false -> too_long (decimal (int_digits 0 ds * 7)) = false ->
               resolve verbose reference raw = inr (Some (int_digits 0 ds * 7)%Z))
           /\ (too_long ds = true \/ too_long (decimal (int_digits 0 ds * 7)) = true ->
               resolve verbose reference raw = inl ValueError))
  /\ (forall verbose reference,
         resolve verbose reference "3d" = inr (Some 3%Z)
         /\ resolve verbose reference "2w" = inr (Some 14%Z))
  /\ (forall verbose reference, resolve verbose reference long_count = inl ValueError).
Proof.
  split; [|split; [|split]].
  - intros v reference raw m Hreach Hday.
    destruct (day_answer v reference raw Hreach m Hday) as (ds & Hg & Hne & Hall & ->).
    exists ds. repeat split; auto; intros ->; reflexivity.
  - intros v reference raw m Hreach Hday Hweek.
    destruct (week_answer v reference raw Hreach m Hday Hweek) as (ds & Hg & Hne & Hall & ->).
    exists ds. repeat split; auto.
    + intros -> ->. reflexivity.
    + intros [-> | ->]; [reflexivity | now rewrite orb_true_r].
  - intros v reference. split; destruct v; vm_compute; reflexivity.
  - exact long_count_raises.
Qed.

Lemma day_week_shorthand_witness :
  reaches_shorthand (normalize "12 Days ago") = true
  /\ search (compiled day_pattern) (normalize "12 Days ago")
     = Some {| m_start := 0; m_end := 11; m_groups := [("1", "12")] |}
  /\ too_long "12" = false
  /\ resolve false (mkdatetime 2024 6 15 12 0 0 0) "12 Days ago" = inr (Some 12%Z)
  /\ reaches_shorthand (normalize "3 wk") = true
  /\ search (compiled day_pattern) (normalize "3 wk") = None
  /\ search (compiled week_pattern) (normalize "3 wk")
     = Some {| m_start := 0; m_end := 4; m_groups := [("1", "3")] |}
  /\ too_long "3" = false
  /\ too_long (decimal (3 * 7)) = false
  /\ resolve false (mkdatetime 2024 6 15 12 0 0 0) "3 wk" = inr (Some 21%Z).
Proof.
  destruct day_week_shorthand as (D & W & _).
  destruct (D false (mkdatetime 2024 6 15 12 0 0 0) "12 Days ago"
              {| m_start := 0; m_end := 11; m_groups := [("1", "12")] |} eq_refl eq_refl)
    as (ds & Hg & _ & _ & Hday & _).
  destruct (W false (mkdatetime 2024 6 15 12 0 0 0) "3 wk"
              {| m_start := 0; m_end := 4; m_groups := [("1", "3")] |} eq_refl eq_refl eq_refl)
    as (ws & Hw & _ & _ & Hweek & _).
  injection Hg as <-. injection Hw as <-.
  split; [reflexivity|]. split; [reflexivity|]. split; [reflexivity|].
  split; [exact (Hday eq_refl)|].
  split; [reflexivity|]. split; [reflexivity|]. split; [reflexivity|].
  split; [reflexivity|]. split; [reflexivity|].
  exact (Hweek eq_refl eq_refl).
Defined.

(** C7.  A batch of inputs each of which resolves returns one pair per
    input, in the order of the inputs; the pair of an input holds the
    input and what resolving it alone returns, so that an unparseable
    element changes nothing for the others.  An input on which [resolve]
    raises ends the batch with the same exception: a count of 4301
    digits between "3d" and "2w" leaves no list at all. *)
Theorem resolve_many_pointwise :
  (forall verbose reference raws,
      Forall (fun raw => exists r, resolve verbose reference raw = inr r) raws ->
      exists results,
        resolve_many verbose reference raws = inr results
        /\ List.length results = List.length raws
        /\ Forall2 (fun raw pair =>
                      fst pair = raw /\ resolve verbose reference raw = inr (snd pair))
                   raws results)
  /\ (forall verbose reference before raw after e,
         Forall (fun raw => exists r, resolve verbose reference raw = inr r) before ->
         resolve verbose reference raw = inl e ->
         resolve_many verbose reference (before ++ raw :: after) = inl e)
  /\ (forall verbose reference,
         resolve_many verbose reference ["3d"; long_count; "2w"] = inl ValueError).
Proof.
  assert (Hraise : forall verbose reference before raw after e,
             Forall (fun raw => exists r, resolve verbose reference raw = inr r) before ->
             resolve verbose reference raw = inl e ->
             resolve_many verbose reference (before ++ raw :: after) = inl e).
  { intros v reference before raw after e Hbefore He.
    destruct (batch_loop_raises v reference before raw after e Hbefore He [] world0)
      as (w' & Hf).
    unfold resolve_many, run_call, parse_multiple_timestamps. unfold bind at 1.
    rewrite Hf. reflexivity. }
  split; [|split].
  - intros v reference raws Hall.
    destruct (batch_loop v reference raws Hall [] world0) as (w' & more & Hf & Hpairs).
    exists more. split; [|split; [|exact Hpairs]].
    + unfold resolve_many, run_call, parse_multiple_timestamps. unfold bind at 1.
      rewrite Hf. reflexivity.
    + symmetry. eapply Forall2_length; eauto.
  - exact Hraise.
  - intros v reference.
    apply (Hraise v reference ["3d"] long_count ["2w"] ValueError).
    + constructor; [|constructor]. exists (Some 3%Z). destruct v; vm_compute; reflexivity.
    + apply long_count_raises.
Qed.

Lemma resolve_many_pointwise_witness :
  Forall (fun raw => exists r, resolve false (mkdatetime 2024 6 15 12 0 0 0) raw = inr r)
         ["3d"; "no date here"; "2w"]
  /\ exists results,
       resolve_many false (mkdatetime 2024 6 15 12 0 0 0) ["3d"; "no date here"; "2w"]
       = inr results
       /\ List.length results = 3%nat
       /\ Forall2 (fun raw pair =>
                     fst pair = raw
                     /\ resolve false (mkdatetime 2024 6 15 12 0 0 0) raw = inr (snd pair))
                  ["3d"; "no date here"; "2w"] results.
Proof.
  assert (H : Forall (fun raw => exists r,
                        resolve false (mkdatetime 2024 6 15 12 0 0 0) raw = inr r)
                     ["3d"; "no date here"; "2w"]).
  { repeat constructor; eexists; vm_compute; reflexivity. }
  split; [exact H|].
  exact (proj1 resolve_many_pointwise false (mkdatetime 2024 6 15 12 0 0 0) _ H).
Defined.


(** C9.  An input that is "now" once trimmed and lowercased resolves to
    None, not to 0. *)
Theorem bare_now_unparseable (verbose : bool) (reference : datetime) (raw : string) :
  valid reference -> normalize raw = "now" -> resolve verbose reference raw = inr None.
Proof.
  intros Hv H.
  destruct (resolve_wp verbose reference raw (fun r => r = None)) as (r & Hr & ->);
    [|exact Hr].
  apply wp_date_stages; [exact Hv | rewrite H; vm_compute; auto ..].
Qed.

Lemma bare_now_unparseable_witness :
  valid (mkdatetime 2024 6 15 12 0 0 0)
  /\ normalize "  NOW " = "now"
  /\ resolve true (mkdatetime 2024 6 15 12 0 0 0) "  NOW " = inr None.
Proof.
  assert (Hv : valid (mkdatetime 2024 6 15 12 0 0 0)).
  { unfold valid; simpl; repeat split; try reflexivity; lia. }
  split; [exact Hv|]. split; [reflexivity|].
  apply bare_now_unparseable; [exact Hv | reflexivity].
Defined.



(** * Further properties *)

(** ** The clock *)

Section Clock.

Context {R : Type}.

Lemma unclocked_ret {A} (a : A) : unclocked (ret (R:=R) a).
Proof. intros clk clk' w. split; reflexivity. Qed.

Lemma unclocked_return {A} (r : R) : unclocked (return_ (A:=A) r).
Proof. intros clk clk' w. split; reflexivity. Qed.

Lemma unclocked_lift {A} (x : result A) : unclocked (lift (R:=R) x).
Proof. intros clk clk' w. destruct x; split; reflexivity. Qed.

Lemma unclocked_log (self : TimestampParser) (message : string) :
  unclocked (log (R:=R) self message).
Proof. intros clk clk' w. unfold log. destruct (verbose self); split; reflexivity. Qed.

Lemma unclocked_bind {A B} (m : M R A) (f : A -> M R B) :
  unclocked m -> (forall a, unclocked (f a)) -> unclocked (bind m f).
Proof.
  intros Hm Hf clk clk' w. destruct (Hm clk clk' w) as [E T]. unfold bind.
  rewrite <- E. destruct (m clk w) as [w' [a|r|e]]; simpl in *; auto.
  destruct (Hf a clk clk' w') as [E' T']. split; [exact E' | congruence].
Qed.

Lemma unclocked_try {A} (body handler : M R A) :
  unclocked body -> unclocked handler -> unclocked (try_except_ValueError body handler).
Proof.
  intros Hb Hh clk clk' w. destruct (Hb clk clk' w) as [E T]. unfold try_except_ValueError.
  rewrite <- E. destruct (body clk w) as [w' [a|r|[]]]; simpl in *; auto.
  destruct (Hh clk clk' w') as [E' T']. split; [exact E' | congruence].
Qed.

Lemma unclocked_for_each {X} (xs : list X) (body : X -> M R unit) :
  (forall x, unclocked (body x)) -> unclocked (for_each xs body).
Proof.
  intros H. induction xs as [|x xs IH]; simpl.
  - apply unclocked_ret.
  - apply unclocked_bind; auto.
Qed.

Lemma unclocked_assume_year (self : TimestampParser) (announce : bool) (now cand : datetime) :
  unclocked (assume_year (R:=R) self announce now cand).
Proof.
  unfold assume_year. destruct (date_gt cand now); [|apply unclocked_ret].
  apply unclocked_bind; [apply unclocked_lift | intros d].
  apply unclocked_bind; [|intros _; apply unclocked_ret].
  destruct announce; [|apply unclocked_ret].
  apply unclocked_bind; [apply unclocked_lift | intros y; apply unclocked_log].
Qed.

End Clock.

Ltac unclocked_step :=
  match goal with
  | |- unclocked (bind _ _) => apply unclocked_bind; [|intros ?]
  | |- unclocked (log _ _) => apply unclocked_log
  | |- unclocked (ret _) => apply unclocked_ret
  | |- unclocked (return_ _) => apply unclocked_return
  | |- unclocked (lift _) => apply unclocked_lift
  | |- unclocked (for_each _ _) => apply unclocked_for_each; intros ?; cbv beta
  | |- unclocked (try_except_ValueError _ _) => apply unclocked_try
  | |- unclocked (assume_year _ _ _ _) => apply unclocked_assume_year
  | |- unclocked (if ?c then _ else _) => destruct c
  | |- unclocked (match ?x with Some _ => _ | None => _ end) => destruct x
  | |- unclocked (let '(_, _) := ?p in _) => destruct p
  end.

Lemma now_then {R A} (f : datetime -> M R A) (clk : nat -> datetime) (w : world) :
  (forall now, unclocked (f now)) ->
  bind datetime_now f clk w = bind datetime_now f (fun _ => clk (ticks w)) w
  /\ ticks (fst (bind datetime_now f clk w)) = S (ticks w).
Proof.
  intros H. unfold bind, datetime_now.
  destruct (H (clk (ticks w)) clk (fun _ => clk (ticks w)) (mkworld (S (ticks w)) (stdout w)))
    as [E T].
  split; [exact E | exact T].
Qed.

(** A call reads the clock once, first of all, and does the rest as if
    the clock stood at that reading. *)
Lemma parse_one_reading (self : TimestampParser) (timestamp : string)
      (clk : nat -> datetime) (w : world) :
  parse_timestamp_to_days self timestamp clk w
  = parse_timestamp_to_days self timestamp (fun _ => clk (ticks w)) w
  /\ ticks (fst (parse_timestamp_to_days self timestamp clk w)) = S (ticks w).
Proof.
  unfold parse_timestamp_to_days. cbv zeta. apply now_then.
  intros now. repeat unclocked_step.
Qed.

(** Under any clock a call gives what [resolve] gives at the reading it
    takes. *)
Lemma parse_reading_outcome (verbose : bool) (raw : string) (clk : nat -> datetime) (w : world) :
  value_of None (snd (parse_timestamp_to_days (init verbose) raw clk w))
  = resolve verbose (clk (ticks w)) raw.
Proof.
  rewrite (proj1 (parse_one_reading (init verbose) raw clk w)).
  rewrite (parse_outcome verbose (clk (ticks w)) raw w).
  destruct (resolve verbose (clk (ticks w)) raw); reflexivity.
Qed.

Lemma batch_readings (verbose : bool) (clk : nat -> datetime) (raws : list string) :
  forall results w,
  exists w',
    for_fold raws results
      (fun results timestamp =>
         days_ago <- call (R':=list (string * option Z)) None
                          (parse_timestamp_to_days (init verbose) timestamp) ;;
         ret (results ++ [(timestamp, days_ago)])%list)
      clk w
    = (w', match resolve_each verbose clk (ticks w) raws with
           | inr pairs => Normal (results ++ pairs)%list
           | inl e => Raised e
           end)
    /\ (forall pairs, resolve_each verbose clk (ticks w) raws = inr pairs ->
        ticks w' = (ticks w + List.length raws)%nat).
Proof.
  induction raws as [|raw raws IH]; intros results w; cbn [for_fold resolve_each].
  - exists w. cbn. rewrite app_nil_r. split; [reflexivity | intros; lia].
  - pose proof (parse_reading_outcome verbose raw clk w) as Ho.
    pose proof (proj2 (parse_one_reading (init verbose) raw clk w)) as Ht.
    pose proof (parse_total (init verbose) (clk (ticks w)) raw w) as Hn.
    rewrite <- (proj1 (parse_one_reading (init verbose) raw clk w)) in Hn.
    unfold bind at 1. unfold bind at 1. unfold call at 1.
    destruct (parse_timestamp_to_days (init verbose) raw clk w) as [w1 o].
    simpl in Ho, Ht, Hn. rewrite <- Ho.
    destruct o as [a|r|e]; [contradiction| |]; cbn [value_of ret].
    + destruct (IH (results ++ [(raw, r)])%list w1) as (w' & IH1 & IH2).
      rewrite Ht in IH1, IH2. exists w'. rewrite IH1.
      destruct (resolve_each verbose clk (S (ticks w)) raws) as [e|pairs].
      * split; [reflexivity | discriminate].
      * split; [now rewrite <- app_assoc|].
        intros ? _. rewrite (IH2 pairs eq_refl). simpl. lia.
    + exists w1. split; [reflexivity | discriminate].
Qed.

(** ** Standard output *)

Lemma prefix_append (p s : string) : prefix p (p ++ s) = true.
Proof.
  induction p as [|c p IH]; simpl.
  - destruct s; reflexivity.
  - destruct (ascii_dec c c); [exact IH | congruence].
Qed.

Section Trace.

Context {R : Type}.
Variable quiet : bool.

Lemma traces_ret {A} (a : A) : traces quiet (ret (R:=R) a).
Proof. intros clk w. exists []. simpl. rewrite app_nil_r. auto. Qed.

Lemma traces_return {A} (r : R) : traces quiet (return_ (A:=A) r).
Proof. intros clk w. exists []. simpl. rewrite app_nil_r. auto. Qed.

Lemma traces_lift {A} (x : result A) : traces quiet (lift (R:=R) x).
Proof. intros clk w. exists []. destruct x; simpl; rewrite app_nil_r; auto. Qed.

Lemma traces_now : traces quiet (datetime_now (R:=R)).
Proof. intros clk w. exists []. simpl. rewrite app_nil_r. auto. Qed.

Lemma traces_log (self : TimestampParser) (message : string) :
  quiet = negb (verbose self) -> traces quiet (log (R:=R) self message).
Proof.
  intros -> clk w. unfold log. destruct (verbose self).
  - exists ["[TimestampParser] " ++ message]. repeat split; [|discriminate].
    constructor; [|constructor]. apply prefix_append.
  - exists []. simpl. rewrite app_nil_r. auto.
Qed.

Lemma traces_bind {A B} (m : M R A) (f : A -> M R B) :
  traces quiet m -> (forall a, traces quiet (f a)) -> traces quiet (bind m f).
Proof.
  intros Hm Hf clk w. destruct (Hm clk w) as (l1 & E1 & T1 & Q1). unfold bind.
  destruct (m clk w) as [w' [a|r|e]]; simpl in *; eauto.
  destruct (Hf a clk w') as (l2 & E2 & T2 & Q2).
  exists (l1 ++ l2)%list. rewrite E2, E1, app_assoc. repeat split.
  - apply Forall_app. auto.
  - intros Hq. now rewrite (Q1 Hq), (Q2 Hq).
Qed.

Lemma traces_try {A} (body handler : M R A) :
  traces quiet body -> traces quiet handler -> traces quiet (try_except_ValueError body handler).
Proof.
  intros Hb Hh clk w. destruct (Hb clk w) as (l1 & E1 & T1 & Q1).
  unfold try_except_ValueError.
  destruct (body clk w) as [w' [a|r|[]]]; simpl in *; eauto.
  destruct (Hh clk w') as (l2 & E2 & T2 & Q2).
  exists (l1 ++ l2)%list. rewrite E2, E1, app_assoc. repeat split.
  - apply Forall_app. auto.
  - intros Hq. now rewrite (Q1 Hq), (Q2 Hq).
Qed.

Lemma traces_for_each {X} (xs : list X) (body : X -> M R unit) :
  (forall x, traces quiet (body x)) -> traces quiet (for_each xs body).
Proof.
  intros H. induction xs as [|x xs IH]; simpl.
  - apply traces_ret.
  - apply traces_bind; auto.
Qed.

Lemma traces_for_fold {X S} (xs : list X) (body : S -> X -> M R S) :
  (forall s x, traces quiet (body s x)) -> forall s, traces quiet (for_fold xs s body).
Proof.
  intros H. induction xs as [|x xs IH]; intros s; simpl.
  - apply traces_ret.
  - apply traces_bind; auto.
Qed.

Lemma traces_call {R'} (none : R') (body : M R' unit) :
  traces quiet body -> traces quiet (call (R':=R) none body).
Proof.
  intros H clk w. destruct (H clk w) as (l & E & T & Q). unfold call.
  destruct (body clk w) as [w' [a|r|e]]; simpl in *; eauto.
Qed.

Lemma traces_assume_year (self : TimestampParser) (announce : bool) (now cand : datetime) :
  quiet = negb (verbose self) ->
  traces quiet (assume_year (R:=R) self announce now cand).
Proof.
  intros Hq. unfold assume_year. destruct (date_gt cand now); [|apply traces_ret].
  apply traces_bind; [apply traces_lift | intros d].
  apply traces_bind; [|intros _; apply traces_ret].
  destruct announce; [|apply traces_ret].
  apply traces_bind; [apply traces_lift | intros y; now apply traces_log].
Qed.

End Trace.

Ltac traces_step :=
  match goal with
  | |- traces _ (bind _ _) => apply traces_bind; [|intros ?]
  | |- traces _ (log _ _) => apply traces_log; reflexivity
  | |- traces _ (ret _) => apply traces_ret
  | |- traces _ (return_ _) => apply traces_return
  | |- traces _ (lift _) => apply traces_lift
  | |- traces _ datetime_now => apply traces_now
  | |- traces _ (for_each _ _) => apply traces_for_each; intros ?; cbv beta
  | |- traces _ (try_except_ValueError _ _) => apply traces_try
  | |- traces _ (assume_year _ _ _ _) => apply traces_assume_year; reflexivity
  | |- traces _ (if ?c then _ else _) => destruct c
  | |- traces _ (match ?x with Some _ => _ | None => _ end) => destruct x
  | |- traces _ (let '(_, _) := ?p in _) => destruct p
  end.

Lemma parse_traces (self : TimestampParser) (timestamp : string) :
  traces (negb (verbose self)) (parse_timestamp_to_days self timestamp).
Proof. unfold parse_timestamp_to_days. repeat traces_step. Qed.

Lemma batch_traces (self : TimestampParser) (timestamps : list string) :
  traces (negb (verbose self)) (parse_multiple_timestamps self timestamps).
Proof.
  unfold parse_multiple_timestamps.
  apply traces_bind; [|intros results; apply traces_return].
  apply traces_for_fold. intros results timestamp.
  apply traces_bind; [|intros days_ago; apply traces_ret].
  apply traces_call, parse_traces.
Qed.

(** The first thing a verbose call prints is the text it is about to
    parse. *)
Lemma parse_first_line (self : TimestampParser) (timestamp : string)
      (clk : nat -> datetime) (w : world) :
  verbose self = true ->
  exists more,
    stdout (fst (parse_timestamp_to_days self timestamp clk w))
    = (stdout w ++ opening_line timestamp :: more)%list.
Proof.
  intros Hv. unfold parse_timestamp_to_days. cbv zeta.
  unfold bind at 1. cbn [datetime_now]. unfold bind at 1. unfold log at 1. rewrite Hv.
  cbn [print].
  match goal with
  | |- exists _, stdout (fst (?rest clk ?w1)) = _ =>
      assert (H : traces (negb (verbose self)) rest) by (repeat traces_step);
      destruct (H clk w1) as (more & E & _)
  end.
  exists more. rewrite E. cbn [stdout]. now rewrite <- app_assoc.
Qed.

(** ** The properties *)

(** X1.  An input that holds one of the immediate phrases ("just now",
    " now", "a moment ago", "moments ago") once trimmed and lowercased
    resolves to 0, whatever else it holds: the phrases are looked for
    before any count, unit or date. *)
Theorem immediate_phrase_today (verbose : bool) (reference : datetime) (raw : string) :
  immediate (normalize raw) = true -> resolve verbose reference raw = inr (Some 0%Z).
Proof.
  intros H.
  destruct (resolve_wp verbose reference raw (fun r => r = Some 0%Z)) as (r & Hr & ->);
    [|exact Hr].
  unfold normalize, immediate in H. unfold parse_timestamp_to_days.
  apply wp_bind, wp_now. apply wp_bind, wp_log.
  apply wp_bind.
  destruct (String.eqb_spec (Str.strip (Str.lower raw)) "") as [E|_];
    [rewrite E in H; vm_compute in H; discriminate H|].
  apply wp_ret.
  apply wp_bind. rewrite H.
  apply wp_bind, wp_log. now apply wp_return.
Qed.

Lemma immediate_phrase_today_witness :
  immediate (normalize "27 March 2017, 3 days ago - Just now") = true
  /\ resolve true (mkdatetime 2024 6 15 12 0 0 0) "27 March 2017, 3 days ago - Just now"
     = inr (Some 0%Z).
Proof.
  split; [reflexivity|].
  apply immediate_phrase_today. reflexivity.
Defined.

(** X2.  An input that holds "yesterday", no immediate phrase and no
    count with a seconds, minutes or hours unit resolves to 1, whatever
    day count or date it also holds: "yesterday" is looked for before the
    day and week shorthand and before the dates. *)
Theorem yesterday_one (verbose : bool) (reference : datetime) (raw : string) :
  immediate (normalize raw) = false -> sub_day (normalize raw) = false ->
  Str.contains "yesterday" (normalize raw) = true ->
  resolve verbose reference raw = inr (Some 1%Z).
Proof.
  intros Hi Hs Hy.
  destruct (resolve_wp verbose reference raw (fun r => r = Some 1%Z)) as (r & Hr & ->);
    [|exact Hr].
  unfold normalize, immediate, sub_day in *. unfold parse_timestamp_to_days.
  apply wp_bind, wp_now. apply wp_bind, wp_log.
  apply wp_bind.
  destruct (String.eqb_spec (Str.strip (Str.lower raw)) "") as [E|_];
    [rewrite E in Hy; vm_compute in Hy; discriminate Hy|].
  apply wp_ret.
  apply wp_bind. rewrite Hi. apply wp_ret.
  apply wp_bind, wp_for_each.
  { intros [p d] Hin.
    rewrite (found_false p _ (existsb_false _ _ Hs (p, d) Hin)). now apply wp_ret. }
  apply wp_bind. rewrite Hy. apply wp_bind, wp_log. now apply wp_return.
Qed.

Lemma yesterday_one_witness :
  immediate (normalize "5 days ago (Yesterday at 3:45 PM)") = false
  /\ sub_day (normalize "5 days ago (Yesterday at 3:45 PM)") = false
  /\ Str.contains "yesterday" (normalize "5 days ago (Yesterday at 3:45 PM)") = true
  /\ resolve true (mkdatetime 2024 6 15 12 0 0 0) "5 days ago (Yesterday at 3:45 PM)"
     = inr (Some 1%Z).
Proof.
  split; [reflexivity|]. split; [reflexivity|]. split; [reflexivity|].
  apply yesterday_one; reflexivity.
Defined.

(** X3.  Two inputs that agree once trimmed and lowercased give the same
    result or the same exception: case and the white space around the
    text play no part. *)
Theorem resolve_normalized (verbose : bool) (reference : datetime) (raw1 raw2 : string) :
  normalize raw1 = normalize raw2 ->
  resolve verbose reference raw1 = resolve verbose reference raw2.
Proof.
  intros H. unfold resolve. rewrite !run_call_outcome.
  now rewrite (parse_sim_normalize (init verbose) reference raw1 raw2 H world0 world0).
Qed.

Lemma resolve_normalized_witness :
  normalize "  27 MARCH 2017 " = normalize "27 march 2017"
  /\ resolve false (mkdatetime 2024 6 15 12 0 0 0) "  27 MARCH 2017 "
     = resolve false (mkdatetime 2024 6 15 12 0 0 0) "27 march 2017".
Proof.
  split; [reflexivity|].
  apply resolve_normalized. reflexivity.
Defined.

(** X4.  The dict of [get_parsed_info] follows [resolve].  It keeps the
    input as given under 'original'.  When the input does not parse it
    has days_ago None, parsed_successfully False and the category
    'unparseable'.  When the input parses to d days, d is not negative and
    the category is 'today' for 0, 'yesterday' for 1, 'this_week' for 2
    to 7, 'this_month' for 8 to 30, 'this_year' for 31 to 365 and
    'older_than_year' beyond, and in no other case.  An exception of the
    parser leaves [get_parsed_info] as it is. *)
Theorem parsed_info_consistent (verbose : bool) (reference : datetime) (raw : string) :
  match resolve verbose reference raw with
  | inl e => parsed_info verbose reference raw = inl e
  | inr None =>
      parsed_info verbose reference raw
      = inr [("original", VStr raw); ("days_ago", VNone);
             ("parsed_successfully", VBool false); ("category", VStr "unparseable")]
  | inr (Some d) =>
      exists c,
        parsed_info verbose reference raw
        = inr [("original", VStr raw); ("days_ago", VInt d);
               ("parsed_successfully", VBool true); ("category", VStr c)]
        /\ (0 <= d)%Z
        /\ (c = "today" <-> d = 0%Z)
        /\ (c = "yesterday" <-> d = 1%Z)
        /\ (c = "this_week" <-> (2 <= d <= 7)%Z)
        /\ (c = "this_month" <-> (8 <= d <= 30)%Z)
        /\ (c = "this_year" <-> (31 <= d <= 365)%Z)
        /\ (c = "older_than_year" <-> (365 < d)%Z)
  end.
Proof.
  pose proof (parse_outcome verbose reference raw world0) as Ho.
  pose proof (resolve_outcome verbose reference raw _ _
                (parse_total (init verbose) reference raw)) as Hn.
  unfold parsed_info, run_call. cbv [get_parsed_info bind call return_].
  destruct (parse_timestamp_to_days (init verbose) raw (fun _ => reference) world0) as [w' o].
  simpl in Ho. subst o.
  destruct (resolve verbose reference raw) as [e|[d|]]; [reflexivity | | reflexivity].
  exists (_categorize_timestamp (init verbose) d). split; [reflexivity|].
  simpl in Hn. split; [exact Hn|].
  unfold _categorize_timestamp.
  destruct (Z.eqb_spec d 0); [repeat split; intros; try discriminate; try lia; auto|].
  destruct (Z.eqb_spec d 1); [repeat split; intros; try discriminate; try lia; auto|].
  destruct (Z.leb_spec d 7); [repeat split; intros; try discriminate; try lia; auto|].
  destruct (Z.leb_spec d 30); [repeat split; intros; try discriminate; try lia; auto|].
  destruct (Z.leb_spec d 365); repeat split; intros; try discriminate; try lia; auto.
Qed.

(** X5.  A call reads the clock once, whatever the clock does afterwards
    and however the call ends: the count of readings goes up by one, and
    the call gives what [resolve] gives with that one reading as the
    reference instant. *)
Theorem one_clock_reading (verbose : bool) (raw : string) (clk : nat -> datetime) (w : world) :
  value_of None (snd (parse_timestamp_to_days (init verbose) raw clk w))
  = resolve verbose (clk (ticks w)) raw
  /\ ticks (fst (parse_timestamp_to_days (init verbose) raw clk w)) = S (ticks w).
Proof.
  split; [apply parse_reading_outcome | apply parse_one_reading].
Qed.

(** X6.  A batch reads the clock once for each input, in the order of
    the inputs, and resolves each input at its own reading: it returns
    the pairs that [resolve] gives reading by reading, or raises what the
    first input that raises does.  A batch that returns has read the
    clock as many times as it has inputs. *)
Theorem batch_reads_clock_per_input (verbose : bool) (clk : nat -> datetime)
        (raws : list string) (w : world) :
  value_of [] (snd (parse_multiple_timestamps (init verbose) raws clk w))
  = resolve_each verbose clk (ticks w) raws
  /\ match resolve_each verbose clk (ticks w) raws with
     | inr _ =>
         ticks (fst (parse_multiple_timestamps (init verbose) raws clk w))
         = (ticks w + List.length raws)%nat
     | inl _ => True
     end.
Proof.
  destruct (batch_readings verbose clk raws [] w) as (w' & H1 & H2).
  assert (E : parse_multiple_timestamps (init verbose) raws clk w
              = (w', match resolve_each verbose clk (ticks w) raws with
                     | inr pairs => Returned pairs
                     | inl e => Raised e
                     end)).
  { unfold parse_multiple_timestamps. unfold bind at 1. rewrite H1.
    destruct (resolve_each verbose clk (ticks w) raws); reflexivity. }
  rewrite E. cbn [fst snd].
  destruct (resolve_each verbose clk (ticks w) raws) as [e|pairs]; cbn [value_of].
  - split; [reflexivity | exact I].
  - split; [reflexivity | exact (H2 pairs eq_refl)].
Qed.


(** ** Numerals read back *)

Section Numerals.

Local Open Scope Z_scope.

Lemma int_digits_acc (s : string) :
  forall acc, int_digits acc s = acc * 10 ^ Z.of_nat (String.length s) + int_digits 0 s.
Proof.
  induction s as [|c s IH]; intros acc; cbn [int_digits String.length].
  - change (10 ^ Z.of_nat 0) with 1. lia.
  - rewrite (IH (10 * acc + digit_value c)), (IH (10 * 0 + digit_value c)).
    rewrite Nat2Z.inj_succ, Z.pow_succ_r by lia. ring.
Qed.

(** The digits written for a number, in front of what is already there,
    are decimal digits and read back as the number. *)
Lemma str_digits_spec (fuel : nat) :
  forall n acc,
    0 <= n < 2 ^ Z.of_nat fuel ->
    Str.all Str.isdecimal acc = true ->
    Str.all Str.isdecimal (str_digits fuel n acc) = true
    /\ int_digits 0 (str_digits fuel n acc)
       = n * 10 ^ Z.of_nat (String.length acc) + int_digits 0 acc
    /\ (String.length acc <= String.length (str_digits fuel n acc))%nat.
Proof.
  induction fuel as [|fuel IH]; intros n acc Hn Hacc; cbn [str_digits].
  - change (2 ^ Z.of_nat 0) with 1 in Hn. assert (n = 0) as -> by lia.
    repeat split; auto; lia.
  - assert (Hd : 0 <= n mod 10 <= 9) by (pose proof (Z.mod_pos_bound n 10); lia).
    assert (Hacc' : Str.all Str.isdecimal (String (digit_char (n mod 10)) acc) = true).
    { cbn [Str.all]. now rewrite digit_char_decimal, Hacc. }
    assert (Hval : int_digits 0 (String (digit_char (n mod 10)) acc)
                   = (n mod 10) * 10 ^ Z.of_nat (String.length acc) + int_digits 0 acc).
    { cbn [int_digits]. rewrite int_digits_acc, digit_value_char by exact Hd. ring. }
    destruct (Z.eqb_spec (n / 10) 0) as [E|N].
    + repeat split; auto.
      * rewrite Hval. f_equal. f_equal. pose proof (Z.div_mod n 10). lia.
      * simpl. lia.
    + assert (Hq : 0 <= n / 10 < 2 ^ Z.of_nat fuel).
      { rewrite Nat2Z.inj_succ, Z.pow_succ_r in Hn by lia.
        split; [apply Z.div_pos; lia|]. apply Z.div_lt_upper_bound; lia. }
      destruct (IH (n / 10) _ Hq Hacc') as (H1 & H2 & H3).
      repeat split; auto.
      * rewrite H2, Hval. cbn [String.length].
        rewrite Nat2Z.inj_succ, Z.pow_succ_r by lia.
        set (P := 10 ^ Z.of_nat (String.length acc)).
        replace (n * P) with ((10 * (n / 10) + n mod 10) * P)
          by (f_equal; symmetry; apply Z.div_mod; lia).
        ring.
      * simpl in H3. lia.
Qed.

(** The numeral of a number that is not negative: one or more decimal
    digits that [int] reads back as the number. *)
Lemma decimal_read_back (n : Z) :
  0 <= n ->
  decimal n <> "" /\ Str.all Str.isdecimal (decimal n) = true
  /\ int_digits 0 (decimal n) = n.
Proof.
  intros Hn. unfold decimal.
  replace (n <? 0) with false by (symmetry; apply Z.ltb_ge; lia).
  assert (Hf : 0 <= n < 2 ^ Z.of_nat (S (Z.to_nat (Z.log2 n)))).
  { split; [exact Hn|]. rewrite Nat2Z.inj_succ, Z2Nat.id by apply Z.log2_nonneg.
    destruct (Z.eq_dec n 0) as [->|Hz]; [reflexivity|].
    apply Z.log2_spec. lia. }
  cbn [str_digits].
  set (acc := String (digit_char (n mod 10)) "").
  assert (Hd : 0 <= n mod 10 <= 9) by (pose proof (Z.mod_pos_bound n 10); lia).
  assert (Hacc : Str.all Str.isdecimal acc = true).
  { unfold acc. cbn [Str.all]. now rewrite digit_char_decimal. }
  destruct (Z.eqb_spec (n / 10) 0) as [E|N].
  - repeat split; [discriminate | exact Hacc |].
    unfold acc. cbn [int_digits]. rewrite digit_value_char by exact Hd.
    pose proof (Z.div_mod n 10). lia.
  - assert (Hq : 0 <= n / 10 < 2 ^ Z.of_nat (Z.to_nat (Z.log2 n))).
    { rewrite Nat2Z.inj_succ, Z.pow_succ_r in Hf by lia.
      split; [apply Z.div_pos; lia|]. apply Z.div_lt_upper_bound; lia. }
    destruct (str_digits_spec _ (n / 10) acc Hq Hacc) as (H1 & H2 & H3).
    repeat split; auto.
    + intros E. rewrite E in H3. unfold acc in H3. simpl in H3. lia.
    + rewrite H2. unfold acc. cbn [int_digits String.length].
      rewrite digit_value_char by exact Hd.
      change (10 ^ Z.of_nat 1) with 10.
      pose proof (Z.div_mod n 10 ltac:(lia)). lia.
Qed.

End Numerals.

(** ** A count with the week unit and nothing else *)

Section WeekAlone.

Variable ds : string.
Hypothesis Hne : ds <> "".
Hypothesis Hall : Str.all Str.isdecimal ds = true.

Lemma week_lacks (c : ascii) :
  Str.isdecimal c = false -> Ascii.eqb "w" c = false ->
  Str.all (fun a => negb (Ascii.eqb a c)) (ds ++ "w") = true.
Proof.
  intros Hc Hd. rewrite all_app. apply andb_true_iff. split.
  - apply (all_impl Str.isdecimal); [|exact Hall].
    intros a Ha. apply negb_true_iff. destruct (Ascii.eqb_spec a c) as [->|]; congruence.
  - cbn [Str.all]. now rewrite Hd.
Qed.

Lemma week_normalize : normalize (ds ++ "w") = ds ++ "w".
Proof.
  unfold normalize. rewrite lower_app, (lower_decimal ds Hall).
  change (Str.lower "w") with "w".
  pose proof Hall as Hc. revert Hc.
  destruct ds as [|c s] eqn:E; [congruence|]. intros Hc.
  cbn [Str.all] in Hc. apply andb_true_iff in Hc as [Hc _].
  apply strip_inner; [now apply decimal_not_space | reflexivity].
Qed.

Lemma week_found_none (c : ascii) (p : pattern) :
  requires c (compiled p) = true ->
  Str.isdecimal c = false -> Ascii.eqb "w" c = false ->
  search (compiled p) (ds ++ "w") = None.
Proof.
  intros Hr Hc Hd. unfold search.
  now rewrite (search_from_requires c _ Hr) by (now apply week_lacks).
Qed.

Lemma week_reaches : reaches_shorthand (ds ++ "w") = true.
Proof.
  unfold reaches_shorthand, immediate, sub_day.
  replace (String.eqb (ds ++ "w") "") with false
    by (destruct ds; [congruence | reflexivity]).
  unfold immediate_phrases, time_units. cbn [existsb].
  rewrite !contains_lacks by (apply week_lacks; reflexivity).
  unfold found.
  rewrite (week_found_none "s"%char), (week_found_none "m"%char), (week_found_none "h"%char)
    by reflexivity.
  reflexivity.
Qed.

Lemma week_search :
  exists m, search (compiled week_pattern) (ds ++ "w") = Some m /\ mgroup m "1" = Some ds.
Proof.
  exists {| m_start := 0; m_end := S (String.length (Str.rev_onto ds ""));
            m_groups := [("1", between "" (Str.rev_onto ds ""))] |}.
  split.
  - unfold search. apply search_from_here. unfold match_at, week_pattern, plus.
    cbn [compiled seqs run].
    apply rep_greedy; [reflexivity | exact Hall | destruct ds; [congruence | simpl; lia] |].
    set (pre := Str.rev_onto ds "").
    cbv -[between String.length pre]. reflexivity.
  - unfold mgroup. cbn [m_groups group]. change (String.eqb "1" "1") with true. cbv iota.
    now rewrite between_rev_onto.
Qed.

Lemma week_alone_answer (verbose : bool) (reference : datetime) :
  resolve verbose reference (ds ++ "w")
  = if too_long ds || too_long (decimal (int_digits 0 ds * 7))
    then inl ValueError
    else inr (Some (int_digits 0 ds * 7)%Z).
Proof.
  destruct week_search as (m & Hs & Hg).
  destruct (week_answer verbose reference (ds ++ "w")) with (m := m)
    as (ds' & Hg' & _ & _ & ->).
  - rewrite week_normalize. exact week_reaches.
  - rewrite week_normalize. now apply (week_found_none "d"%char).
  - now rewrite week_normalize.
  - rewrite Hg in Hg'. now injection Hg' as <-.
Qed.

End WeekAlone.

Lemma day_alone_answer (ds : string) (verbose : bool) (reference : datetime) :
  ds <> "" -> Str.all Str.isdecimal ds = true ->
  resolve verbose reference (ds ++ "d")
  = if too_long ds then inl ValueError else inr (Some (int_digits 0 ds)).
Proof.
  intros Hne Hall. destruct (count_search ds Hne Hall) as (m & Hs & Hg).
  destruct (day_answer verbose reference (ds ++ "d")) with (m := m)
    as (ds' & Hg' & _ & _ & ->).
  - rewrite (count_normalize ds Hne Hall). exact (count_reaches ds Hne Hall).
  - now rewrite (count_normalize ds Hne Hall).
  - rewrite Hg in Hg'. now injection Hg' as <-.
Qed.

(** X8.  A count written out in decimal and followed by "d" resolves
    to the count, and followed by "w" to seven times the count: for
    every n that is not negative the numeral of n with "d" gives n and
    with "w" gives 7 n, as long as the digits of n, and of 7 n, stay
    within the limit of 4300; past it the call raises ValueError. *)
Theorem count_round_trip (verbose : bool) (reference : datetime) (n : Z) :
  (0 <= n)%Z ->
  resolve verbose reference (decimal n ++ "d")
  = (if too_long (decimal n) then inl ValueError else inr (Some n))
  /\ resolve verbose reference (decimal n ++ "w")
     = (if too_long (decimal n) || too_long (decimal (n * 7))
        then inl ValueError
        else inr (Some (n * 7)%Z)).
Proof.
  intros Hn. destruct (decimal_read_back n Hn) as (Hne & Hall & Hint). split.
  - rewrite (day_alone_answer _ verbose reference Hne Hall). now rewrite Hint.
  - rewrite (week_alone_answer _ Hne Hall verbose reference). now rewrite Hint.
Qed.

Lemma count_round_trip_witness :
  (0 <= 2024)%Z
  /\ resolve false (mkdatetime 2024 6 15 12 0 0 0) (decimal 2024 ++ "d") = inr (Some 2024%Z)
  /\ resolve false (mkdatetime 2024 6 15 12 0 0 0) (decimal 2024 ++ "w") = inr (Some 14168%Z).
Proof.
  assert (H : (0 <= 2024)%Z) by lia.
  split; [exact H|].
  exact (count_round_trip false (mkdatetime 2024 6 15 12 0 0 0) 2024 H).
Defined.

(** ** What a pattern spans *)

Section Spans.

Context {A : Type}.

(** A repetition hands over after a run of its class within its bounds. *)
Lemma rep_sound (cl : cls) (k : cont (A:=A)) (caps : captures) :
  forall rest lo hi pre x,
    rep cl k caps lo hi pre rest = Some x ->
    exists w rest',
      rest = w ++ rest' /\ Str.all (in_cls cl) w = true
      /\ (lo <= String.length w)%nat
      /\ match hi with Some h => (String.length w <= h)%nat | None => True end
      /\ k (Str.rev_onto w pre) rest' caps = Some x.
Proof.
  induction rest as [|a rest IH]; intros lo hi pre x H.
  - simpl in H. destruct lo; [|discriminate].
    exists "", "". repeat split; auto. destruct hi; simpl; auto; lia.
  - cbn [rep] in H.
    assert (Hstop : match lo with O => k pre (String a rest) caps | S _ => None end = Some x ->
                    exists w rest', String a rest = w ++ rest'
                      /\ Str.all (in_cls cl) w = true /\ (lo <= String.length w)%nat
                      /\ match hi with Some h => (String.length w <= h)%nat | None => True end
                      /\ k (Str.rev_onto w pre) rest' caps = Some x).
    { intros Hs. destruct lo; [|discriminate].
      exists "", (String a rest). repeat split; auto. destruct hi; simpl; auto; lia. }
    destruct (match hi with Some O => false | _ => true end && in_cls cl a) eqn:Hc;
      [|now apply Hstop].
    destruct (rep cl k caps (Nat.pred lo) (option_map Nat.pred hi) (String a pre) rest)
      as [y|] eqn:Hrec; [|now apply Hstop].
    injection H as ->.
    apply IH in Hrec as (w & rest' & -> & Hall & Hlo & Hhi & Hk).
    apply andb_true_iff in Hc as [Hmore Hc].
    exists (String a w), rest'. repeat split.
    + simpl. now rewrite Hc, Hall.
    + simpl. lia.
    + destruct hi as [[|h]|]; [discriminate | simpl in *; lia | exact I].
    + exact Hk.
Qed.

(** Whenever the matcher succeeds, the pattern spans the text consumed. *)
Lemma run_sound (r : regex) :
  forall pre rest caps (k : cont (A:=A)) x,
    run false r pre rest caps k = Some x ->
    exists w rest' caps',
      rest = w ++ rest' /\ spans r pre w rest'
      /\ k (Str.rev_onto w pre) rest' caps' = Some x.
Proof.
  induction r as [ |c|cl|r1 IH1 r2 IH2|r1 IH1 r2 IH2|r1 IH1|cl lo hi|name r1 IH1| | ];
    intros pre rest caps k x H; cbn [run] in H.
  - exists "", rest, caps. repeat split; [constructor | exact H].
  - destruct rest as [|a rest]; [discriminate|].
    unfold chr_eq in H. destruct (Ascii.eqb_spec c a) as [<-|]; [|discriminate].
    exists (String c ""), rest, caps. repeat split; [constructor | exact H].
  - destruct rest as [|a rest]; [discriminate|].
    destruct (in_cls cl a) eqn:E; [|discriminate].
    exists (String a ""), rest, caps. repeat split; [now constructor | exact H].
  - apply IH1 in H as (w1 & rest1 & caps1 & -> & S1 & H).
    apply IH2 in H as (w2 & rest2 & caps2 & -> & S2 & H).
    exists (w1 ++ w2), rest2, caps2. repeat split.
    + now rewrite append_assoc.
    + now constructor.
    + now rewrite rev_onto_app.
  - destruct (run false r1 pre rest caps k) as [y|] eqn:H1.
    + injection H as ->. apply IH1 in H1 as (w & rest' & caps' & -> & S1 & H).
      exists w, rest', caps'. repeat split; [now apply spans_alt_l | exact H].
    + apply IH2 in H as (w & rest' & caps' & -> & S2 & H).
      exists w, rest', caps'. repeat split; [now apply spans_alt_r | exact H].
  - destruct (run false r1 pre rest caps k) as [y|] eqn:H1.
    + injection H as ->. apply IH1 in H1 as (w & rest' & caps' & -> & S1 & H).
      exists w, rest', caps'. repeat split; [now apply spans_opt | exact H].
    + exists "", rest, caps. repeat split; [apply spans_skip | exact H].
  - apply rep_sound in H as (w & rest' & -> & Hall & Hlo & Hhi & H).
    exists w, rest', caps. repeat split; [now constructor | exact H].
  - apply IH1 in H as (w & rest' & caps' & -> & S1 & H).
    exists w, rest', ((name, between pre (Str.rev_onto w pre)) :: caps').
    repeat split; [now constructor | exact H].
  - destruct (xorb _ _) eqn:E; [|discriminate].
    exists "", rest, caps. repeat split; [now constructor | exact H].
  - exists "", rest, caps.
    destruct rest as [|a [|b rest]]; try discriminate.
    + repeat split; [now constructor | exact H].
    + destruct (Str.code a =? 10)%N eqn:E; [|discriminate].
      repeat split; [now constructor | exact H].
Qed.

(** A repetition succeeds when some run within its bounds lets the
    continuation succeed. *)
Lemma rep_complete (cl : cls) (k : cont (A:=A)) (caps : captures) (rest' : string) :
  forall w lo hi pre,
    Str.all (in_cls cl) w = true -> (lo <= String.length w)%nat ->
    match hi with Some h => (String.length w <= h)%nat | None => True end ->
    (exists x, k (Str.rev_onto w pre) rest' caps = Some x) ->
    exists x, rep cl k caps lo hi pre (w ++ rest') = Some x.
Proof.
  induction w as [|a w IH]; intros lo hi pre Hall Hlo Hhi Hk.
  - simpl in Hlo. assert (lo = 0)%nat as -> by lia. simpl in Hk. cbn [append].
    destruct rest' as [|b rest']; cbn [rep]; [exact Hk|].
    destruct (_ && _); [|exact Hk].
    destruct (rep cl k caps _ _ _ rest') as [y|]; [eauto | exact Hk].
  - cbn [Str.all] in Hall. apply andb_true_iff in Hall as [Ha Hall].
    cbn [append rep]. rewrite Ha.
    assert (Hmore : match hi with Some O => false | _ => true end = true).
    { destruct hi as [[|h]|]; auto. simpl in Hhi. lia. }
    rewrite Hmore. cbn [andb].
    destruct (IH (Nat.pred lo) (option_map Nat.pred hi) (String a pre) Hall) as [x Hx].
    + simpl in Hlo. lia.
    + destruct hi as [[|h]|]; simpl in *; auto; lia.
    + exact Hk.
    + rewrite Hx. eauto.
Qed.

(** Whenever the pattern spans a stretch of the text after which the
    continuation succeeds, the matcher succeeds. *)
Lemma run_complete (r : regex) (pre w rest : string) :
  spans r pre w rest ->
  forall caps (k : cont (A:=A)),
    (forall caps', exists x, k (Str.rev_onto w pre) rest caps' = Some x) ->
    exists x, run false r pre (w ++ rest) caps k = Some x.
Proof.
  induction 1 as [pre rest|c pre rest|cl a pre rest Ha
                 |r1 r2 pre w1 w2 rest S1 IH1 S2 IH2
                 |r1 r2 pre w rest S1 IH1|r1 r2 pre w rest S2 IH2
                 |r pre w rest S1 IH1|r pre rest
                 |cl lo hi pre w rest Hall Hlo Hhi
                 |name r pre w rest S1 IH1|pre rest Hb|pre rest He];
    intros caps k Hk; cbn [run].
  - apply Hk.
  - cbn [append]. unfold chr_eq. rewrite Ascii.eqb_refl. apply Hk.
  - cbn [append]. rewrite Ha. apply Hk.
  - rewrite append_assoc. apply IH1. intros caps'. apply IH2.
    intros caps''. rewrite <- rev_onto_app. apply Hk.
  - destruct (IH1 caps k Hk) as [x ->]. eauto.
  - destruct (run false r1 pre (w ++ rest) caps k) as [y|]; [eauto | now apply IH2].
  - destruct (IH1 caps k Hk) as [x ->]. eauto.
  - destruct (run false r pre ("" ++ rest) caps k) as [y|]; [eauto | apply Hk].
  - now apply rep_complete.
  - apply IH1. intros caps'. apply Hk.
  - cbn [append]. rewrite Hb. apply Hk.
  - cbn [append]. destruct rest as [|a [|b rest]]; try contradiction.
    + apply Hk.
    + rewrite He. apply Hk.
Qed.

End Spans.

Section Found.

Lemma search_from_at (ic : bool) (r : regex) :
  forall rest pre m,
    search_from ic r pre rest = Some m ->
    exists u rest', rest = u ++ rest' /\ match_at ic false r (Str.rev_onto u pre) rest' = Some m.
Proof.
  induction rest as [|a rest IH]; intros pre m H; cbn [search_from] in H.
  - destruct (match_at ic false r pre "") eqn:E; [|discriminate].
    injection H as ->. exists "", "". auto.
  - destruct (match_at ic false r pre (String a rest)) eqn:E.
    + injection H as ->. exists "", (String a rest). auto.
    + apply IH in H as (u & rest' & -> & H). exists (String a u), rest'. auto.
Qed.

Lemma search_from_some (ic : bool) (r : regex) (rest' : string) :
  forall u pre,
    (exists m, match_at ic false r (Str.rev_onto u pre) rest' = Some m) ->
    exists m, search_from ic r pre (u ++ rest') = Some m.
Proof.
  induction u as [|a u IH]; intros pre [m H].
  - exists m. now apply search_from_here.
  - cbn [append search_from].
    destruct (match_at ic false r pre (String a (u ++ rest'))) as [m'|]; [eauto|].
    apply IH. eauto.
Qed.

(** A pattern is found in a text exactly when it spans some stretch of
    it. *)
Lemma found_spans (p : pattern) (t : string) :
  found p t = true <->
  exists u w rest, t = u ++ w ++ rest /\ spans (compiled p) (Str.rev_onto u "") w rest.
Proof.
  unfold found, search. split.
  - destruct (search_from false (compiled p) "" t) as [m|] eqn:E; [|discriminate].
    intros _. apply search_from_at in E as (u & rest' & -> & E).
    unfold match_at in E. apply run_sound in E as (w & rest & caps' & -> & S & _).
    eauto.
  - intros (u & w & rest & -> & S).
    assert (exists m, search_from false (compiled p) "" (u ++ w ++ rest) = Some m) as [m ->];
      [|reflexivity].
    apply search_from_some. unfold match_at.
    apply (run_complete _ _ _ _ S). intros caps'. cbn [andb]. eauto.
Qed.

End Found.

(** ** The late stage *)

Section Units.

Lemma space_not_word (a : ascii) : Str.isspace a = true -> Str.isword a = false.
Proof.
  destruct a as [[] [] [] [] [] [] [] []]; intros H; try reflexivity; discriminate H.
Qed.

Lemma spaces_then (sp rest : string) :
  Str.all Str.isspace sp = true -> (1 <= String.length sp)%nat ->
  word_at (sp ++ rest) = false.
Proof.
  destruct sp as [|a sp]; simpl; [lia|]. intros H _.
  apply andb_true_iff in H as [H _]. now apply space_not_word.
Qed.

Lemma spans_lit (s : string) :
  s <> "" -> forall pre rest, spans (lit s) pre s rest.
Proof.
  induction s as [|c s IH]; intros Hne pre rest; [congruence|].
  destruct s as [|d s].
  - apply spans_chr.
  - change (lit (String c (String d s))) with (Seq (Chr c) (lit (String d s))).
    change (String c (String d s)) with (String c "" ++ String d s).
    apply spans_seq; [apply spans_chr | apply IH; congruence].
Qed.

Lemma lit_spans (s : string) :
  s <> "" -> forall pre w rest, spans (lit s) pre w rest -> w = s.
Proof.
  induction s as [|c s IH]; intros Hne pre w rest H; [congruence|].
  destruct s as [|d s].
  - inversion H; reflexivity.
  - change (lit (String c (String d s))) with (Seq (Chr c) (lit (String d s))) in H.
    inversion H as [ | | |r1 r2 pre0 w1 w2 rest0 S1 S2| | | | | | | | ]; subst.
    inversion S1; subst. apply IH in S2; [|congruence]. now subst.
Qed.

(** What "N <word>s ago" spans: digits, spaces, the word with or
    without its plural, spaces, and "ago". *)
Lemma ago_spans (word pre w rest : string) :
  word <> "" ->
  spans (seqs [Grp "1" (plus CDigit); plus CSpace; lit word; Opt (Chr "s");
               plus CSpace; lit "ago"]) pre w rest ->
  exists ds sp1 s sp2,
    w = ds ++ sp1 ++ word ++ s ++ sp2 ++ "ago"
    /\ Str.all Str.isdecimal ds = true /\ (1 <= String.length ds)%nat
    /\ Str.all Str.isspace sp1 = true
    /\ (s = "" \/ s = "s")
    /\ Str.all Str.isspace sp2 = true /\ (1 <= String.length sp2)%nat.
Proof.
  intros Hne H. cbn [seqs] in H.
  inversion H as [ | | |? ? ? ds w2 ? S1 T1| | | | | | | | ]; subst; clear H.
  inversion S1 as [ | | | | | | | | |? ? ? ? ? S1'| | ]; subst; clear S1.
  inversion S1' as [ | | | | | | | |? ? ? ? ? ? Hds Hlen _| | | ]; subst; clear S1'.
  inversion T1 as [ | | |? ? ? sp1 w3 ? S2 T2| | | | | | | | ]; subst; clear T1.
  inversion S2 as [ | | | | | | | |? ? ? ? ? ? Hsp1 _ _| | | ]; subst; clear S2.
  inversion T2 as [ | | |? ? ? wd w4 ? S3 T3| | | | | | | | ]; subst; clear T2.
  apply lit_spans in S3; [subst wd | exact Hne].
  inversion T3 as [ | | |? ? ? s w5 ? S4 T4| | | | | | | | ]; subst; clear T3.
  inversion T4 as [ | | |? ? ? sp2 w6 ? S5 S6| | | | | | | | ]; subst; clear T4.
  inversion S5 as [ | | | | | | | |? ? ? ? ? ? Hsp2 Hlen2 _| | | ]; subst; clear S5.
  apply (lit_spans "ago") in S6; [subst w6 | discriminate].
  exists ds, sp1, s, sp2. repeat split; auto.
  inversion S4 as [ | | | | | |? ? ? ? S4' | | | | | ]; subst; [|now left].
  inversion S4'; subst. now right.
Qed.

(** What the shorthand spans at least: digits, spaces and a unit that a
    space follows. *)
Lemma shorthand_spans (unit_alt : regex) (unit_ pre ds sp rest : string) :
  Str.all Str.isdecimal ds = true -> (1 <= String.length ds)%nat ->
  Str.all Str.isspace sp = true ->
  (forall pre' rest', spans unit_alt pre' unit_ rest') ->
  (forall pre', word_at (Str.rev_onto unit_ pre') = true) ->
  word_at rest = false ->
  spans (seqs [Grp "1" (plus CDigit); star CSpace; unit_alt; WordB;
               Opt (Seq (star CSpace) (lit "ago"))])
        pre (ds ++ sp ++ unit_ ++ "" ++ "") rest.
Proof.
  intros Hds Hlen Hsp Hunit Hlast Hrest. cbn [seqs].
  apply spans_seq; [apply spans_grp, spans_rep; auto|].
  apply spans_seq; [apply spans_rep; auto; lia|].
  apply spans_seq; [apply Hunit|].
  apply spans_seq; [|apply spans_skip].
  apply spans_wordb. cbn [append]. now rewrite Hlast, Hrest.
Qed.

(** Wherever "N days ago" is found, so is the day shorthand. *)
Lemma late_days_within (t : string) :
  found (special_pattern 0) t = true -> found day_pattern t = true.
Proof.
  rewrite !found_spans. intros (u & w & rest & -> & S).
  apply ago_spans in S as (ds & sp1 & s & sp2 & -> & Hds & Hlen & Hsp1 & Hs & Hsp2 & Hlen2);
    [|discriminate].
  set (unit_ := "day" ++ s).
  exists u, (ds ++ sp1 ++ unit_ ++ "" ++ ""), (sp2 ++ "ago" ++ rest). split.
  - unfold unit_. rewrite !append_assoc. reflexivity.
  - apply shorthand_spans; auto.
    + intros pre' rest'. unfold unit_. cbn [alts].
      apply spans_alt_r. destruct Hs as [-> | ->].
      * apply spans_alt_l, spans_lit. discriminate.
      * apply spans_alt_r, spans_lit. discriminate.
    + intros pre'. unfold unit_. destruct Hs as [-> | ->]; reflexivity.
    + now apply spaces_then.
Qed.

(** Wherever "N weeks ago" is found, so is the week shorthand. *)
Lemma late_weeks_within (t : string) :
  found (special_pattern 1) t = true -> found week_pattern t = true.
Proof.
  rewrite !found_spans. intros (u & w & rest & -> & S).
  apply ago_spans in S as (ds & sp1 & s & sp2 & -> & Hds & Hlen & Hsp1 & Hs & Hsp2 & Hlen2);
    [|discriminate].
  set (unit_ := "week" ++ s).
  exists u, (ds ++ sp1 ++ unit_ ++ "" ++ ""), (sp2 ++ "ago" ++ rest). split.
  - unfold unit_. rewrite !append_assoc. reflexivity.
  - apply shorthand_spans; auto.
    + intros pre' rest'. unfold unit_. cbn [alts].
      apply spans_alt_r, spans_alt_r. destruct Hs as [-> | ->].
      * apply spans_alt_l, spans_lit. discriminate.
      * apply spans_alt_r, spans_lit. discriminate.
    + intros pre'. unfold unit_. destruct Hs as [-> | ->]; reflexivity.
    + now apply spaces_then.
Qed.

End Units.

Section LateStage.

Variable verbose : bool.
Variable reference : datetime.
Variable raw : string.

Hypothesis Hvalid : valid reference.
Hypothesis Hreach : reaches_dates (normalize raw) = true.
Hypothesis Hwith : with_year_parse (clean (init verbose) (normalize raw)) = None.
Hypothesis Hno :
  no_year_date reference
    (clean (init verbose) (normalize raw) ++ " " ++ decimal (year reference))
    date_formats_no_year = None.

(** The count of a late pattern, scaled, written into the trace and
    returned. *)
Lemma wp_scaled (self : TimestampParser) (f : Z) (ds : string) (message : string -> string)
      (Qn : unit -> Prop) :
  (0 <= f)%Z -> ds <> "" -> Str.all Str.isdecimal ds = true ->
  let long_one := too_long ds || too_long (decimal (int_digits 0 ds * f)) in
  wp reference
     (result <- lift (times f (Some ds)) ;;
      shown <- lift (str result) ;;
      log self (message shown) ;;
      return_ (Some result))
     Qn
     (fun r => long_one = false /\ r = Some (int_digits 0 ds * f)%Z)
     (fun e => long_one = true /\ e = ValueError).
Proof.
  intros Hf Hne Hall long_one.
  pose proof (int_digits_nonneg ds 0%Z ltac:(lia) Hall) as Hpos.
  apply wp_bind, wp_lift.
  unfold long_one. destruct (too_long ds) eqn:Hlen.
  - rewrite (times_too_long f ds Hall Hlen). auto.
  - rewrite times_decimal by assumption. cbn [orb].
    apply wp_bind, wp_lift. unfold str.
    rewrite (Z.abs_eq (int_digits 0 ds * f)) by nia.
    destruct (too_long (decimal (int_digits 0 ds * f))); [auto|].
    apply wp_bind, wp_log. apply wp_return. auto.
Qed.

(** The answer of the late stage: the first of "N months ago" and
    "N years ago" that is found, the two patterns before them being
    found nowhere once the shorthand has failed. *)
Lemma late_answer (m : rmatch) (n : nat) (f : Z) :
  (n = 2%nat /\ f = 30%Z
   \/ n = 3%nat /\ f = 365%Z /\ search (compiled (special_pattern 2)) (normalize raw) = None) ->
  search (compiled (special_pattern n)) (normalize raw) = Some m ->
  exists ds,
    mgroup m "1" = Some ds /\ ds <> "" /\ Str.all Str.isdecimal ds = true
    /\ resolve verbose reference raw
       = if too_long ds || too_long (decimal (int_digits 0 ds * f))
         then inl ValueError
         else inr (Some (int_digits 0 ds * f)%Z).
Proof.
  intros Hn Hfound.
  assert (Hc : counted (special_pattern n) = true)
    by (destruct Hn as [[-> _]|(-> & _)]; reflexivity).
  destruct (counted_group _ _ m Hc Hfound) as (ds & Hg & Hne & Hall & _).
  exists ds. repeat split; auto.
  set (long_one := too_long ds || too_long (decimal (int_digits 0 ds * f))).
  assert (Hwp : wp reference (parse_timestamp_to_days (init verbose) raw) (fun _ => False)
                   (fun r => long_one = false /\ r = Some (int_digits 0 ds * f)%Z)
                   (fun e => long_one = true /\ e = ValueError)).
  { destruct (reaches_dates_inv _ Hreach) as (Hshort & Hrel).
    assert (Hdays : search (compiled (special_pattern 0)) (normalize raw) = None).
    { apply found_false. destruct (found (special_pattern 0) _) eqn:E; [|reflexivity].
      apply late_days_within in E. unfold reaches_dates in Hreach.
      rewrite E in Hreach. rewrite andb_false_r in Hreach. discriminate. }
    assert (Hweeks : search (compiled (special_pattern 1)) (normalize raw) = None).
    { apply found_false. destruct (found (special_pattern 1) _) eqn:E; [|reflexivity].
      apply late_weeks_within in E. unfold reaches_dates in Hreach.
      rewrite E in Hreach. rewrite andb_false_r in Hreach. discriminate. }
    unfold normalize in *.
    skip_to_shorthand Hshort.
    apply wp_bind, wp_for_each.
    { intros [p c] Hin. rewrite (Hrel p c Hin). now apply wp_ret. }
    apply wp_bind, wp_log.
    apply wp_bind, (wp_with_year_loop _ _ Hvalid).
    unfold with_year_parse in Hwith. rewrite Hwith.
    apply wp_bind, (wp_no_year_loop _ _ Hvalid).
    rewrite Hno.
    apply wp_bind.
    unfold special_patterns. cbn [for_each].
    unfold special_pattern, special_patterns in Hdays, Hweeks, Hfound, Hn.
    cbn [nth fst] in Hdays, Hweeks.
    apply wp_bind. rewrite Hdays. apply wp_ret.
    apply wp_bind. rewrite Hweeks. apply wp_ret.
    destruct Hn as [[-> ->]|(-> & -> & Hmonths)]; cbn [nth fst] in *.
    - apply wp_bind. rewrite Hfound, Hg.
      apply (wp_scaled _ 30 ds
               (fun shown => "Matched special pattern: (\d+)\s+months?\s+ago - "
                             ++ shown ++ " days ago")); auto; lia.
    - apply wp_bind. rewrite Hmonths. apply wp_ret.
      apply wp_bind. rewrite Hfound, Hg.
      apply (wp_scaled _ 365 ds
               (fun shown => "Matched special pattern: (\d+)\s+years?\s+ago - "
                             ++ shown ++ " days ago")); auto; lia. }
  pose proof (resolve_outcome verbose reference raw _ _ Hwp) as Ho.
  cbv beta in Ho.
  destruct (resolve verbose reference raw) as [e|r], long_one;
    destruct Ho as [Hc' ->]; congruence.
Qed.

End LateStage.

(** X9.  The first two patterns of the late stage, "N days ago" and
    "N weeks ago" with white space between the words, never decide a
    result: wherever one of them is found in a text, the day shorthand,
    respectively the week shorthand, is found too, and the late stage is
    reached only by texts in which neither shorthand is found. *)
Theorem late_day_week_patterns_dead (t : string) :
  (found (special_pattern 0) t = true -> found day_pattern t = true)
  /\ (found (special_pattern 1) t = true -> found week_pattern t = true)
  /\ (reaches_dates t = true ->
      found (special_pattern 0) t = false /\ found (special_pattern 1) t = false).
Proof.
  split; [apply late_days_within | split; [apply late_weeks_within|]].
  unfold reaches_dates. intros H.
  apply andb_true_iff in H as [H Hw]. apply andb_true_iff in H as [_ Hd].
  apply negb_true_iff in Hw, Hd. split.
  - destruct (found (special_pattern 0) t) eqn:E; [|reflexivity].
    apply late_days_within in E. congruence.
  - destruct (found (special_pattern 1) t) eqn:E; [|reflexivity].
    apply late_weeks_within in E. congruence.
Qed.

(** X10.  Once the shorthand and the date stages have found nothing, a
    text in which "N months ago" is found resolves to N times 30, and a
    text in which "N years ago" is found and "N months ago" is not
    resolves to N times 365, N being the digits captured, as long as the
    digits of N, and of the product, stay within the limit of 4300; past
    it the call raises ValueError. *)
Theorem months_years_ago (verbose : bool) (reference : datetime) (raw : string) (m : rmatch) :
  valid reference ->
  reaches_dates (normalize raw) = true ->
  with_year_parse (clean (init verbose) (normalize raw)) = None ->
  no_year_date reference
    (clean (init verbose) (normalize raw) ++ " " ++ decimal (year reference))
    date_formats_no_year = None ->
  (search (compiled (special_pattern 2)) (normalize raw) = Some m ->
   exists ds,
     mgroup m "1" = Some ds /\ ds <> "" /\ Str.all Str.isdecimal ds = true
     /\ resolve verbose reference raw
        = if too_long ds || too_long (decimal (int_digits 0 ds * 30))
          then inl ValueError
          else inr (Some (int_digits 0 ds * 30)%Z))
  /\ (search (compiled (special_pattern 2)) (normalize raw) = None ->
      search (compiled (special_pattern 3)) (normalize raw) = Some m ->
      exists ds,
        mgroup m "1" = Some ds /\ ds <> "" /\ Str.all Str.isdecimal ds = true
        /\ resolve verbose reference raw
           = if too_long ds || too_long (decimal (int_digits 0 ds * 365))
             then inl ValueError
             else inr (Some (int_digits 0 ds * 365)%Z)).
Proof.
  intros Hvalid Hreach Hwith Hno. split.
  - intros Hfound.
    apply (late_answer verbose reference raw Hvalid Hreach Hwith Hno m 2 30); auto.
  - intros Hmonths Hfound.
    apply (late_answer verbose reference raw Hvalid Hreach Hwith Hno m 3 365); auto.
Qed.

Lemma months_years_ago_witness :
  valid (mkdatetime 2024 6 15 12 0 0 0)
  /\ reaches_dates (normalize "3 Months ago") = true
  /\ with_year_parse (clean (init false) (normalize "3 Months ago")) = None
  /\ no_year_date (mkdatetime 2024 6 15 12 0 0 0)
       (clean (init false) (normalize "3 Months ago") ++ " "
        ++ decimal (year (mkdatetime 2024 6 15 12 0 0 0)))
       date_formats_no_year = None
  /\ search (compiled (special_pattern 2)) (normalize "3 Months ago")
     = Some {| m_start := 0; m_end := 12; m_groups := [("1", "3")] |}
  /\ resolve false (mkdatetime 2024 6 15 12 0 0 0) "3 Months ago" = inr (Some 90%Z).
Proof.
  assert (Hv : valid (mkdatetime 2024 6 15 12 0 0 0)).
  { unfold valid; simpl; repeat split; try reflexivity; lia. }
  assert (Hreach : reaches_dates (normalize "3 Months ago") = true) by reflexivity.
  assert (Hwith : with_year_parse (clean (init false) (normalize "3 Months ago")) = None)
    by reflexivity.
  assert (Hno : no_year_date (mkdatetime 2024 6 15 12 0 0 0)
                  (clean (init false) (normalize "3 Months ago") ++ " "
                   ++ decimal (year (mkdatetime 2024 6 15 12 0 0 0)))
                  date_formats_no_year = None) by reflexivity.
  assert (Hfound : search (compiled (special_pattern 2)) (normalize "3 Months ago")
                   = Some {| m_start := 0; m_end := 12; m_groups := [("1", "3")] |})
    by reflexivity.
  destruct (months_years_ago false (mkdatetime 2024 6 15 12 0 0 0) "3 Months ago"
              {| m_start := 0; m_end := 12; m_groups := [("1", "3")] |}
              Hv Hreach Hwith Hno) as [Hmonths _].
  destruct (Hmonths Hfound) as (ds & Hg & _ & _ & Hr).
  vm_compute in Hg. injection Hg as <-.
  split; [exact Hv|]. split; [exact Hreach|]. split; [exact Hwith|].
  split; [exact Hno|]. split; [exact Hfound|]. exact Hr.
Defined.

(** ** The span of a yearless date *)

Section WithinAYear.

Local Open Scope Z_scope.

(** The date a yearless template settles on lies in the year of the
    reference, or in the year before and then later in the calendar. *)
Lemma no_year_date_year (now : datetime) (ts_cleaned : string) (parsed : datetime) :
  valid now ->
  forall formats,
    incl formats date_formats_no_year ->
    no_year_date now (ts_cleaned ++ " " ++ decimal (year now)) formats = Some parsed ->
    year parsed = year now
    \/ year parsed = year now - 1
       /\ (month now < month parsed \/ month now = month parsed /\ day now < day parsed).
Proof.
  intros Hv formats. pose proof Hv as (Hc & _).
  apply check_date_fields_inv in Hc as (Hy & _).
  induction formats as [|f formats IH]; intros Hincl; cbn [no_year_date]; [discriminate|].
  assert (Hrest : incl formats date_formats_no_year)
    by (intros x Hx; apply Hincl; now right).
  destruct (Strptime.strptime _ (f ++ " %Y")) as [e|cand] eqn:Hp; [now apply IH|].
  apply strptime_year in Hp; [|apply Hincl; now left|exact Hy].
  unfold assumed. destruct (date_gt cand now) eqn:Hgt.
  - destruct (new _ _ _) as [e|d] eqn:Hn; [now apply IH|].
    intros [= <-]. apply new_inv in Hn as [-> _]. cbn [year month day].
    right. split; [reflexivity|].
    unfold date_gt in Hgt. rewrite Hp, Z.compare_refl in Hgt.
    destruct (Z.compare_spec (month cand) (month now)) as [E|L|G]; try discriminate.
    + right. apply Z.ltb_lt in Hgt. auto.
    + left. lia.
  - intros [= <-]. now left.
Qed.

End WithinAYear.

(** X11.  A date without a year, settled by the yearless templates, is
    never counted more than 365 days back: the candidate of this year is
    kept when it does not lie after the reference date, and is moved to
    the year before otherwise, where it lies later in the calendar than
    the reference date. *)
Theorem yearless_within_a_year (verbose : bool) (reference : datetime) (raw : string)
        (parsed : datetime) :
  valid reference ->
  reaches_dates (normalize raw) = true ->
  with_year_parse (clean (init verbose) (normalize raw)) = None ->
  no_year_date reference
    (clean (init verbose) (normalize raw) ++ " " ++ decimal (year reference))
    date_formats_no_year = Some parsed ->
  exists d, resolve verbose reference raw = inr (Some d) /\ (0 <= d <= 365)%Z.
Proof.
  intros Hv Hreach Hwith Hno.
  destruct (no_year_answer verbose reference raw Hv Hreach parsed Hwith Hno) as [Hr Hpos].
  exists (days_between parsed reference). split; [exact Hr|]. split; [exact Hpos|].
  destruct (no_year_date_inv _ _ _ _ Hno) as (Hgt & Hc & _).
  pose proof Hv as (Hcr & _).
  unfold days_between, toordinal.
  destruct (no_year_date_year reference _ parsed Hv date_formats_no_year
              (incl_refl _) Hno) as [Ey|[Ey Hlater]].
  - pose proof (day_of_year_range _ _ _ Hc) as R1.
    pose proof (day_of_year_range _ _ _ Hcr) as R2.
    unfold ymd2ord. rewrite Ey in *.
    destruct (is_leap (year reference)); lia.
  - rewrite Ey in *. now apply last_year_span.
Qed.

Lemma yearless_within_a_year_witness :
  valid (mkdatetime 2024 12 31 23 59 59 0)
  /\ reaches_dates (normalize "1 January") = true
  /\ with_year_parse (clean (init false) (normalize "1 January")) = None
  /\ no_year_date (mkdatetime 2024 12 31 23 59 59 0)
       (clean (init false) (normalize "1 January") ++ " "
        ++ decimal (year (mkdatetime 2024 12 31 23 59 59 0)))
       date_formats_no_year = Some (mkdatetime 2024 1 1 0 0 0 0)
  /\ exists d,
       resolve false (mkdatetime 2024 12 31 23 59 59 0) "1 January" = inr (Some d)
       /\ (0 <= d <= 365)%Z.
Proof.
  assert (Hv : valid (mkdatetime 2024 12 31 23 59 59 0)).
  { unfold valid; simpl; repeat split; try reflexivity; lia. }
  split; [exact Hv|]. split; [reflexivity|]. split; [reflexivity|]. split; [reflexivity|].
  apply (yearless_within_a_year false (mkdatetime 2024 12 31 23 59 59 0) "1 January"
           (mkdatetime 2024 1 1 0 0 0 0)); [exact Hv | reflexivity | reflexivity | reflexivity].
Defined.

(** ** Blank inputs *)

Section Blank.

Lemma lower_space (c : ascii) : Str.isspace c = true -> Str.lower_char c = c.
Proof.
  destruct c as [[] [] [] [] [] [] [] []]; intros H; try reflexivity; discriminate H.
Qed.

Lemma lower_blank (s : string) : Str.all Str.isspace s = true -> Str.lower s = s.
Proof.
  induction s as [|c s IH]; cbn [Str.all Str.lower]; [reflexivity|].
  intros H. apply andb_true_iff in H as [Hc Hs].
  now rewrite (lower_space c Hc), IH.
Qed.

Lemma lstrip_blank (s : string) : Str.all Str.isspace s = true -> Str.lstrip s = "".
Proof.
  induction s as [|c s IH]; cbn [Str.all Str.lstrip]; [reflexivity|].
  intros H. apply andb_true_iff in H as [Hc Hs]. rewrite Hc. now apply IH.
Qed.

Lemma normalize_blank (raw : string) : Str.all Str.isspace raw = true -> normalize raw = "".
Proof.
  intros H. unfold normalize, Str.strip.
  rewrite (lower_blank raw H), (lstrip_blank raw H). reflexivity.
Qed.

End Blank.

(** X12.  An input that is empty or holds white space only resolves to
    None: once trimmed nothing is left of it, and the call returns
    before any stage looks at the text. *)
Theorem blank_input_unparseable (verbose : bool) (reference : datetime) (raw : string) :
  Str.all Str.isspace raw = true -> resolve verbose reference raw = inr None.
Proof.
  intros H. apply normalize_blank in H.
  destruct (resolve_wp verbose reference raw (fun r => r = None)) as (r & Hr & ->);
    [|exact Hr].
  unfold normalize in H. unfold parse_timestamp_to_days.
  apply wp_bind, wp_now. apply wp_bind, wp_log.
  apply wp_bind. rewrite H. now apply wp_return.
Qed.

Lemma blank_input_unparseable_witness :
  Str.all Str.isspace "   " = true
  /\ resolve true (mkdatetime 2024 6 15 12 0 0 0) "   " = inr None.
Proof.
  split; [reflexivity|].
  apply blank_input_unparseable. reflexivity.
Defined.
